(** * py-northward: the migration runner of [src/migrate.py]

    A shallow embedding of the storage engines, the migration repository
    (discovery, validation, dependency resolution), the script loader's
    identity fields and the [Migrator] (up / down / migrate / rollback), with
    the properties of the runner stated over it.

    Conventions of the embedding:
    - a Python [str] is a [string]; characters are code points below 256,
      compared by code point as Python does;
    - the [Migrator] object, the external world touched by the opaque
      [up]/[down] bodies and an event trace are threaded through a small
      state-and-exception monad;
    - [Migrator.up] recurses through dependency references without any
      cycle detection: it is defined by recursion on a fuel argument and
      running out of fuel is a result of its own ([Diverge]);
    - debug and info logging is left out; the trace records the calls the
      [Migrator] itself makes: [logging.error], [print], the unit bodies
      and the storage writes;
    - importing a migration file executes its top-level statements; the
      files modelled are those whose top level only defines [dependencies],
      [up] and [down], so that the import itself neither prints nor touches
      the world;
    - identifiers given to the DynamoDB engine are taken to be valid hash
      keys (not empty, at most 2048 bytes); on others [get_item],
      [put_item] and [delete_item] raise a [ClientError], which is left
      out;
    - [table.scan()] returns one page of the table (DynamoDB stops at 1 MB)
      and [get_last_n] does not ask for the next one: the page is a
      parameter of the environment, [scan_page]. *)

From Stdlib Require Import String Ascii List ZArith Lia Bool.
From stdpp Require Import base gmap strings list sorting.

Local Open Scope string_scope.

(** ** Python string and [os.path] primitives *)

Module Py.

Definition sep : ascii := "/"%char.
Definition newline : ascii := "010"%char.

(** [s.startswith(p)] *)
Definition startswith (p s : string) : bool := String.prefix p s.

(** [s.endswith(p)] *)
Fixpoint endswith (p s : string) : bool :=
  String.eqb s p
  || match s with
     | EmptyString => false
     | String _ s' => endswith p s'
     end.

(** [s.replace(old, new)] for a non-empty [old]: occurrences are taken from
    left to right and do not overlap. [skip] counts the characters of the
    occurrence just replaced that are still to be dropped. *)
Fixpoint replace_from (old new : string) (skip : nat) (s : string) : string :=
  match s with
  | EmptyString => EmptyString
  | String c s' =>
      match skip with
      | S k => replace_from old new k s'
      | O =>
          if String.prefix old s
          then new ++ replace_from old new (String.length old - 1) s'
          else String c (replace_from old new 0 s')
      end
  end.

(** [s.replace("", new)] puts [new] before every character and at the end. *)
Fixpoint intersperse_all (new s : string) : string :=
  match s with
  | EmptyString => new
  | String c s' => new ++ String c (intersperse_all new s')
  end.

Definition replace (old new s : string) : string :=
  match old with
  | EmptyString => intersperse_all new s
  | _ => replace_from old new 0 s
  end.

(** [s.split(c)] for a one-character separator. *)
Fixpoint split (c : ascii) (s : string) : list string :=
  match s with
  | EmptyString => [EmptyString]
  | String a s' =>
      if Ascii.eqb a c then EmptyString :: split c s'
      else match split c s' with
           | [] => [String a EmptyString]
           | w :: ws => String a w :: ws
           end
  end.

(** [c.join(l)] *)
Definition join_with (c : ascii) (l : list string) : string :=
  String.concat (String c EmptyString) l.

Fixpoint lstrip (c : ascii) (s : string) : string :=
  match s with
  | EmptyString => EmptyString
  | String a s' => if Ascii.eqb a c then lstrip c s' else s
  end.

Fixpoint rstrip (c : ascii) (s : string) : string :=
  match s with
  | EmptyString => EmptyString
  | String a s' =>
      match rstrip c s' with
      | EmptyString => if Ascii.eqb a c then EmptyString else String a EmptyString
      | r => String a r
      end
  end.

(** [s.strip(c)] for a one-character set. *)
Definition strip (c : ascii) (s : string) : string := rstrip c (lstrip c s).

(** [l[start:]] with Python's treatment of a negative or too large start. *)
Definition slice_from {A} (start : Z) (l : list A) : list A :=
  let len := Z.of_nat (List.length l) in
  let i := if (start <? 0)%Z then Z.max (len + start) 0 else Z.min start len in
  drop (Z.to_nat i) l.

(** [posixpath.join(a, b)] *)
Definition path_join (a b : string) : string :=
  if startswith "/" b then b
  else if String.eqb a "" || endswith "/" a then a ++ b
  else a ++ "/" ++ b.

(** [posixpath.basename(p)]: what follows the last slash. *)
Definition basename (p : string) : string := List.last (split sep p) "".

Definition isabs (p : string) : bool := startswith "/" p.

(** [posixpath.dirname(p)]: what precedes the basename, without its
    trailing slashes unless it consists of slashes only. *)
Definition dirname (p : string) : string :=
  let head := substring 0 (String.length p - String.length (basename p)) p in
  if String.eqb (lstrip sep head) "" then head else rstrip sep head.

(** The component loop of [posixpath.normpath]; [acc] is [new_comps]
    reversed. *)
Fixpoint norm_comps (initial_slashes : nat) (acc : list string)
    (comps : list string) : list string :=
  match comps with
  | [] => rev acc
  | comp :: rest =>
      if String.eqb comp "" || String.eqb comp "." then
        norm_comps initial_slashes acc rest
      else if negb (String.eqb comp "..")
              || ((initial_slashes =? 0)%nat && match acc with [] => true | _ => false end)
              || match acc with top :: _ => String.eqb top ".." | [] => false end
      then norm_comps initial_slashes (comp :: acc) rest
      else norm_comps initial_slashes (List.tl acc) rest
  end.

(** [posixpath.normpath(path)] *)
Definition normpath (path : string) : string :=
  if String.eqb path "" then "."
  else
    let initial_slashes :=
      if startswith "/" path then
        if startswith "//" path && negb (startswith "///" path) then 2%nat
        else 1%nat
      else 0%nat in
    let comps := norm_comps initial_slashes [] (split sep path) in
    let body := join_with sep comps in
    let res := match initial_slashes with
               | 0%nat => body
               | 1%nat => "/" ++ body
               | _ => "//" ++ body
               end in
    if String.eqb res "" then "." else res.

(** [posixpath.abspath(path)] in the working directory [cwd]. *)
Definition abspath (cwd path : string) : string :=
  normpath (if isabs path then path else path_join cwd path).

Fixpoint common_prefix_length (l1 l2 : list string) : nat :=
  match l1, l2 with
  | a :: l1', b :: l2' =>
      if String.eqb a b then S (common_prefix_length l1' l2') else 0%nat
  | _, _ => 0%nat
  end.

(** [posixpath.relpath(path, start)] for a non-empty [path]. *)
Definition relpath (cwd path start : string) : string :=
  let start_tail := lstrip sep (abspath cwd start) in
  let path_tail := lstrip sep (abspath cwd path) in
  let start_list := if String.eqb start_tail "" then [] else split sep start_tail in
  let path_list := if String.eqb path_tail "" then [] else split sep path_tail in
  let i := common_prefix_length start_list path_list in
  let rel_list := (repeat ".." (List.length start_list - i) ++ drop i path_list)%list in
  match rel_list with
  | [] => "."
  | _ => join_with sep rel_list
  end.

(** [\d] on a code point below 256. *)
Definition is_digit (c : ascii) : bool :=
  let n := nat_of_ascii c in (48 <=? n)%nat && (n <=? 57)%nat.

Fixpoint all_chars (p : ascii -> bool) (s : string) : bool :=
  match s with
  | EmptyString => true
  | String c s' => p c && all_chars p s'
  end.

(** The text after [n] characters. *)
Fixpoint str_drop (n : nat) (s : string) : string :=
  match n, s with
  | O, _ => s
  | S k, EmptyString => EmptyString
  | S k, String _ s' => str_drop k s'
  end.

(** The first [n] characters. *)
Fixpoint str_take (n : nat) (s : string) : string :=
  match n, s with
  | O, _ => EmptyString
  | S k, EmptyString => EmptyString
  | S k, String c s' => String c (str_take k s')
  end.

(** [.*\.py$] against the whole remaining text: [.] is any character but a
    newline, and [$] also matches just before a final newline. *)
Definition matches_any_dot_py (rest : string) : bool :=
  let r := if endswith (String newline EmptyString) rest
           then str_take (String.length rest - 1) rest else rest in
  endswith ".py" r && all_chars (fun c => negb (Ascii.eqb c newline)) r.

(** [re.match(r'\d{14}_.*\.py$', filename) is not None] *)
Definition re_match_migration (filename : string) : bool :=
  let stamp := str_take 14 filename in
  (String.length stamp =? 14)%nat && all_chars is_digit stamp
  && match str_drop 14 filename with
     | String c rest => Ascii.eqb c "_"%char && matches_any_dot_py rest
     | EmptyString => false
     end.

(** [sorted(l)] on strings: Python orders strings by code point, which is
    the order [String.le] (that is [String.leb]). *)
Definition sorted (l : list string) : list string := merge_sort String.le l.

(** [sorted(l, reverse=True)] on strings. *)
Definition sorted_reverse (l : list string) : list string :=
  merge_sort (flip String.le) l.

End Py.

(** ** Storage engines *)

(** [DynamoDBStorageEngine]: the table has the single hash key [filename], so
    its content is a finite set of identifiers. The table is taken to exist
    and to be reachable, and the identifiers to be valid keys. *)
Module DynamoDBStorageEngine.

Definition has_run (items : gset string) (filename : string) : bool :=
  bool_decide (filename ∈ items).

(** [sorted(items, reverse=True, key=filename)] and then [items[-n:]];
    [items] is the [Items] of the response of [table.scan()], the one page
    the call returned. *)
Definition get_last_n (items : gset string) (n : Z) : list string :=
  Py.slice_from (- n) (Py.sorted_reverse (elements items)).

Definition store (items : gset string) (filename : string) : gset string :=
  {[ filename ]} ∪ items.

(** [delete_item] of a missing key leaves the table as it is. *)
Definition delete (items : gset string) (filename : string) : gset string :=
  items ∖ {[ filename ]}.

End DynamoDBStorageEngine.

(** [MemoryStorageEngine]: the dict [self.data]. *)
Module MemoryStorageEngine.

Definition has_run (data : gmap string bool) (filename : string) : bool :=
  bool_decide (is_Some (data !! filename)).

Definition store (data : gmap string bool) (filename : string) : gmap string bool :=
  <[ filename := true ]> data.

(** [del self.data[filename]]: [None] stands for the [KeyError]. *)
Definition delete (data : gmap string bool) (filename : string)
  : option (gmap string bool) :=
  match data !! filename with
  | Some _ => Some (base.delete filename data)
  | None => None
  end.

End MemoryStorageEngine.

Inductive Engine :=
| DynamoDB (items : gset string)
| Memory (data : gmap string bool).

Inductive Exn :=
| FileNotFoundError (path : string)   (* raised by [_load_script] *)
| OSError (path : string)             (* [os.listdir] on what is no directory *)
| ImportFailure (path : string)       (* the module could not be read or executed *)
| ValueError (msg : string)
| KeyError (key : string)
| AttributeError (attr : string)
| BodyException (path : string).      (* raised inside a unit's [up] or [down] *)

Inductive Event :=
| EvUp (path : string)       (* [script.up()] was called *)
| EvDown (path : string)     (* [script.down()] was called *)
| EvStore (id : string)      (* [storage_engine.store(id)] *)
| EvDelete (id : string)     (* [storage_engine.delete(id)] *)
| EvLogError (msg : string)  (* [logging.error(msg)] *)
| EvPrint (msg : string)     (* [print(msg)] *)
| EvMakeEmpty.               (* [make_empty()] was called *)

Section Model.

Context {World : Type}.

(** What executing a migration file defines: the optional [dependencies]
    attribute and the two opaque procedures. A body acts on the external
    world and either returns ([true]) or raises ([false]). *)
Record PyModule := {
  mod_dependencies : option (list string);
  mod_up : World -> bool * World;
  mod_down : World -> bool * World
}.

(** The module object returned by [_load_script]. *)
Record Script := {
  script_file : string;
  filename : string;
  dependency_path : string;
  script_module : PyModule
}.

(** The environment as the runner reads it; it does not change during a
    run. [exec_module path] is what importing the file defines, [None] when
    the file cannot be imported. [scan_page items] is the page [table.scan()]
    returns for a table holding [items]: all of it for a table of less than
    1 MB, a part of it otherwise. *)
Record FileSystem := {
  listdir : string -> option (list string);
  path_exists : string -> bool;
  isdir : string -> bool;
  exec_module : string -> option PyModule;
  getcwd : string;
  scan_page : gset string -> gset string
}.

(** The [Migrator] object, the external world and the trace. *)
Record State := mkState {
  directory : string;
  storage_engine : Engine;
  dry_run : bool;
  migrate_dependencies : bool;
  world : World;
  trace : list Event
}.

(** [Migrator(directory, storage_engine, dry_run, migrate_dependencies)] *)
Definition Migrator (directory : string) (storage_engine : Engine)
    (dry_run migrate_dependencies : bool) (w : World) : State :=
  mkState directory storage_engine dry_run migrate_dependencies w [].

Inductive Result (A : Type) :=
| Ok (a : A) (st : State)
| Raise (e : Exn) (st : State)
| Diverge.
Arguments Ok {A} a st.
Arguments Raise {A} e st.
Arguments Diverge {A}.

Definition M (A : Type) : Type := State -> Result A.

Definition ret {A} (a : A) : M A := fun st => Ok a st.

Definition bind {A B} (m : M A) (k : A -> M B) : M B :=
  fun st =>
    match m st with
    | Ok a st' => k a st'
    | Raise e st' => Raise e st'
    | Diverge => Diverge
    end.

Definition raise {A} (e : Exn) : M A := fun st => Raise e st.

Definition get : M State := fun st => Ok st st.

Definition emit (e : Event) : M unit :=
  fun st => Ok tt (mkState (directory st) (storage_engine st) (dry_run st)
                     (migrate_dependencies st) (world st) (trace st ++ [e])%list).

Definition set_directory (d : string) : M unit :=
  fun st => Ok tt (mkState d (storage_engine st) (dry_run st)
                     (migrate_dependencies st) (world st) (trace st)).

Definition set_engine (e : Engine) : M unit :=
  fun st => Ok tt (mkState (directory st) e (dry_run st)
                     (migrate_dependencies st) (world st) (trace st)).

Definition set_world (w : World) : M unit :=
  fun st => Ok tt (mkState (directory st) (storage_engine st) (dry_run st)
                     (migrate_dependencies st) w (trace st)).

End Model.

Arguments PyModule : clear implicits.
Arguments Script : clear implicits.
Arguments FileSystem : clear implicits.
Arguments State : clear implicits.
Arguments Result : clear implicits.
Arguments M : clear implicits.
Arguments Ok {World A} a st.
Arguments Raise {World A} e st.
Arguments Diverge {World A}.

Declare Scope mig_scope.
Delimit Scope mig_scope with mig.
Notation "x <- c ;; k" := (bind c (fun x => k))
  (at level 100, c at next level, right associativity) : mig_scope.
Notation "c ;;; k" := (bind c (fun _ => k))
  (at level 100, right associativity) : mig_scope.

Section Runner.

Context {World : Type}.
Variable fs : FileSystem World.

Local Open Scope mig_scope.

Abbreviation M := (M World).
Abbreviation Script := (Script World).

(** *** The storage engine as the Migrator calls it *)

Definition has_run (filename : string) : M bool :=
  fun st =>
    Ok (match storage_engine st with
        | DynamoDB items => DynamoDBStorageEngine.has_run items filename
        | Memory data => MemoryStorageEngine.has_run data filename
        end) st.

Definition store (filename : string) : M unit :=
  emit (EvStore filename) ;;;
  st <- get ;;
  set_engine (match storage_engine st with
              | DynamoDB items => DynamoDB (DynamoDBStorageEngine.store items filename)
              | Memory data => Memory (MemoryStorageEngine.store data filename)
              end).

Definition delete (filename : string) : M unit :=
  emit (EvDelete filename) ;;;
  st <- get ;;
  match storage_engine st with
  | DynamoDB items => set_engine (DynamoDB (DynamoDBStorageEngine.delete items filename))
  | Memory data =>
      match MemoryStorageEngine.delete data filename with
      | Some data' => set_engine (Memory data')
      | None => raise (KeyError filename)
      end
  end.

(** [MemoryStorageEngine] has no [get_last_n]. *)
Definition get_last_n (n : Z) : M (list string) :=
  st <- get ;;
  match storage_engine st with
  | DynamoDB items =>
      ret (DynamoDBStorageEngine.get_last_n (scan_page fs items) n)
  | Memory _ => raise (AttributeError "get_last_n")
  end.

(** *** MigratorHelpers *)

Definition os_listdir (d : string) : M (list string) :=
  match listdir fs d with
  | Some names => ret names
  | None => raise (OSError d)
  end.

Definition _is_migration_file (filename : string) : bool :=
  Py.re_match_migration filename.

Definition _load_script (path : string) : M Script :=
  st <- get ;;
  if negb (path_exists fs path) then raise (FileNotFoundError path)
  else
    let dependency_path :=
      Py.replace ".py" "" (Py.relpath (getcwd fs) path (directory st)) in
    match exec_module fs path with
    | None => raise (ImportFailure path)
    | Some module =>
        ret {| script_file := path;
               filename := Py.strip Py.sep
                             (Py.replace (directory st) ""
                                (Py.replace ".py" "" path));
               dependency_path := dependency_path;
               script_module := module |}
    end.

Definition _find_modules_with_migrations : M (list string) :=
  st <- get ;;
  items <- os_listdir (directory st) ;;
  ret (List.filter
         (fun module_path =>
            isdir fs module_path
            && path_exists fs (Py.path_join module_path "migrations"))
         (List.map (Py.path_join (directory st)) items)).

(** [[os.path.join(d, f) for f in os.listdir(d) if self._is_migration_file(f)]] *)
Definition migration_files_in (d : string) : M (list string) :=
  names <- os_listdir d ;;
  ret (List.map (Py.path_join d) (List.filter _is_migration_file names)).

Fixpoint collect_modules (modules : list string) : M (list string) :=
  match modules with
  | [] => ret []
  | module_path :: rest =>
      found <- migration_files_in (Py.path_join module_path "migrations") ;;
      more <- collect_modules rest ;;
      ret (found ++ more)%list
  end.

(** Lines 157-169: the three layouts. *)
Definition scan_migration_files : M (list string) :=
  st <- get ;;
  migration_files <- migration_files_in (directory st) ;;
  match migration_files with
  | [] =>
      if path_exists fs (Py.path_join (directory st) "migrations") then
        set_directory (Py.path_join (directory st) "migrations") ;;;
        st' <- get ;;
        migration_files_in (directory st')
      else
        modules <- _find_modules_with_migrations ;;
        collect_modules modules
  | _ => ret migration_files
  end.

Definition migration_name (f : string) : string :=
  Py.replace ".py" "" (Py.basename f).

Definition migration_timestamp (f : string) : string :=
  List.hd "" (Py.split "_" (migration_name f)).

(** Lines 172-185: the uniqueness loop over the two dicts. *)
Fixpoint check_unique (migration_names migration_timestamps : gmap string bool)
    (files : list string) : M unit :=
  match files with
  | [] => ret tt
  | f :: rest =>
      let name := migration_name f in
      if bool_decide (is_Some (migration_names !! name)) then
        raise (ValueError ("Duplicate migration file name used: " ++ f))
      else
        let timestamp := migration_timestamp f in
        if bool_decide (is_Some (migration_timestamps !! timestamp)) then
          raise (ValueError ("Duplicate migration timestamp used: " ++ f))
        else
          check_unique (<[ name := true ]> migration_names)
                       (<[ timestamp := true ]> migration_timestamps) rest
  end.

Definition _find_all_migration_files : M (list string) :=
  migration_files <- scan_migration_files ;;
  check_unique ∅ ∅ migration_files ;;;
  ret migration_files.

Definition _resolve_dependency_path (dependency : string) : M string :=
  st <- get ;;
  match Py.split Py.sep dependency with
  | [module_name; migrations_folder; migration_name] =>
      if String.eqb migrations_folder "migrations" then
        ret (Py.path_join
               (Py.path_join (Py.path_join (directory st) module_name)
                  migrations_folder)
               (migration_name ++ ".py"))
      else ret (Py.path_join (directory st) (dependency ++ ".py"))
  | _ => ret (Py.path_join (directory st) (dependency ++ ".py"))
  end.

(** *** Migrator *)

(** Calling an opaque body: the world changes, and a raised exception
    propagates as it is. *)
Definition call_body (body : World -> bool * World) (path : string) : M unit :=
  st <- get ;;
  let '(ok, w) := body (world st) in
  set_world w ;;;
  if ok then ret tt else raise (BodyException path).

(** Lines 272-277. *)
Definition run_up (script : Script) : M unit :=
  st <- get ;;
  if negb (dry_run st) then
    emit (EvUp (script_file script)) ;;;
    call_body (mod_up (script_module script)) (script_file script) ;;;
    store (dependency_path script)
  else ret tt.

(** Lines 261-270; the result is [true] when the loop left [up] through
    the [return] of line 267. *)
Fixpoint up_dependencies (up : Script -> M unit) (script : Script)
    (dependencies : list string) : M bool :=
  match dependencies with
  | [] => ret false
  | dependency :: rest =>
      resolved_path <- _resolve_dependency_path dependency ;;
      dependency_script <- _load_script resolved_path ;;
      applied <- has_run (dependency_path dependency_script) ;;
      if negb applied then
        st <- get ;;
        if negb (migrate_dependencies st) then
          emit (EvLogError (filename script ++ " has not been run because "
                            ++ dependency_path dependency_script
                            ++ " has not been run")) ;;;
          ret true
        else
          dependency_script <- _load_script resolved_path ;;
          up dependency_script ;;;
          up_dependencies up script rest
      else up_dependencies up script rest
  end.

Definition up_body (up : Script -> M unit) (script : Script) : M unit :=
  done <- has_run (filename script) ;;
  if done then ret tt
  else
    returned <- match mod_dependencies (script_module script) with
                | Some dependencies => up_dependencies up script dependencies
                | None => ret false
                end ;;
    if returned then ret tt else run_up script.

(** [Migrator.up]; the recursion through dependencies is bounded by [fuel]. *)
Fixpoint up (fuel : nat) (script : Script) : M unit :=
  match fuel with
  | O => fun _ => Diverge
  | S fuel' => up_body (up fuel') script
  end.

(** [Migrator.down] *)
Definition down (script : Script) : M unit :=
  applied <- has_run (filename script) ;;
  if negb applied then ret tt
  else
    st <- get ;;
    if negb (dry_run st) then
      emit (EvDown (script_file script)) ;;;
      call_body (mod_down (script_module script)) (script_file script) ;;;
      delete (dependency_path script)
    else ret tt.

Definition _migrate_up (fuel : nat) (filename : string) : M unit :=
  st <- get ;;
  let script_path := Py.path_join (directory st) filename in
  script <- _load_script script_path ;;
  up fuel script.

Fixpoint migrate_loop (fuel : nat) (files : list string) : M unit :=
  match files with
  | [] => ret tt
  | full_path :: rest => _migrate_up fuel full_path ;;; migrate_loop fuel rest
  end.

(** [Migrator.migrate] *)
Definition migrate (fuel : nat) : M unit :=
  migration_files <- _find_all_migration_files ;;
  migrate_loop fuel (Py.sorted migration_files).

(** The dict comprehension of line 311: a later file replaces an earlier
    one of the same name. *)
Definition migrations_map_of (files : list string) : gmap string string :=
  List.fold_left (fun m f => <[ migration_name f := f ]> m) files ∅.

Fixpoint rollback_loop (migrations_map : gmap string string) (n count : Z)
    (files : list string) : M unit :=
  match files with
  | [] => ret tt
  | file :: rest =>
      let file := Py.replace ".py" "" (Py.basename file) in
      match migrations_map !! file with
      | None => raise (KeyError file)
      | Some path =>
          script <- _load_script path ;;
          down script ;;;
          let count := (count + 1)%Z in
          if (count =? n)%Z then ret tt
          else rollback_loop migrations_map n count rest
      end
  end.

(** [Migrator.rollback] *)
Definition rollback (n : Z) : M unit :=
  migration_files <- _find_all_migration_files ;;
  let migrations_map := migrations_map_of migration_files in
  migration_files <- get_last_n n ;;
  rollback_loop migrations_map n 0 migration_files.

Fixpoint status_loop (files : list string) : M unit :=
  match files with
  | [] => ret tt
  | file :: rest =>
      (if Py.endswith ".py" file then
         st <- get ;;
         script <- _load_script (Py.path_join (directory st) file) ;;
         applied <- has_run (filename script) ;;
         emit (EvPrint (filename script ++
                        (if applied then " has been run" else " has not been run")))
       else ret tt) ;;;
      status_loop rest
  end.

(** [Migrator.status] *)
Definition status : M unit :=
  st <- get ;;
  files <- os_listdir (directory st) ;;
  status_loop (Py.sorted files).

(** *** The command line *)

Inductive Command := CmdUp | CmdDown | CmdRollback | CmdStatus | CmdMake.

(** The parsed arguments; [arg_directory] is taken after [os.path.abspath]. *)
Record Args := {
  arg_engine : string;
  arg_directory : string;
  arg_file : option string;
  arg_dry_run : bool;
  arg_migrate_dependencies : bool;
  arg_command : Command;
  arg_n : Z
}.

Inductive MainResult :=
| SysExit (code : Z) (printed : string)
| Returned (r : Result World unit).

(** [main]: [table] is the content of the DynamoDB table the arguments
    name, [w] the external world; [make_empty] is only recorded. An empty
    [--file] is falsy for [if args.file:] and counts as none; [Migrator] has
    no [migrate_script], so the call of line 407 raises. *)
Definition main (fuel : nat) (args : Args) (table : gset string) (w : World)
  : MainResult :=
  let engine :=
    if String.eqb (arg_engine args) "dynamodb" then Some (DynamoDB table)
    else if String.eqb (arg_engine args) "memory" then Some (Memory ∅)
    else None in
  match engine with
  | None => SysExit 1 "Invalid engine"
  | Some storage_engine =>
      if match arg_command args with CmdRollback => true | _ => false end
         && (arg_n args <? 1)%Z
      then SysExit 1 "Invalid number of migrations to rollback"
      else
        let migrator :=
          Migrator (arg_directory args) storage_engine (arg_dry_run args)
            (arg_migrate_dependencies args) w in
        Returned
          (match arg_command args with
           | CmdUp =>
               match arg_file args with
               | Some file =>
                   if String.eqb file "" then migrate fuel migrator
                   else
                     (set_directory (Py.dirname file) ;;;
                      raise (AttributeError "migrate_script")) migrator
               | None => migrate fuel migrator
               end
           | CmdRollback | CmdDown => rollback (arg_n args) migrator
           | CmdStatus => status migrator
           | CmdMake => emit EvMakeEmpty migrator
           end)
  end.

End Runner.

(** ** Observations on a run *)

Section Observations.

Context {World : Type}.

Definition result_trace {A} (r : Result World A) : list Event :=
  match r with
  | Ok _ st | Raise _ st => trace st
  | Diverge => []
  end.

(** The paths of the units whose [up] body was called, in call order. *)
Definition up_paths (evs : list Event) : list string :=
  omap (fun e => match e with EvUp p => Some p | _ => None end) evs.

(** The paths of the units whose [down] body was called, in call order. *)
Definition down_paths (evs : list Event) : list string :=
  omap (fun e => match e with EvDown p => Some p | _ => None end) evs.

Definition is_log_event (e : Event) : Prop :=
  match e with
  | EvLogError _ | EvPrint _ => True
  | _ => False
  end.

Definition has_run_in (e : Engine) (id : string) : bool :=
  match e with
  | DynamoDB items => DynamoDBStorageEngine.has_run items id
  | Memory data => MemoryStorageEngine.has_run data id
  end.

(** The effect of the trace's [store] calls on an engine. *)
Definition replay_store (e : Engine) (ev : Event) : Engine :=
  match ev with
  | EvStore id =>
      match e with
      | DynamoDB items => DynamoDB (DynamoDBStorageEngine.store items id)
      | Memory data => Memory (MemoryStorageEngine.store data id)
      end
  | _ => e
  end.

Definition replay (evs : list Event) (e : Engine) : Engine :=
  List.fold_left replay_store evs e.

End Observations.

(** The number a string of decimal digits denotes. *)
Fixpoint digits_value (acc : N) (s : string) : N :=
  match s with
  | EmptyString => acc
  | String c s' => digits_value (10 * acc + (N_of_ascii c - 48))%N s'
  end.

(** The 14-digit timestamp of a migration file, as a number. *)
Definition timestamp_value (path : string) : N :=
  digits_value 0 (Py.str_take 14 (Py.basename path)).

Definition chronological (paths : list string) : Prop :=
  StronglySorted (fun p q => (timestamp_value p < timestamp_value q)%N) paths.

Definition no_slash (s : string) : bool :=
  Py.all_chars (fun c => negb (Ascii.eqb c Py.sep)) s.

(** Directory entries are names: they contain no slash. *)
Definition listing_wf {World} (fs : FileSystem World) : Prop :=
  forall d names, listdir fs d = Some names ->
    Forall (fun f => no_slash f = true) names.

(** No migration file declares a dependency. *)
Definition no_dependencies {World} (fs : FileSystem World) : Prop :=
  forall p m, exec_module fs p = Some m ->
    mod_dependencies m = None \/ mod_dependencies m = Some [].

(** The flat and the [migrations]-subfolder layouts: every discovered file
    lies in one directory. *)
Definition single_directory_layout {World} (fs : FileSystem World) (d : string) : Prop :=
  (exists names, listdir fs d = Some names
                 /\ List.filter _is_migration_file names <> [])
  \/ path_exists fs (Py.path_join d "migrations") = true.

(** ** Concrete file systems *)

Definition lookup_path {A} (p : string) (l : list (string * A)) : option A :=
  snd <$> List.find (fun e => String.eqb (fst e) p) l.

(** A file system given by its directories (with their entries) and its
    migration files (with what importing them defines); the table is small
    enough for one scan page. *)
Definition fs_of (dirs : list (string * list string))
    (files : list (string * PyModule unit)) (cwd : string) : FileSystem unit :=
  {| listdir := fun d => lookup_path d dirs;
     path_exists := fun p =>
       bool_decide (is_Some (lookup_path p dirs))
       || bool_decide (is_Some (lookup_path p files));
     isdir := fun p => bool_decide (is_Some (lookup_path p dirs));
     exec_module := fun p => lookup_path p files;
     getcwd := cwd;
     scan_page := fun items => items |}.

Definition ok_body : unit -> bool * unit := fun w => (true, w).
Definition failing_body : unit -> bool * unit := fun w => (false, w).

Definition unit_with (deps : list string) : PyModule unit :=
  {| mod_dependencies := Some deps; mod_up := ok_body; mod_down := ok_body |}.

Definition failing_unit : PyModule unit :=
  {| mod_dependencies := Some []; mod_up := failing_body; mod_down := failing_body |}.

(** The identifiers an engine holds, in ascending order. *)
Definition applied_ids (e : Engine) : list string :=
  match e with
  | DynamoDB items => Py.sorted (elements items)
  | Memory data => Py.sorted (fst <$> map_to_list data)
  end.

(** A flat directory of three units, each depending on the one before. *)
Definition flat3_fs : FileSystem unit :=
  fs_of [("/app", ["20240410094004_a.py"; "20240410094005_b.py"; "20240410094006_c.py"])]
        [("/app/20240410094004_a.py", unit_with []);
         ("/app/20240410094005_b.py", unit_with ["20240410094004_a"]);
         ("/app/20240410094006_c.py", unit_with ["20240410094005_b"])]
        "/".

Definition flat3_all_applied : gset string :=
  list_to_set ["20240410094004_a"; "20240410094005_b"; "20240410094006_c"].

(** Two modules; the module that sorts first holds the later timestamp. *)
Definition modules_fs : FileSystem unit :=
  fs_of [("/root", ["a"; "b"]);
         ("/root/a", ["migrations"]); ("/root/b", ["migrations"]);
         ("/root/a/migrations", ["20240101000002_x.py"]);
         ("/root/b/migrations", ["20240101000001_y.py"])]
        [("/root/a/migrations/20240101000002_x.py", unit_with []);
         ("/root/b/migrations/20240101000001_y.py", unit_with [])]
        "/".

(** A root [/m] with a sub-directory [m]: the unit [/m/m/..._a.py] has the
    same [filename] as the top-level unit [/m/..._a.py] and another
    [dependency_path]. *)
Definition shadow_fs : FileSystem unit :=
  fs_of [("/m", ["20240101000000_a.py"; "20240101000001_u.py"; "m"]);
         ("/m/m", ["20240101000000_a.py"])]
        [("/m/20240101000000_a.py", unit_with []);
         ("/m/20240101000001_u.py", unit_with ["m/20240101000000_a"]);
         ("/m/m/20240101000000_a.py", unit_with [])]
        "/".

(** A root whose path contains [.py]. *)
Definition dotpy_fs : FileSystem unit :=
  fs_of [("/proj.py", ["20240101000000_a.py"])]
        [("/proj.py/20240101000000_a.py", unit_with [])]
        "/".

(** Unit [b] depends on unit [a]. *)
Definition blocked_fs : FileSystem unit :=
  fs_of [("/app", ["20240410094004_a.py"; "20240410094006_b.py"])]
        [("/app/20240410094004_a.py", unit_with []);
         ("/app/20240410094006_b.py", unit_with ["20240410094004_a"])]
        "/".

(** Two modules holding files of the same timestamp. *)
Definition duplicate_fs : FileSystem unit :=
  fs_of [("/root", ["a"; "b"]);
         ("/root/a", ["migrations"]); ("/root/b", ["migrations"]);
         ("/root/a/migrations", ["20240101000001_x.py"]);
         ("/root/b/migrations", ["20240101000001_y.py"])]
        [("/root/a/migrations/20240101000001_x.py", unit_with []);
         ("/root/b/migrations/20240101000001_y.py", unit_with [])]
        "/".

(** A flat directory whose second unit raises in both bodies. *)
Definition failing_fs : FileSystem unit :=
  fs_of [("/app", ["20240410094004_a.py"; "20240410094006_b.py"])]
        [("/app/20240410094004_a.py", unit_with []);
         ("/app/20240410094006_b.py", failing_unit)]
        "/".

Definition down_without_count : Args :=
  {| arg_engine := "dynamodb"; arg_directory := "/app"; arg_file := None;
     arg_dry_run := false; arg_migrate_dependencies := false;
     arg_command := CmdDown; arg_n := 0 |}.

(** The loaded units of [blocked_fs] and [failing_fs] under the root [/app]. *)
Definition unit_a : Script unit :=
  {| script_file := "/app/20240410094004_a.py";
     filename := "20240410094004_a";
     dependency_path := "20240410094004_a";
     script_module := unit_with [] |}.

Definition unit_b : Script unit :=
  {| script_file := "/app/20240410094006_b.py";
     filename := "20240410094006_b";
     dependency_path := "20240410094006_b";
     script_module := unit_with ["20240410094004_a"] |}.

Definition failing_b : Script unit :=
  {| script_file := "/app/20240410094006_b.py";
     filename := "20240410094006_b";
     dependency_path := "20240410094006_b";
     script_module := failing_unit |}.

(** A flat directory of two units without dependencies. *)
Definition plain_fs : FileSystem unit :=
  fs_of [("/app", ["20240410094006_b.py"; "20240410094004_a.py"])]
        [("/app/20240410094004_a.py", unit_with []);
         ("/app/20240410094006_b.py", unit_with [])]
        "/".

(** Unit [b] depends on unit [a] and raises in both bodies. *)
Definition failing_unit_after (deps : list string) : PyModule unit :=
  {| mod_dependencies := Some deps; mod_up := failing_body; mod_down := failing_body |}.

Definition failing_dep_fs : FileSystem unit :=
  fs_of [("/app", ["20240410094004_a.py"; "20240410094006_b.py"])]
        [("/app/20240410094004_a.py", unit_with []);
         ("/app/20240410094006_b.py", failing_unit_after ["20240410094004_a"])]
        "/".

Definition failing_dep_b : Script unit :=
  {| script_file := "/app/20240410094006_b.py";
     filename := "20240410094006_b";
     dependency_path := "20240410094006_b";
     script_module := failing_unit_after ["20240410094004_a"] |}.

(** Unit [x] depends on unit [y], which sorts after it. *)
Definition blocked_first_fs : FileSystem unit :=
  fs_of [("/app", ["20240410094004_x.py"; "20240410094006_y.py"])]
        [("/app/20240410094004_x.py", unit_with ["20240410094006_y"]);
         ("/app/20240410094006_y.py", unit_with [])]
        "/".

Definition unit_x : Script unit :=
  {| script_file := "/app/20240410094004_x.py";
     filename := "20240410094004_x";
     dependency_path := "20240410094004_x";
     script_module := unit_with ["20240410094006_y"] |}.

Definition unit_y : Script unit :=
  {| script_file := "/app/20240410094006_y.py";
     filename := "20240410094006_y";
     dependency_path := "20240410094006_y";
     script_module := unit_with [] |}.

(** Unit [b] depends on a unit whose file is not there. *)
Definition missing_dep_fs : FileSystem unit :=
  fs_of [("/app", ["20240410094006_b.py"])]
        [("/app/20240410094006_b.py", unit_with ["20240410094004_a"])]
        "/".

(** The loaded second unit of [plain_fs]. *)
Definition plain_b : Script unit :=
  {| script_file := "/app/20240410094006_b.py";
     filename := "20240410094006_b";
     dependency_path := "20240410094006_b";
     script_module := unit_with [] |}.

Definition flat3_files : list string :=
  ["/app/20240410094004_a.py"; "/app/20240410094005_b.py";
   "/app/20240410094006_c.py"].

(** The units of [flat3_fs] ranked along their dependencies. *)
Definition flat3_rank (path : string) : nat :=
  if String.eqb path "/app/20240410094006_c.py" then 2
  else if String.eqb path "/app/20240410094005_b.py" then 1
  else 0.

Definition flat3_c : Script unit :=
  {| script_file := "/app/20240410094006_c.py";
     filename := "20240410094006_c";
     dependency_path := "20240410094006_c";
     script_module := unit_with ["20240410094005_b"] |}.

(** ** Specification vocabulary *)

Section Vocabulary.

Context {World : Type}.
Variable fs : FileSystem World.

Local Open Scope mig_scope.

Abbreviation St := (State World).

(** Weakest precondition of a computation for a normal and an exceptional
    postcondition; a diverging run satisfies it. *)
Definition wp {A} (m : M World A) (st : St)
    (Qok : A -> St -> Prop) (Qex : Exn -> St -> Prop) : Prop :=
  match m st with
  | Ok a st' => Qok a st'
  | Raise e st' => Qex e st'
  | Diverge => True
  end.

(** A computation that only reads: it returns or raises in the state it
    started from. *)
Definition reads_only {A} (m : M World A) : Prop :=
  forall st, match m st with
             | Ok _ st' | Raise _ st' => st' = st
             | Diverge => False
             end.

(** What [_load_script] can raise. *)
Definition load_exn (e : Exn) : Prop :=
  match e with
  | FileNotFoundError _ | ImportFailure _ => True
  | _ => False
  end.

(** The state after one more event. *)
Definition logged (st : St) (e : Event) : St :=
  mkState (directory st) (storage_engine st) (dry_run st)
    (migrate_dependencies st) (world st) (trace st ++ [e])%list.

(** Resolving and loading a dependency reference (lines 262-263). *)
Definition load_dependency (dependency : string) : M World (Script World) :=
  resolved <- _resolve_dependency_path dependency ;;
  _load_script fs resolved.

(** From [st] to [st'] nothing but log lines happened: the [Migrator], the
    store and the world are the same. *)
Definition only_logged (st st' : St) : Prop :=
  directory st' = directory st
  /\ storage_engine st' = storage_engine st
  /\ dry_run st' = dry_run st
  /\ migrate_dependencies st' = migrate_dependencies st
  /\ world st' = world st
  /\ exists evs, trace st' = (trace st ++ evs)%list /\ Forall is_log_event evs.

(** From [st] to [st'] the events [evs] happened and the store is what
    their [store] calls made of it. *)
Definition stored_by (evs : list Event) (st st' : St) : Prop :=
  trace st' = (trace st ++ evs)%list
  /\ storage_engine st' = replay evs (storage_engine st).

(** The exceptional postcondition for [up]: a [BodyException] is raised
    right after the call of the body, with the store as it was at the
    call. *)
Definition raised_after (st : St) (e : Exn) (st' : St) : Prop :=
  match e with
  | BodyException p => exists evs, stored_by (evs ++ [EvUp p]) st st'
  | _ => exists evs, stored_by evs st st'
  end.

(** The line logged at line 266. *)
Definition block_message (script dependency_script : Script World) : string :=
  filename script ++ " has not been run because "
  ++ dependency_path dependency_script ++ " has not been run".

(** Every dependency reference declared by module [m], resolved and loaded
    by a [Migrator] on directory [dir], has its [dependency_path] in [e]. *)
Definition dependencies_applied (dir : string) (e : Engine) (m : PyModule World) : Prop :=
  forall (st : St) deps d s,
    directory st = dir ->
    mod_dependencies m = Some deps -> In d deps ->
    load_dependency d st = Ok s st ->
    has_run_in e (dependency_path s) = true.

(** Whenever the trace [evs], run from the store [e], calls the [up] body of
    a unit, the dependencies that unit declares are in the store at that
    moment. *)
Definition dependencies_first (dir : string) (e : Engine) (evs : list Event) : Prop :=
  forall k p m,
    evs !! k = Some (EvUp p) -> exec_module fs p = Some m ->
    dependencies_applied dir (replay (take k evs) e) m.

(** The loader gives every unit of [units] (a set of paths), loaded by a
    [Migrator] on [dir], one identifier. *)
Definition keys_agree (dir : string) (units : string -> Prop) : Prop :=
  forall (st : St) p s,
    directory st = dir -> units p -> _load_script fs p st = Ok s st ->
    filename s = dependency_path s.

(** The dependency references of the units of [units] lead to units of
    [units] and descend along [rank]: there is no cycle among them. *)
Definition acyclic (dir : string) (units : string -> Prop) (rank : string -> nat)
  : Prop :=
  forall (st : St) p m deps d q,
    directory st = dir -> units p ->
    exec_module fs p = Some m -> mod_dependencies m = Some deps -> In d deps ->
    _resolve_dependency_path d st = Ok q st ->
    units q /\ (rank q < rank p)%nat.

(** The [Migrator]'s own fields are the same in both states. *)
Definition same_migrator (st st' : St) : Prop :=
  directory st' = directory st
  /\ dry_run st' = dry_run st
  /\ migrate_dependencies st' = migrate_dependencies st.

(** From [st] to [st'] the [Migrator]'s fields were kept, the store is what
    the [store] calls made of it, and no body was called before the
    dependencies of its unit were in the store. *)
Definition ordered_run (st st' : St) : Prop :=
  same_migrator st st'
  /\ exists evs, stored_by evs st st'
                 /\ dependencies_first (directory st) (storage_engine st) evs.

(** What [up] guarantees for a loaded unit of rank below [fuel]: it returns
    or raises after an ordered run, and when it returns the unit is in the
    store. *)
Definition up_ordered (dir : string) (units : string -> Prop)
    (rank : string -> nat) (fuel : nat) : Prop :=
  forall (script : Script World) (st : St),
    directory st = dir -> migrate_dependencies st = true -> dry_run st = false ->
    units (script_file script) ->
    _load_script fs (script_file script) st = Ok script st ->
    (rank (script_file script) < fuel)%nat ->
    match up fs fuel script st with
    | Ok _ st' =>
        ordered_run st st'
        /\ has_run_in (storage_engine st') (dependency_path script) = true
    | Raise _ st' => ordered_run st st'
    | Diverge => False
    end.

End Vocabulary.

(** What [os.path.join(d, f)] puts before a name [f]. *)
Definition join_prefix (d : string) : string :=
  if String.eqb d "" || Py.endswith "/" d then d else d ++ "/".

(** A path as discovery builds it: a directory joined with an accepted
    entry name. *)
Definition discovered (p : string) : Prop :=
  exists d f, p = Py.path_join d f /\ no_slash f = true
              /\ _is_migration_file f = true.

(** Two states that differ at most in the [Migrator]'s directory. *)
Definition same_but_directory {World} (st st' : State World) : Prop :=
  storage_engine st' = storage_engine st
  /\ dry_run st' = dry_run st
  /\ migrate_dependencies st' = migrate_dependencies st
  /\ world st' = world st
  /\ trace st' = trace st.

(** From [st] to [st'] the directory is kept and at most the body of the
    unit at [q] was called. *)
Definition at_most_up {World} (q : string) (st st' : State World) : Prop :=
  directory st' = directory st
  /\ exists evs, trace st' = (trace st ++ evs)%list
                 /\ (up_paths evs = [] \/ up_paths evs = [q]).

(** The leading 14 characters of a path's basename. *)
Definition leading_stamp (p : string) : string := Py.str_take 14 (Py.basename p).

(** An outcome that is not divergence and whose state satisfies [P]. *)
Definition ends_with {World A} (r : Result World A) (P : State World -> Prop) : Prop :=
  match r with
  | Ok _ st' | Raise _ st' => P st'
  | Diverge => False
  end.

(** ** More of the runner: [make_empty], and vocabulary for its properties *)

(** [old in s]: [old] occurs in [s]. *)
Fixpoint occurs (old s : string) : bool :=
  String.prefix old s
  || match s with
     | EmptyString => false
     | String _ s' => occurs old s'
     end.

(** A path component that [normpath] keeps as it is: not empty, without
    slash, and neither [.] nor [..]. *)
Definition plain_component (c : string) : bool :=
  negb (String.eqb c "") && no_slash c
  && negb (String.eqb c ".") && negb (String.eqb c "..").

Definition no_dot (s : string) : bool :=
  Py.all_chars (fun c => negb (Ascii.eqb c ".")) s.

Definition no_newline (s : string) : bool :=
  Py.all_chars (fun c => negb (Ascii.eqb c Py.newline)) s.

(** Events of applying: a call of an [up] body, a [store]. *)
Definition is_apply_event (e : Event) : Prop :=
  match e with
  | EvUp _ | EvStore _ => True
  | _ => False
  end.

(** Events of reversing: a call of a [down] body, a [delete]. *)
Definition is_reverse_event (e : Event) : Prop :=
  match e with
  | EvDown _ | EvDelete _ => True
  | _ => False
  end.

Definition nl : string := String Py.newline EmptyString.

(** The text [make_empty] writes: the template of lines 351-364 after
    [strip()], around the quoted dependency (or nothing). *)
Definition make_empty_text (dependency_filename : string) : string :=
  "dependencies = [" ++ nl
  ++ "    # List of dependencies" ++ nl
  ++ "    " ++ dependency_filename ++ nl
  ++ "]" ++ nl
  ++ nl
  ++ "def up():" ++ nl
  ++ "    # Write the migration code here" ++ nl
  ++ "    pass" ++ nl
  ++ nl
  ++ "def down():" ++ nl
  ++ "    # Write the rollback code here" ++ nl
  ++ "    pass".

Section MakeEmpty.

Context {World : Type}.
Variable fs : FileSystem World.

Local Open Scope mig_scope.

(** [Migrator.make_empty]: [now] is what [time.strftime('%Y%m%d%H%M%S')]
    gives; the result is the path opened for writing and the text written
    to it. *)
Definition make_empty (now : string) : M World (string * string) :=
  st <- get ;;
  let filename := now ++ "_migration.py" in
  files <- os_listdir fs (directory st) ;;
  let files := Py.sorted_reverse files in
  let dependency_filename :=
    match files with
    | f :: _ => "'" ++ Py.replace ".py" "" f ++ "'"
    | [] => ""
    end in
  ret (Py.path_join (directory st) filename,
       make_empty_text dependency_filename).

(** From [st] to [st'] the store and the world were kept and only log lines
    and prints were added to the trace (the directory may have been
    rebound). *)
Definition observed_only (st st' : State World) : Prop :=
  storage_engine st' = storage_engine st
  /\ world st' = world st
  /\ dry_run st' = dry_run st
  /\ exists evs, trace st' = (trace st ++ evs)%list /\ Forall is_log_event evs.

(** From [st] to [st'] nothing was reversed: what had run has run, and the
    trace gained no [down] call and no [delete]. *)
Definition only_applied (st st' : State World) : Prop :=
  (forall id, has_run_in (storage_engine st) id = true ->
              has_run_in (storage_engine st') id = true)
  /\ exists evs, trace st' = (trace st ++ evs)%list
                 /\ Forall (fun e => ~ is_reverse_event e) evs.

(** From [st] to [st'] nothing was applied: what has run had run before,
    and the trace gained no [up] call and no [store]. *)
Definition only_reversed (st st' : State World) : Prop :=
  (forall id, has_run_in (storage_engine st') id = true ->
              has_run_in (storage_engine st) id = true)
  /\ exists evs, trace st' = (trace st ++ evs)%list
                 /\ Forall (fun e => ~ is_apply_event e) evs.

(** From [st] to [st'] the store was kept and the [Migrator] called no [up]
    or [down] body and issued no [store] and no [delete]. *)
Definition store_untouched (st st' : State World) : Prop :=
  storage_engine st' = storage_engine st
  /\ exists evs, trace st' = (trace st ++ evs)%list
                 /\ Forall (fun e => ~ is_apply_event e /\ ~ is_reverse_event e) evs.

(** What [status] prints for the unit [s] when the store is [e]. *)
Definition status_line (e : Engine) (s : Script World) : string :=
  filename s ++ (if has_run_in e (filename s)
                 then " has been run" else " has not been run").

End MakeEmpty.

(** ** More concrete inputs *)

(** A directory without entries. *)
Definition empty_fs : FileSystem unit :=
  fs_of [("/new", [])] [] "/".

Definition modules_files : list string :=
  ["/root/a/migrations/20240101000002_x.py";
   "/root/b/migrations/20240101000001_y.py"].

(** [down] under [--dry-run]. *)
Definition dry_run_down : Args :=
  {| arg_engine := "dynamodb"; arg_directory := "/app"; arg_file := None;
     arg_dry_run := true; arg_migrate_dependencies := false;
     arg_command := CmdDown; arg_n := 0 |}.

(** [rollback 1] with [--engine memory]. *)
Definition memory_rollback : Args :=
  {| arg_engine := "memory"; arg_directory := "/app"; arg_file := None;
     arg_dry_run := false; arg_migrate_dependencies := false;
     arg_command := CmdRollback; arg_n := 1 |}.

(** A flat directory given by a relative path. *)
Definition relative_fs : FileSystem unit :=
  fs_of [("app", ["20240410094004_a.py"])]
        [("app/20240410094004_a.py", unit_with [])]
        "/".

(** [flat3_fs] with a table too large for one scan: the page leaves out the
    smallest identifier. *)
Definition paged_fs : FileSystem unit :=
  {| listdir := listdir flat3_fs;
     path_exists := path_exists flat3_fs;
     isdir := isdir flat3_fs;
     exec_module := exec_module flat3_fs;
     getcwd := getcwd flat3_fs;
     scan_page := fun items => items ∖ {[ "20240410094004_a" ]} |}.

(** ** The string and path primitives on sample inputs *)

Example replace_ex1 : Py.replace "aa" "b" "aaa" = "ba". Proof. reflexivity. Qed.
Example replace_ex2 : Py.replace "" "-" "abc" = "-a-b-c-". Proof. reflexivity. Qed.
Example split_ex1 : Py.split "/" "/a//b/" = [""; "a"; ""; "b"; ""]. Proof. reflexivity. Qed.
Example join_ex1 : Py.path_join "/m" "x.py" = "/m/x.py". Proof. reflexivity. Qed.
Example join_ex2 : Py.path_join "/m/" "x.py" = "/m/x.py". Proof. reflexivity. Qed.
Example join_ex3 : Py.path_join "/m" "/abs/x.py" = "/abs/x.py". Proof. reflexivity. Qed.
Example basename_ex1 : Py.basename "/a/b/" = "". Proof. reflexivity. Qed.
Example basename_ex2 : Py.basename "/a/b.py" = "b.py". Proof. reflexivity. Qed.
Example dirname_ex1 : Py.dirname "/a/b/c.py" = "/a/b". Proof. reflexivity. Qed.
Example dirname_ex2 : Py.dirname "/c.py" = "/". Proof. reflexivity. Qed.
Example dirname_ex3 : Py.dirname "c.py" = "". Proof. reflexivity. Qed.
Example endswith_ex1 : Py.endswith ".py" "a.py" = true. Proof. reflexivity. Qed.
Example endswith_ex2 : Py.endswith ".py" "a.pyc" = false. Proof. reflexivity. Qed.
Example endswith_ex3 : Py.endswith "" "a" = true. Proof. reflexivity. Qed.
Example strip_ex1 : Py.strip "/" "/a/b/" = "a/b". Proof. reflexivity. Qed.
Example strip_ex2 : Py.strip "/" "///" = "". Proof. reflexivity. Qed.
Example normpath_ex1 : Py.normpath "/a/./b/../c/" = "/a/c". Proof. reflexivity. Qed.
Example normpath_ex2 : Py.normpath "//a/../.." = "//". Proof. reflexivity. Qed.
Example normpath_ex3 : Py.normpath "a/../.." = "..". Proof. reflexivity. Qed.
Example normpath_ex4 : Py.normpath "///a" = "/a". Proof. reflexivity. Qed.
Example relpath_ex1 :
  Py.relpath "/tmp" "/m/m/20240101000000_a.py" "/m" = "m/20240101000000_a.py".
Proof. reflexivity. Qed.
Example relpath_ex2 : Py.relpath "/tmp" "/m/../x/a.py" "/m" = "../x/a.py".
Proof. reflexivity. Qed.
Example relpath_ex3 : Py.relpath "/tmp" "m/a.py" "m" = "a.py". Proof. reflexivity. Qed.
Example relpath_ex4 : Py.relpath "/tmp" "a.py" "" = "a.py". Proof. reflexivity. Qed.
Example re_ex1 : Py.re_match_migration "20240101000000_a.py" = true. Proof. reflexivity. Qed.
Example re_ex2 : Py.re_match_migration "20240101000000_a.pyc" = false. Proof. reflexivity. Qed.
Example re_ex3 : Py.re_match_migration "2024010100000_a.py" = false. Proof. reflexivity. Qed.
Example re_ex4 : Py.re_match_migration "20240101000000_.py" = true. Proof. reflexivity. Qed.
Example re_ex5 : Py.re_match_migration "20240101000000a.py" = false. Proof. reflexivity. Qed.
Example slice_ex1 : Py.slice_from (-2) [1;2;3;4;5] = [4;5]. Proof. reflexivity. Qed.
Example slice_ex2 : Py.slice_from 0 [1;2;3;4;5] = [1;2;3;4;5]. Proof. reflexivity. Qed.
Example slice_ex3 : Py.slice_from (-7) [1;2;3;4;5] = [1;2;3;4;5]. Proof. reflexivity. Qed.
Example slice_ex4 : Py.slice_from 2 [1;2;3;4;5] = [3;4;5]. Proof. reflexivity. Qed.
Example sorted_ex1 :
  Py.sorted ["b"; "a"; "B"; "a/"; "a."; "a_"; "a0"] = ["B"; "a"; "a."; "a/"; "a0"; "a_"; "b"].
Proof. vm_compute. reflexivity. Qed.

(** ** The runner at concrete inputs *)

(** C1. With the identifiers of three units in the table, [rollback(1)]
    takes [get_last_n(1)], which is the least recent identifier, and
    reverses that unit; the two more recent units stay applied. *)
Theorem rollback_one_reverses_least_recent :
  let st := Migrator "/app" (DynamoDB flat3_all_applied) false false tt in
  exists st',
    rollback flat3_fs 1 st = Ok tt st'
    /\ DynamoDBStorageEngine.get_last_n flat3_all_applied 1 = ["20240410094004_a"]
    /\ trace st' = [EvDown "/app/20240410094004_a.py"; EvDelete "20240410094004_a"]
    /\ applied_ids (storage_engine st') = ["20240410094005_b"; "20240410094006_c"].
Proof.
  eexists. split; [vm_compute; reflexivity |].
  repeat split; vm_compute; reflexivity.
Qed.

(** C3. In the root [/m], unit [u] declares the dependency
    [m/20240101000000_a], which resolves to [/m/m/20240101000000_a.py]. After
    the top-level unit [a] has stored [20240101000000_a], [up] on the
    dependency returns at once because its [filename] is that identifier:
    [u]'s body runs although the dependency's body never ran and its
    [dependency_path] is not in the store. *)
Theorem dependency_body_skipped :
  let st := Migrator "/m" (Memory ∅) false true tt in
  exists dep st',
    load_dependency shadow_fs "m/20240101000000_a" st = Ok dep st
    /\ script_file dep = "/m/m/20240101000000_a.py"
    /\ filename dep = "20240101000000_a"
    /\ dependency_path dep = "m/20240101000000_a"
    /\ migrate shadow_fs 2 st = Ok tt st'
    /\ up_paths (trace st') = ["/m/20240101000000_a.py"; "/m/20240101000001_u.py"]
    /\ has_run_in (storage_engine st') (dependency_path dep) = false.
Proof.
  eexists. eexists. split; [vm_compute; reflexivity |].
  split; [reflexivity |]. split; [reflexivity |]. split; [reflexivity |].
  split; [vm_compute; reflexivity |].
  split; vm_compute; reflexivity.
Qed.

(** C4. In a root whose path contains [.py] the loader gives a unit a
    [filename] that differs from its [dependency_path]; [up] stores the
    latter and looks for the former, so a second [migrate] on the unchanged
    root calls the unit's body again. *)
Theorem second_migrate_reexecutes_body :
  let st := Migrator "/proj.py" (Memory ∅) false true tt in
  exists script st1 st2,
    _load_script dotpy_fs "/proj.py/20240101000000_a.py" st = Ok script st
    /\ filename script = "proj/20240101000000_a"
    /\ dependency_path script = "20240101000000_a"
    /\ migrate dotpy_fs 1 st = Ok tt st1
    /\ up_paths (trace st1) = ["/proj.py/20240101000000_a.py"]
    /\ applied_ids (storage_engine st1) = ["20240101000000_a"]
    /\ migrate dotpy_fs 1 st1 = Ok tt st2
    /\ up_paths (trace st2)
       = ["/proj.py/20240101000000_a.py"; "/proj.py/20240101000000_a.py"].
Proof.
  eexists. eexists. eexists.
  split; [vm_compute; reflexivity |].
  split; [reflexivity |]. split; [reflexivity |].
  split; [vm_compute; reflexivity |].
  split; [vm_compute; reflexivity |].
  split; [vm_compute; reflexivity |].
  split; vm_compute; reflexivity.
Qed.

(** C9. The command [down] without a count (so [n = 0]) is not rejected:
    [main] calls [rollback(0)], which reverses every applied unit. *)
Theorem down_without_count_reverses_everything :
  exists st',
    main flat3_fs 1 down_without_count flat3_all_applied tt
    = Returned (rollback flat3_fs 0
                  (Migrator "/app" (DynamoDB flat3_all_applied) false false tt))
    /\ rollback flat3_fs 0 (Migrator "/app" (DynamoDB flat3_all_applied) false false tt)
       = Ok tt st'
    /\ down_paths (trace st')
       = ["/app/20240410094006_c.py"; "/app/20240410094005_b.py";
          "/app/20240410094004_a.py"]
    /\ applied_ids (storage_engine st') = [].
Proof.
  eexists. split; [reflexivity |].
  split; [vm_compute; reflexivity |].
  split; vm_compute; reflexivity.
Qed.

(** ** Reasoning about the monad *)

Section Properties.

Context {World : Type}.
Variable fs : FileSystem World.

Local Open Scope mig_scope.

Abbreviation St := (State World).

Lemma wp_bind {A B} (m : M World A) (k : A -> M World B) st Qok Qex :
  wp m st (fun a st1 => wp (k a) st1 Qok Qex) Qex -> wp (bind m k) st Qok Qex.
Proof. unfold wp, bind. destruct (m st); auto. Qed.

Lemma wp_mono {A} (m : M World A) st (Qok Qok' : A -> St -> Prop)
    (Qex Qex' : Exn -> St -> Prop) :
  wp m st Qok Qex ->
  (forall a st', Qok a st' -> Qok' a st') ->
  (forall e st', Qex e st' -> Qex' e st') ->
  wp m st Qok' Qex'.
Proof. unfold wp. destruct (m st); auto. Qed.

Lemma wp_ret {A} (a : A) st (Qok : A -> St -> Prop) Qex :
  Qok a st -> wp (ret a) st Qok Qex.
Proof. auto. Qed.

Lemma wp_get st (Qok : St -> St -> Prop) Qex : Qok st st -> wp get st Qok Qex.
Proof. auto. Qed.


Lemma has_run_reads_only id : reads_only (has_run (World:=World) id).
Proof. intros st. reflexivity. Qed.

Lemma has_run_eq id (st : St) :
  has_run id st = Ok (has_run_in (storage_engine st) id) st.
Proof. reflexivity. Qed.

Lemma has_run_wp id (st : St) (Qok : bool -> St -> Prop) Qex :
  Qok (has_run_in (storage_engine st) id) st -> wp (has_run id) st Qok Qex.
Proof. auto. Qed.

Lemma _resolve_dependency_path_reads_only d :
  reads_only (_resolve_dependency_path (World:=World) d).
Proof.
  intros st. unfold _resolve_dependency_path, bind, get, ret.
  destruct (Py.split Py.sep d) as [|a [|b [|c [|? ?]]]]; try reflexivity.
  destruct (String.eqb b "migrations"); reflexivity.
Qed.

Lemma _load_script_reads_only p : reads_only (_load_script fs p).
Proof.
  intros st. unfold _load_script, bind, get, ret, raise.
  destruct (path_exists fs p); simpl; [|reflexivity].
  destruct (exec_module fs p); reflexivity.
Qed.


Lemma _load_script_raises p st e st' :
  _load_script fs p st = Raise e st' -> load_exn e /\ st' = st.
Proof.
  unfold _load_script, bind, get, ret, raise.
  destruct (path_exists fs p); simpl;
    [destruct (exec_module fs p) |];
    intros H; inversion H; subst; split; simpl; auto.
Qed.

Lemma _load_script_wp p st (Qok : Script World -> St -> Prop) (Qex : Exn -> St -> Prop) :
  (forall s, _load_script fs p st = Ok s st -> Qok s st) ->
  (forall e, load_exn e -> Qex e st) ->
  wp (_load_script fs p) st Qok Qex.
Proof.
  intros Hok Hex. unfold wp.
  pose proof (_load_script_reads_only p st) as Hro.
  destruct (_load_script fs p st) eqn:E; subst; auto.
  apply Hex. eapply _load_script_raises; eauto.
Qed.

Lemma _resolve_dependency_path_wp d st (Qok : string -> St -> Prop) Qex :
  (forall p, _resolve_dependency_path d st = Ok p st -> Qok p st) ->
  wp (_resolve_dependency_path d) st Qok Qex.
Proof.
  intros Hok. unfold wp.
  pose proof (_resolve_dependency_path_reads_only d st) as Hro.
  destruct (_resolve_dependency_path d st) eqn:E; subst; auto.
  - unfold _resolve_dependency_path, bind, get, ret in E.
    destruct (Py.split Py.sep d) as [|a [|b [|c [|? ?]]]]; try discriminate.
    destruct (String.eqb b "migrations"); discriminate.
Qed.

(** *** An induction principle for [up]

    [R] relates the state before a piece of [up] to the state after its
    normal return, [E] to the state in which it raised; [I] is what the
    tail of [up] (lines 272-277) relies on. *)
Section UpInduction.

Variable I : St -> Prop.
Variable R : St -> St -> Prop.
Variable E : St -> Exn -> St -> Prop.

Hypothesis R_refl : forall st, R st st.
Hypothesis R_trans : forall st1 st2 st3, R st1 st2 -> R st2 st3 -> R st1 st3.
Hypothesis RE_trans : forall st1 st2 e st3, R st1 st2 -> E st2 e st3 -> E st1 e st3.
Hypothesis I_step : forall st st', I st -> R st st' -> I st'.
Hypothesis E_load : forall st e, load_exn e -> E st e st.
Hypothesis R_log : forall st msg,
  wp (emit (EvLogError msg)) st (fun _ st' => R st st') (fun _ _ => False).
Hypothesis run_up_ok : forall script st,
  I st -> wp (run_up script) st (fun _ st' => R st st') (fun e st' => E st e st').

Lemma up_dependencies_wp (rec : Script World -> M World unit) script deps :
  (forall s st, I st -> wp (rec s) st (fun _ st' => R st st') (fun e st' => E st e st')) ->
  forall st, I st ->
    wp (up_dependencies fs rec script deps) st
       (fun _ st' => R st st') (fun e st' => E st e st').
Proof.
  intros Hrec. induction deps as [|d deps IH]; intros st HI; simpl.
  - apply wp_ret, R_refl.
  - apply wp_bind, _resolve_dependency_path_wp. intros p _.
    apply wp_bind, _load_script_wp; [|auto]. intros s _.
    apply wp_bind, has_run_wp.
    destruct (has_run_in (storage_engine st) (dependency_path s)); simpl.
    + apply IH, HI.
    + apply wp_bind, wp_get.
      destruct (migrate_dependencies st); simpl.
      * apply wp_bind, _load_script_wp; [|auto]. intros s' _.
        apply wp_bind. eapply wp_mono; [apply Hrec, HI | | auto].
        intros ? st1 H1. cbv beta in *.
        eapply wp_mono; [apply IH; eauto | |]; cbv beta; eauto.
      * apply wp_bind. eapply wp_mono; [apply R_log | | intros ? ? []].
        intros ? st1 H1. apply wp_ret. exact H1.
Qed.

Lemma up_wp fuel : forall script st,
  I st -> wp (up fs fuel script) st (fun _ st' => R st st') (fun e st' => E st e st').
Proof.
  induction fuel as [|fuel IH]; intros script st HI; [exact Logic.I |].
  simpl. unfold up_body.
  apply wp_bind, has_run_wp.
  destruct (has_run_in (storage_engine st) (filename script)); simpl.
  - apply wp_ret, R_refl.
  - apply wp_bind.
    destruct (mod_dependencies (script_module script)) as [deps|].
    + eapply wp_mono; [apply up_dependencies_wp; eauto | | auto].
      intros [] st1 H1; cbv beta in *; [apply wp_ret, H1 |].
      eapply wp_mono; [apply run_up_ok; eauto | |]; cbv beta; eauto.
    + apply wp_ret.
      eapply wp_mono; [apply run_up_ok; eauto | |]; cbv beta; eauto.
Qed.

End UpInduction.

(** *** Dry run *)

Lemma only_logged_refl (st : St) : only_logged st st.
Proof.
  repeat split. exists []. split; [symmetry; apply app_nil_r | constructor].
Qed.

Lemma only_logged_trans (st1 st2 st3 : St) :
  only_logged st1 st2 -> only_logged st2 st3 -> only_logged st1 st3.
Proof.
  intros (Hd & He & Hr & Hm & Hw & evs & Ht & Hl)
         (Hd' & He' & Hr' & Hm' & Hw' & evs' & Ht' & Hl').
  repeat split; try congruence.
  exists (evs ++ evs')%list. split.
  - rewrite Ht', Ht. symmetry. apply app_assoc.
  - apply Forall_app; auto.
Qed.

Lemma only_logged_emit (st : St) msg : only_logged st (logged st (EvLogError msg)).
Proof.
  repeat split. exists [EvLogError msg]. split; [reflexivity |].
  repeat constructor.
Qed.

Lemma run_up_dry (script : Script World) (st : St) :
  dry_run st = true -> run_up script st = Ok tt st.
Proof. intros H. unfold run_up, bind, get. simpl. rewrite H. reflexivity. Qed.

(** C5. With [dry_run] set, whatever [up] and [down] do to a unit in
    whatever state of its dependencies, they return or raise in a state
    whose store and world are the ones they started from, and the only
    events they add to the trace are log lines: no body was called, no
    [store] and no [delete] was issued. *)
Theorem dry_run_purity fuel (script : Script World) (st : St) :
  dry_run st = true ->
  wp (up fs fuel script) st
     (fun _ st' => only_logged st st') (fun _ st' => only_logged st st')
  /\ wp (down script) st
       (fun _ st' => only_logged st st') (fun _ st' => only_logged st st').
Proof.
  intros Hdry. split.
  - apply (up_wp (fun s : St => dry_run s = true)
                 (fun s s' : St => only_logged s s')
                 (fun (s : St) _ (s' : St) => only_logged s s')); auto.
    + apply only_logged_refl.
    + apply only_logged_trans.
    + intros. eapply only_logged_trans; eauto.
    + intros s s' Hs (_ & _ & Hr & _). congruence.
    + intros. apply only_logged_refl.
    + intros. apply only_logged_emit.
    + intros sc s Hs. unfold wp. rewrite run_up_dry by assumption.
      apply only_logged_refl.
  - unfold wp, down, bind, get, has_run, ret. simpl.
    destruct (match storage_engine st with
              | DynamoDB items => DynamoDBStorageEngine.has_run items (filename script)
              | Memory data => MemoryStorageEngine.has_run data (filename script)
              end); simpl.
    + rewrite Hdry. simpl. apply only_logged_refl.
    + apply only_logged_refl.
Qed.

(** *** Failing bodies *)

Lemma replay_app evs1 evs2 e :
  replay (evs1 ++ evs2) e = replay evs2 (replay evs1 e).
Proof. unfold replay. apply fold_left_app. Qed.

Lemma stored_by_nil (st : St) : stored_by [] st st.
Proof. split; [symmetry; apply app_nil_r | reflexivity]. Qed.

Lemma stored_by_app evs1 evs2 (st1 st2 st3 : St) :
  stored_by evs1 st1 st2 -> stored_by evs2 st2 st3 ->
  stored_by (evs1 ++ evs2) st1 st3.
Proof.
  intros [Ht He] [Ht' He']. split.
  - rewrite Ht', Ht. symmetry. apply app_assoc.
  - rewrite He', He. symmetry. apply replay_app.
Qed.

Lemma run_up_stored (script : Script World) (st : St) :
  wp (run_up script) st
     (fun _ st' => exists evs, stored_by evs st st')
     (fun e st' => raised_after st e st').
Proof.
  unfold wp, run_up, bind, get. simpl.
  destruct (dry_run st); simpl.
  - exists []. apply stored_by_nil.
  - unfold call_body, bind, get. simpl.
    destruct (mod_up (script_module script) (world st)) as [[] w]; simpl.
    + exists [EvUp (script_file script); EvStore (dependency_path script)].
      split; simpl.
      * rewrite <- app_assoc. reflexivity.
      * destruct (storage_engine st); reflexivity.
    + exists []. split; reflexivity.
Qed.

Lemma up_stored fuel (script : Script World) (st : St) :
  wp (up fs fuel script) st
     (fun _ st' => exists evs, stored_by evs st st')
     (fun e st' => raised_after st e st').
Proof.
  apply (up_wp (fun _ : St => True)
               (fun s s' : St => exists evs, stored_by evs s s')
               (fun (s : St) e (s' : St) => raised_after s e s')); auto.
  - intros s. exists []. apply stored_by_nil.
  - intros s1 s2 s3 [evs H] [evs' H']. exists (evs ++ evs')%list.
    eapply stored_by_app; eauto.
  - intros s1 s2 e s3 [evs H] H'. destruct e; simpl in *;
      destruct H' as [evs' H']; exists (evs ++ evs')%list;
      rewrite <- ?app_assoc; eapply stored_by_app; eauto.
  - intros s e He. destruct e; simpl in *; try contradiction;
      exists []; apply stored_by_nil.
  - intros s msg. exists [EvLogError msg]. split; reflexivity.
  - intros sc s _. apply run_up_stored.
Qed.

(** *** Single steps of [up] *)

Lemma has_run_in_store_other e d id :
  id <> d ->
  has_run_in (replay_store e (EvStore d)) id = has_run_in e id.
Proof.
  intros Hne. destruct e as [items | data]; simpl;
    apply bool_decide_ext.
  - unfold DynamoDBStorageEngine.store. rewrite elem_of_union, elem_of_singleton.
    tauto.
  - unfold MemoryStorageEngine.store. rewrite lookup_insert_ne by congruence.
    reflexivity.
Qed.

(** The short-circuit of [up] is keyed by the unit's [filename]: when that
    identifier is in the store, [up] returns in the state it was called in. *)
Lemma up_returns_at_once fuel (script : Script World) (st : St) :
  has_run_in (storage_engine st) (filename script) = true ->
  up fs (S fuel) script st = Ok tt st.
Proof.
  intros H. simpl. unfold up_body, bind. rewrite has_run_eq, H. reflexivity.
Qed.

(** The loader reads nothing of the [Migrator] but its directory. *)
Lemma _load_script_directory p (st1 st2 : St) s :
  directory st1 = directory st2 ->
  _load_script fs p st1 = Ok s st1 -> _load_script fs p st2 = Ok s st2.
Proof.
  unfold _load_script, bind, get, ret, raise. intros Hd. rewrite Hd.
  destruct (path_exists fs p); simpl; [| discriminate].
  destruct (exec_module fs p); [| discriminate].
  intros H. inversion H. reflexivity.
Qed.

(** [up] on a unit without dependencies that has not run, outside dry run,
    whose body returns: the state it returns in. *)
Lemma up_applies_unit fuel (s : Script World) (st : St) w' :
  has_run_in (storage_engine st) (filename s) = false ->
  (mod_dependencies (script_module s) = None
   \/ mod_dependencies (script_module s) = Some []) ->
  dry_run st = false ->
  mod_up (script_module s) (world st) = (true, w') ->
  up fs (S fuel) s st
  = Ok tt (mkState (directory st)
             (replay_store (storage_engine st) (EvStore (dependency_path s)))
             false (migrate_dependencies st) w'
             (trace st ++ [EvUp (script_file s); EvStore (dependency_path s)])%list).
Proof.
  intros Hnot Hdeps Hdry Hbody. simpl. unfold up_body, bind.
  rewrite has_run_eq, Hnot.
  assert (Hret : match mod_dependencies (script_module s) with
                 | Some dependencies => up_dependencies fs (up fs fuel) s dependencies
                 | None => ret false
                 end st = Ok false st).
  { destruct Hdeps as [-> | ->]; reflexivity. }
  rewrite Hret. unfold run_up, bind, get. simpl. rewrite Hdry. simpl.
  unfold call_body, bind, get. simpl. rewrite Hbody. simpl.
  unfold store, bind, emit, get, set_engine. simpl.
  rewrite <- app_assoc. destruct (storage_engine st); rewrite ?Hdry; reflexivity.
Qed.


Lemma down_raises_body (script : Script World) (st st' : St) p :
  down script st = Raise (BodyException p) st' ->
  p = script_file script
  /\ trace st' = (trace st ++ [EvDown p])%list
  /\ storage_engine st' = storage_engine st.
Proof.
  unfold down, bind, get, has_run, ret. simpl.
  destruct (match storage_engine st with
            | DynamoDB items => DynamoDBStorageEngine.has_run items (filename script)
            | Memory data => MemoryStorageEngine.has_run data (filename script)
            end); simpl; [| discriminate].
  destruct (dry_run st); simpl; [discriminate |].
  unfold call_body, bind, get. simpl.
  destruct (mod_down (script_module script) (world st)) as [[] w]; simpl.
  - unfold delete, bind, emit, get, set_engine, raise. simpl.
    destruct (storage_engine st) as [items | data]; simpl; [discriminate |].
    destruct (MemoryStorageEngine.delete data (dependency_path script));
      simpl; discriminate.
  - intros H. inversion H; subst. simpl. auto.
Qed.

Lemma down_raises_own_body (script : Script World) (st : St) w' :
  has_run_in (storage_engine st) (filename script) = true ->
  dry_run st = false ->
  mod_down (script_module script) (world st) = (false, w') ->
  exists st',
    down script st = Raise (BodyException (script_file script)) st'
    /\ trace st' = (trace st ++ [EvDown (script_file script)])%list
    /\ storage_engine st' = storage_engine st.
Proof.
  intros Hrun Hdry Hbody. unfold down, bind. rewrite has_run_eq, Hrun. simpl.
  rewrite Hdry. simpl. unfold call_body, bind, get. simpl. rewrite Hbody. simpl.
  eexists. split; [reflexivity |]. simpl. auto.
Qed.

Lemma run_up_raises_body (script : Script World) (st : St) w' :
  dry_run st = false ->
  mod_up (script_module script) (world st) = (false, w') ->
  run_up script st
  = Raise (BodyException (script_file script))
      (mkState (directory st) (storage_engine st) false (migrate_dependencies st)
         w' (trace st ++ [EvUp (script_file script)])%list).
Proof.
  intros Hdry Hbody. unfold run_up, bind, get. simpl. rewrite Hdry. simpl.
  unfold call_body, bind, get. simpl. rewrite Hbody. simpl.
  rewrite ?Hdry. reflexivity.
Qed.

(** C6. An exception raised inside a unit's body leaves [up] and [down] as
    that exception, and the store is as it was when the body was called.
    For [up] and any unit, with or without dependencies: where the body is
    called (lines 272-275), and so in [up] once the dependency loop is
    passed, a body that raises makes the call raise that exception, the
    last event is the call of the body and the store is the one the body
    was called with; and whenever such an exception leaves [up], also from
    further down, nothing was stored after the failing call. For [down]: a
    body that raises makes [down] raise it with nothing deleted. *)
Theorem body_failure_keeps_store :
  (forall (script : Script World) (st : St) w',
      dry_run st = false ->
      mod_up (script_module script) (world st) = (false, w') ->
      exists st',
        run_up script st = Raise (BodyException (script_file script)) st'
        /\ trace st' = (trace st ++ [EvUp (script_file script)])%list
        /\ storage_engine st' = storage_engine st)
  /\ (forall fuel (script : Script World) (st st1 : St) w',
      has_run_in (storage_engine st) (filename script) = false ->
      match mod_dependencies (script_module script) with
      | Some dependencies => up_dependencies fs (up fs fuel) script dependencies
      | None => ret false
      end st = Ok false st1 ->
      dry_run st1 = false ->
      mod_up (script_module script) (world st1) = (false, w') ->
      exists st',
        up fs (S fuel) script st = Raise (BodyException (script_file script)) st'
        /\ trace st' = (trace st1 ++ [EvUp (script_file script)])%list
        /\ storage_engine st' = storage_engine st1)
  /\ (forall fuel (script : Script World) (st st' : St) p,
      up fs fuel script st = Raise (BodyException p) st' ->
      exists evs,
        trace st' = (trace st ++ evs ++ [EvUp p])%list
        /\ storage_engine st' = replay evs (storage_engine st))
  /\ (forall (script : Script World) (st : St) w',
      has_run_in (storage_engine st) (filename script) = true ->
      dry_run st = false ->
      mod_down (script_module script) (world st) = (false, w') ->
      exists st',
        down script st = Raise (BodyException (script_file script)) st'
        /\ trace st' = (trace st ++ [EvDown (script_file script)])%list
        /\ storage_engine st' = storage_engine st)
  /\ (forall (script : Script World) (st st' : St) p,
      down script st = Raise (BodyException p) st' ->
      p = script_file script
      /\ trace st' = (trace st ++ [EvDown p])%list
      /\ storage_engine st' = storage_engine st).
Proof.
  split; [| split; [| split; [| split]]].
  - intros script st w' Hdry Hbody.
    rewrite (run_up_raises_body script st w' Hdry Hbody).
    eexists. split; [reflexivity |]. split; reflexivity.
  - intros fuel script st st1 w' Hnot Hdeps Hdry Hbody.
    simpl. unfold up_body, bind. rewrite has_run_eq, Hnot.
    fold (@bind World).
    unfold bind. rewrite Hdeps.
    rewrite (run_up_raises_body script st1 w' Hdry Hbody).
    eexists. split; [reflexivity |]. split; reflexivity.
  - intros fuel script st st' p Hup.
    pose proof (up_stored fuel script st) as H. unfold wp in H.
    rewrite Hup in H. destruct H as [evs [Ht He]].
    exists evs. split; [exact Ht |].
    rewrite He, replay_app. reflexivity.
  - apply down_raises_own_body.
  - apply down_raises_body.
Qed.

(** *** Blocked dependencies *)

Lemma load_dependency_inv d (st : St) s st' :
  load_dependency fs d st = Ok s st' ->
  st' = st /\ exists p, _resolve_dependency_path d st = Ok p st
                        /\ _load_script fs p st = Ok s st.
Proof.
  unfold load_dependency, bind. intros H.
  pose proof (_resolve_dependency_path_reads_only d st) as Hr.
  destruct (_resolve_dependency_path d st) as [p st1 | |] eqn:E1;
    try discriminate; subst.
  pose proof (_load_script_reads_only p st) as Hl. rewrite H in Hl. subst.
  eauto.
Qed.

Lemma up_dependencies_blocked rec (script : Script World) post blocking d (st : St) :
  migrate_dependencies st = false ->
  load_dependency fs d st = Ok blocking st ->
  has_run_in (storage_engine st) (dependency_path blocking) = false ->
  forall pre,
  Forall (fun d' => exists s,
              load_dependency fs d' st = Ok s st
              /\ has_run_in (storage_engine st) (dependency_path s) = true) pre ->
  up_dependencies fs rec script (pre ++ d :: post) st
  = Ok true (logged st (EvLogError (block_message script blocking))).
Proof.
  intros Hmig Hload Hnot.
  assert (Hstep : forall d0 s rest,
            load_dependency fs d0 st = Ok s st ->
            up_dependencies fs rec script (d0 :: rest) st
            = if has_run_in (storage_engine st) (dependency_path s)
              then up_dependencies fs rec script rest st
              else Ok true (logged st (EvLogError (block_message script s)))).
  { intros d0 s rest Hs.
    destruct (load_dependency_inv _ _ _ _ Hs) as (_ & p & Hres & Hl).
    simpl. unfold bind at 1. rewrite Hres. unfold bind at 1. rewrite Hl.
    unfold bind at 1. rewrite has_run_eq.
    destruct (has_run_in (storage_engine st) (dependency_path s)); simpl;
      [reflexivity |].
    unfold bind, get. simpl. rewrite Hmig. reflexivity. }
  induction pre as [| d' pre IH]; intros Hpre.
  - simpl app. rewrite (Hstep d blocking post Hload), Hnot. reflexivity.
  - apply Forall_cons in Hpre as [(s & Hs & Hrun) Hpre].
    change ((d' :: pre) ++ d :: post)%list with (d' :: (pre ++ d :: post))%list.
    rewrite (Hstep d' s _ Hs), Hrun. apply IH, Hpre.
Qed.

Lemma migrate_loop_app fuel l1 : forall l2 (st : St),
  migrate_loop fs fuel (l1 ++ l2) st
  = (migrate_loop fs fuel l1 ;;; migrate_loop fs fuel l2) st.
Proof.
  induction l1 as [| p l1 IH]; intros l2 st; [reflexivity |].
  cbn [app migrate_loop]. unfold bind.
  destruct (_migrate_up fs fuel p st) as [[] st1 | e st1 |]; [| reflexivity ..].
  rewrite IH. reflexivity.
Qed.


(** *** The in-memory engine *)

(** C10. [MemoryStorageEngine.delete] raises (the [KeyError] of [del],
    [None] in the engine and [Raise (KeyError id)] as the [Migrator] calls
    it) exactly when [has_run] is false for the identifier; when [has_run]
    is true it succeeds, [has_run] is false afterwards, and the other
    identifiers are as before. *)
Theorem memory_delete_raises_iff_not_run (data : gmap string bool) (id : string) :
  (MemoryStorageEngine.delete data id = None
   <-> MemoryStorageEngine.has_run data id = false)
  /\ (MemoryStorageEngine.has_run data id = true ->
      exists data',
        MemoryStorageEngine.delete data id = Some data'
        /\ MemoryStorageEngine.has_run data' id = false
        /\ forall other, other <> id ->
             MemoryStorageEngine.has_run data' other
             = MemoryStorageEngine.has_run data other)
  /\ (forall (st : St), storage_engine st = Memory data ->
      ((exists st', delete id st = Raise (KeyError id) st')
       <-> MemoryStorageEngine.has_run data id = false)
      /\ (MemoryStorageEngine.has_run data id = true ->
          exists st', delete id st = Ok tt st'
                      /\ has_run_in (storage_engine st') id = false)).
Proof.
  assert (Hdel : forall b, data !! id = Some b ->
            MemoryStorageEngine.has_run (base.delete id data) id = false).
  { intros b _. apply bool_decide_eq_false. rewrite lookup_delete_eq.
    intros [? ?]; discriminate. }
  split; [| split].
  - unfold MemoryStorageEngine.delete, MemoryStorageEngine.has_run.
    destruct (data !! id) as [b|] eqn:E; split; try discriminate; reflexivity.
  - unfold MemoryStorageEngine.delete. intros H.
    destruct (data !! id) as [b|] eqn:E.
    + eexists. split; [reflexivity |]. split; [eapply Hdel; eauto |].
      intros other Hne. unfold MemoryStorageEngine.has_run.
      rewrite lookup_delete_ne by congruence. reflexivity.
    + apply bool_decide_eq_true in H. rewrite E in H. destruct H; discriminate.
  - intros st Hst. unfold delete, bind, emit, get, set_engine, raise. simpl.
    rewrite Hst. unfold MemoryStorageEngine.delete.
    destruct (data !! id) as [b|] eqn:E; simpl.
    + assert (Hrun : MemoryStorageEngine.has_run data id = true).
      { apply bool_decide_eq_true. rewrite E. eauto. }
      split.
      * split; [intros [st' H]; discriminate | congruence].
      * intros _. eexists. split; [reflexivity |]. simpl. eapply Hdel; eauto.
    + assert (Hrun : MemoryStorageEngine.has_run data id = false).
      { apply bool_decide_eq_false. rewrite E. intros [? ?]; discriminate. }
      split.
      * split; [intros _; exact Hrun | intros _; eexists; reflexivity].
      * congruence.
Qed.

(** *** Strings, paths and timestamps *)

Local Arguments String.append : simpl nomatch.

Lemma split_not_nil c s : Py.split c s <> [].
Proof.
  destruct s as [|a s]; simpl; [discriminate |].
  destruct (Ascii.eqb a c); [discriminate |].
  destruct (Py.split c s); discriminate.
Qed.

Lemma split_app_sep c a b :
  Py.split c (a ++ String c b) = (Py.split c a ++ Py.split c b)%list.
Proof.
  induction a as [|x a IH]; simpl.
  - rewrite Ascii.eqb_refl. reflexivity.
  - destruct (Ascii.eqb x c); rewrite IH; [reflexivity |].
    pose proof (split_not_nil c a) as Hne.
    destruct (Py.split c a); [contradiction | reflexivity].
Qed.

Lemma split_no_sep c s :
  Py.all_chars (fun x => negb (Ascii.eqb x c)) s = true -> Py.split c s = [s].
Proof.
  induction s as [|a s IH]; simpl; [reflexivity |].
  intros H. apply andb_true_iff in H as [Ha Hs].
  apply negb_true_iff in Ha. rewrite Ha, (IH Hs). reflexivity.
Qed.

Lemma last_app_not_nil {A} (l1 l2 : list A) d :
  l2 <> [] -> List.last (l1 ++ l2) d = List.last l2 d.
Proof.
  intros Hne. induction l1 as [|x l1 IH]; [reflexivity |].
  simpl. destruct (l1 ++ l2)%list eqn:E; [| exact IH].
  apply app_eq_nil in E as [_ ?]. contradiction.
Qed.

Lemma basename_app_sep a b : Py.basename (a ++ String Py.sep b) = Py.basename b.
Proof.
  unfold Py.basename. rewrite split_app_sep.
  apply last_app_not_nil, split_not_nil.
Qed.

Lemma basename_no_slash f : no_slash f = true -> Py.basename f = f.
Proof.
  intros H. unfold Py.basename. rewrite (split_no_sep Py.sep f H). reflexivity.
Qed.

Lemma string_app_assoc (a b c : string) : (a ++ b) ++ c = a ++ (b ++ c).
Proof. induction a as [|x a IH]; simpl; congruence. Qed.

Lemma endswith_inv p s : Py.endswith p s = true -> exists a, s = a ++ p.
Proof.
  induction s as [|x s IH]; intros H; cbn [Py.endswith] in H;
    apply orb_true_iff in H as [H | H]; try discriminate.
  - apply String.eqb_eq in H. exists "". subst. reflexivity.
  - apply String.eqb_eq in H. exists "". rewrite H. reflexivity.
  - destruct (IH H) as [a Ha]. exists (String x a). simpl. rewrite Ha. reflexivity.
Qed.

Lemma prefix_cons a p b s :
  String.prefix (String a p) (String b s)
  = if ascii_dec a b then String.prefix p s else false.
Proof. reflexivity. Qed.

Lemma no_slash_not_abs f : no_slash f = true -> Py.startswith "/" f = false.
Proof.
  destruct f as [|c f]; [reflexivity |].
  unfold no_slash, Py.startswith. cbn [Py.all_chars]. intros H.
  apply andb_true_iff in H as [Hc _]. apply negb_true_iff in Hc.
  rewrite prefix_cons.
  destruct (ascii_dec "/" c) as [<- | _]; [| reflexivity].
  vm_compute in Hc. discriminate.
Qed.

Lemma path_join_name d f :
  no_slash f = true -> Py.path_join d f = join_prefix d ++ f.
Proof.
  intros H. unfold Py.path_join, join_prefix.
  rewrite (no_slash_not_abs f H).
  destruct (String.eqb d "" || Py.endswith "/" d); [reflexivity |].
  rewrite string_app_assoc. reflexivity.
Qed.

Lemma basename_path_join d f :
  no_slash f = true -> Py.basename (Py.path_join d f) = f.
Proof.
  intros H. rewrite (path_join_name d f H). unfold join_prefix.
  destruct (String.eqb d "") eqn:Ed; simpl.
  - apply String.eqb_eq in Ed. subst. simpl. apply basename_no_slash, H.
  - destruct (Py.endswith "/" d) eqn:Ee.
    + destruct (endswith_inv _ _ Ee) as [a ->].
      rewrite string_app_assoc. simpl.
      rewrite basename_app_sep. apply basename_no_slash, H.
    + rewrite string_app_assoc. simpl.
      rewrite basename_app_sep. apply basename_no_slash, H.
Qed.

Lemma str_take_drop n s : Py.str_take n s ++ Py.str_drop n s = s.
Proof.
  revert s. induction n as [|n IH]; intros [|c s]; simpl; try reflexivity.
  rewrite IH. reflexivity.
Qed.

Lemma str_take_app_length a b : Py.str_take (String.length a) (a ++ b) = a.
Proof. induction a as [|x a IH]; simpl; [destruct b |]; congruence. Qed.

Lemma is_digit_inv c :
  Py.is_digit c = true -> c <> "."%char /\ c <> "_"%char /\ c <> "/"%char.
Proof.
  intros H. repeat split; intros ->; vm_compute in H; discriminate.
Qed.

(** The shape of a name accepted by [_is_migration_file]. *)
Lemma re_match_migration_inv f :
  Py.re_match_migration f = true ->
  exists stamp rest,
    f = stamp ++ String "_" rest
    /\ String.length stamp = 14%nat
    /\ Py.all_chars Py.is_digit stamp = true
    /\ Py.str_take 14 f = stamp.
Proof.
  unfold Py.re_match_migration. intros H.
  apply andb_true_iff in H as [H H3]. apply andb_true_iff in H as [H1 H2].
  destruct (Py.str_drop 14 f) as [|c rest] eqn:Ed; [discriminate |].
  apply andb_true_iff in H3 as [Hc _]. apply Ascii.eqb_eq in Hc. subst c.
  exists (Py.str_take 14 f), rest. repeat split; auto.
  - rewrite <- Ed. symmetry. apply str_take_drop.
  - apply Nat.eqb_eq, H1.
Qed.

Lemma replace_from_skip_char c s :
  c <> "."%char ->
  Py.replace_from ".py" "" 0 (String c s) = String c (Py.replace_from ".py" "" 0 s).
Proof.
  intros Hc. cbn [Py.replace_from]. rewrite prefix_cons.
  destruct (ascii_dec "." c) as [E | _]; [| reflexivity].
  congruence.
Qed.

Lemma replace_dot_py_prefix pre s :
  Py.all_chars (fun c => negb (Ascii.eqb c ".")) pre = true ->
  Py.replace ".py" "" (pre ++ s) = pre ++ Py.replace ".py" "" s.
Proof.
  unfold Py.replace. induction pre as [|c pre IH]; intros H; [reflexivity |].
  simpl in H. apply andb_true_iff in H as [Hc Hp].
  apply negb_true_iff, Ascii.eqb_neq in Hc.
  change (String c pre ++ s) with (String c (pre ++ s)).
  rewrite replace_from_skip_char by assumption. rewrite (IH Hp). reflexivity.
Qed.

Lemma split_hd_prefix c pre s :
  Py.all_chars (fun x => negb (Ascii.eqb x c)) pre = true ->
  List.hd "" (Py.split c (pre ++ String c s)) = pre.
Proof.
  intros H. rewrite split_app_sep, (split_no_sep c pre H). reflexivity.
Qed.

Lemma all_chars_impl (p q : ascii -> bool) s :
  (forall c, p c = true -> q c = true) ->
  Py.all_chars p s = true -> Py.all_chars q s = true.
Proof.
  intros Hpq. induction s as [|c s IH]; simpl; [reflexivity |].
  intros H. apply andb_true_iff in H as [Hc Hs].
  rewrite (Hpq c Hc), (IH Hs). reflexivity.
Qed.

(** For an accepted name the code's timestamp ([name.split('_')[0]]) is the
    leading 14 characters. *)
Lemma migration_timestamp_leading d f :
  no_slash f = true -> Py.re_match_migration f = true ->
  migration_timestamp (Py.path_join d f) = Py.str_take 14 f.
Proof.
  intros Hns Hre. unfold migration_timestamp, migration_name.
  rewrite (basename_path_join d f Hns).
  destruct (re_match_migration_inv f Hre) as (stamp & rest & Hf & Hlen & Hdig & Htake).
  rewrite Htake. rewrite Hf.
  assert (Hnodot : Py.all_chars (fun c => negb (Ascii.eqb c ".")) (stamp ++ "_") = true).
  { clear -Hdig. induction stamp as [|c s IH]; [reflexivity |].
    simpl in *. apply andb_true_iff in Hdig as [Hc Hs].
    rewrite (IH Hs), andb_true_r. apply negb_true_iff, Ascii.eqb_neq.
    apply is_digit_inv, Hc. }
  replace (stamp ++ String "_" rest) with ((stamp ++ "_") ++ rest)
    by (rewrite string_app_assoc; reflexivity).
  rewrite (replace_dot_py_prefix _ _ Hnodot).
  rewrite string_app_assoc. simpl.
  apply split_hd_prefix.
  eapply all_chars_impl; [| exact Hdig].
  intros c Hc. apply negb_true_iff, Ascii.eqb_neq. apply is_digit_inv, Hc.
Qed.

(** *** Discovery *)

Lemma os_listdir_inv d (st : St) names st' :
  os_listdir fs d st = Ok names st' -> st' = st /\ listdir fs d = Some names.
Proof.
  unfold os_listdir. destruct (listdir fs d); intros H; inversion H; auto.
Qed.

Lemma migration_files_in_inv d (st : St) l st' :
  migration_files_in fs d st = Ok l st' ->
  st' = st
  /\ exists names, listdir fs d = Some names
       /\ l = List.map (Py.path_join d) (List.filter _is_migration_file names).
Proof.
  unfold migration_files_in, bind. intros H.
  destruct (os_listdir fs d st) as [names st1 | |] eqn:E; try discriminate.
  apply os_listdir_inv in E as [-> El]. inversion H; subst. eauto.
Qed.

Lemma migration_files_in_discovered d (st : St) l st' :
  listing_wf fs -> migration_files_in fs d st = Ok l st' ->
  st' = st /\ Forall discovered l.
Proof.
  intros Hwf H. apply migration_files_in_inv in H as (-> & names & Hl & ->).
  split; [reflexivity |].
  specialize (Hwf d names Hl).
  apply List.Forall_forall. intros p Hp.
  apply in_map_iff in Hp as (f & <- & Hf).
  apply filter_In in Hf as [Hin Hre].
  exists d, f. repeat split; auto.
  rewrite List.Forall_forall in Hwf. apply Hwf. assumption.
Qed.

Lemma collect_modules_discovered modules : forall (st : St) l st',
  listing_wf fs -> collect_modules fs modules st = Ok l st' ->
  st' = st /\ Forall discovered l.
Proof.
  induction modules as [|m modules IH]; intros st l st' Hwf H; simpl in H.
  - inversion H; subst. split; [reflexivity | constructor].
  - unfold bind in H.
    destruct (migration_files_in fs (Py.path_join m "migrations") st)
      as [found st1 | |] eqn:E1; try discriminate.
    apply migration_files_in_discovered in E1 as [-> Hfound]; [| assumption].
    destruct (collect_modules fs modules st) as [more st2 | |] eqn:E2;
      try discriminate.
    apply IH in E2 as [-> Hmore]; [| assumption].
    inversion H; subst. split; [reflexivity |]. apply Forall_app; auto.
Qed.

Lemma same_but_directory_refl (st : St) : same_but_directory st st.
Proof. repeat split. Qed.

Lemma scan_migration_files_discovered (st : St) files st1 :
  listing_wf fs -> scan_migration_files fs st = Ok files st1 ->
  Forall discovered files /\ same_but_directory st st1.
Proof.
  intros Hwf. unfold scan_migration_files, bind, get.
  destruct (migration_files_in fs (directory st) st) as [l st0 | |] eqn:E;
    try discriminate.
  apply migration_files_in_discovered in E as [-> Hl]; [| assumption].
  destruct l as [|p l].
  - destruct (path_exists fs (Py.path_join (directory st) "migrations")).
    + unfold set_directory. cbn [directory].
      match goal with
      | |- migration_files_in fs ?d ?s = _ -> _ =>
          destruct (migration_files_in fs d s) as [l' st2 | |] eqn:E'
      end; try discriminate.
      apply migration_files_in_discovered in E' as [-> Hl']; [| assumption].
      intros H; inversion H; subst. split; [assumption |]. repeat split.
    + unfold _find_modules_with_migrations, bind, get.
      destruct (os_listdir fs (directory st) st) as [items st2 | |] eqn:E';
        try discriminate.
      apply os_listdir_inv in E' as [-> _]. unfold ret at 1.
      intros H. apply collect_modules_discovered in H as [-> Hl']; [| assumption].
      split; [assumption | apply same_but_directory_refl].
  - intros H; inversion H; subst.
    split; [assumption | apply same_but_directory_refl].
Qed.

Lemma discovered_timestamp p :
  discovered p -> migration_timestamp p = Py.str_take 14 (Py.basename p).
Proof.
  intros (d & f & -> & Hns & Hre).
  rewrite (basename_path_join d f Hns).
  apply migration_timestamp_leading; assumption.
Qed.

Lemma check_unique_total names stamps files (st : St) :
  check_unique names stamps files st = Ok tt st
  \/ exists msg, check_unique names stamps files st = Raise (ValueError msg) st.
Proof.
  revert names stamps. induction files as [|f files IH]; intros names stamps; simpl.
  - left; reflexivity.
  - destruct (bool_decide (is_Some (names !! migration_name f))).
    + right. eexists. reflexivity.
    + destruct (bool_decide (is_Some (stamps !! migration_timestamp f))).
      * right. eexists. reflexivity.
      * apply IH.
Qed.

Lemma check_unique_ok files : forall (names stamps : gmap string bool) (st : St) u st',
  check_unique names stamps files st = Ok u st' ->
  NoDup (List.map migration_name files)
  /\ NoDup (List.map migration_timestamp files)
  /\ Forall (fun f => names !! migration_name f = None) files
  /\ Forall (fun f => stamps !! migration_timestamp f = None) files.
Proof.
  induction files as [|f files IH]; intros names stamps st u st' H; simpl in *.
  - repeat split; constructor.
  - destruct (bool_decide (is_Some (names !! migration_name f))) eqn:En;
      [discriminate |].
    destruct (bool_decide (is_Some (stamps !! migration_timestamp f))) eqn:Et;
      [discriminate |].
    apply bool_decide_eq_false in En, Et.
    apply IH in H as (Hn & Ht & Hfn & Hft).
    assert (Hfresh_n : migration_name f ∉ List.map migration_name files).
    { intros Hin. apply list_elem_of_In, in_map_iff in Hin as (g & Hg & Hin).
      rewrite List.Forall_forall in Hfn. specialize (Hfn g Hin).
      rewrite Hg, lookup_insert_eq in Hfn. discriminate Hfn. }
    assert (Hfresh_t : migration_timestamp f ∉ List.map migration_timestamp files).
    { intros Hin. apply list_elem_of_In, in_map_iff in Hin as (g & Hg & Hin).
      rewrite List.Forall_forall in Hft. specialize (Hft g Hin).
      rewrite Hg, lookup_insert_eq in Hft. discriminate Hft. }
    repeat split.
    + constructor; assumption.
    + constructor; assumption.
    + constructor.
      * destruct (names !! migration_name f) eqn:E; [| reflexivity].
        exfalso. apply En. eauto.
      * eapply Forall_impl; [exact Hfn |]. intros g Hg. simpl in Hg.
        destruct (decide (migration_name f = migration_name g)) as [E | E].
        -- rewrite E, lookup_insert_eq in Hg. discriminate.
        -- rewrite lookup_insert_ne in Hg by assumption. exact Hg.
    + constructor.
      * destruct (stamps !! migration_timestamp f) eqn:E; [| reflexivity].
        exfalso. apply Et. eauto.
      * eapply Forall_impl; [exact Hft |]. intros g Hg. simpl in Hg.
        destruct (decide (migration_timestamp f = migration_timestamp g)) as [E | E].
        -- rewrite E, lookup_insert_eq in Hg. discriminate.
        -- rewrite lookup_insert_ne in Hg by assumption. exact Hg.
Qed.

Lemma NoDup_map_lookup {A B} (g : A -> B) (l : list A) i j x y :
  NoDup (List.map g l) -> l !! i = Some x -> l !! j = Some y -> g x = g y -> i = j.
Proof.
  intros Hnd Hi Hj Hg.
  eapply NoDup_lookup; [exact Hnd | |].
  - change (List.map g l) with (g <$> l). rewrite list_lookup_fmap, Hi. reflexivity.
  - change (List.map g l) with (g <$> l). rewrite list_lookup_fmap, Hj, Hg. reflexivity.
Qed.

(** C7. When two of the discovered files have the same name (basename
    without [.py]) or the same leading 14 characters, in one folder or in the
    folders of different modules, [_find_all_migration_files] raises a
    [ValueError], and so do [migrate] and [rollback], in a state where no
    event was added to the trace and the store and the world are untouched:
    no body ran before. *)
Theorem duplicate_files_fail_discovery (st st1 : St) files :
  listing_wf fs ->
  scan_migration_files fs st = Ok files st1 ->
  (exists i j f g,
      (i < j)%nat /\ files !! i = Some f /\ files !! j = Some g
      /\ (migration_name f = migration_name g
          \/ Py.str_take 14 (Py.basename f) = Py.str_take 14 (Py.basename g))) ->
  exists msg,
    _find_all_migration_files fs st = Raise (ValueError msg) st1
    /\ (forall fuel, migrate fs fuel st = Raise (ValueError msg) st1)
    /\ (forall n, rollback fs n st = Raise (ValueError msg) st1)
    /\ trace st1 = trace st
    /\ world st1 = world st
    /\ storage_engine st1 = storage_engine st.
Proof.
  intros Hwf Hscan (i & j & f & g & Hij & Hi & Hj & Hdup).
  destruct (scan_migration_files_discovered st files st1 Hwf Hscan)
    as [Hdisc (He & _ & _ & Hw & Ht)].
  destruct (check_unique_total ∅ ∅ files st1) as [Hok | [msg Hraise]].
  - exfalso. apply check_unique_ok in Hok as (Hn & Hs & _ & _).
    destruct Hdup as [Hname | Hstamp].
    + assert (i = j) by (eapply (NoDup_map_lookup migration_name); eauto). lia.
    + assert (i = j); [| lia].
      eapply (NoDup_map_lookup migration_timestamp); eauto.
      rewrite List.Forall_forall in Hdisc.
      rewrite !discovered_timestamp; auto.
      * apply Hdisc, list_elem_of_In. eapply list_elem_of_lookup_2; eauto.
      * apply Hdisc, list_elem_of_In. eapply list_elem_of_lookup_2; eauto.
  - exists msg.
    assert (Hfind : _find_all_migration_files fs st = Raise (ValueError msg) st1).
    { unfold _find_all_migration_files, bind. rewrite Hscan, Hraise. reflexivity. }
    repeat split; auto.
    + intros fuel. unfold migrate, bind. rewrite Hfind. reflexivity.
    + intros n. unfold rollback, bind. rewrite Hfind. reflexivity.
Qed.

(** *** The order of paths and the order of timestamps *)

Lemma ascii_compare_refl c : Ascii.compare c c = Eq.
Proof. unfold Ascii.compare. apply N.compare_refl. Qed.

Lemma compare_app_prefix pre a b :
  String.compare (pre ++ a) (pre ++ b) = String.compare a b.
Proof.
  induction pre as [|c pre IH]; [reflexivity |].
  simpl. rewrite ascii_compare_refl. exact IH.
Qed.

Lemma compare_app_same_length s : forall t x y,
  String.length s = String.length t ->
  String.compare (s ++ x) (t ++ y)
  = match String.compare s t with
    | Eq => String.compare x y
    | c => c
    end.
Proof.
  induction s as [|a s IH]; intros [|b t] x y Hlen; simpl in Hlen;
    try discriminate; [reflexivity |].
  simpl. destruct (Ascii.compare a b); try reflexivity.
  apply IH. lia.
Qed.

Lemma is_digit_range c :
  Py.is_digit c = true -> (48 <= N_of_ascii c <= 57)%N.
Proof.
  unfold Py.is_digit, nat_of_ascii. intros H.
  apply andb_true_iff in H as [H1 H2].
  apply Nat.leb_le in H1, H2. lia.
Qed.

Lemma digits_value_lt_acc s : forall t a b,
  String.length s = String.length t ->
  Py.all_chars Py.is_digit s = true -> Py.all_chars Py.is_digit t = true ->
  (a < b)%N -> (digits_value a s < digits_value b t)%N.
Proof.
  induction s as [|c s IH]; intros [|d t] a b Hlen Hs Ht Hab; simpl in Hlen;
    try discriminate; [exact Hab |].
  simpl in *. apply andb_true_iff in Hs as [Hc Hs], Ht as [Hd Ht].
  apply is_digit_range in Hc, Hd.
  apply IH; auto; lia.
Qed.

Lemma digits_value_lt s : forall t a,
  String.length s = String.length t ->
  Py.all_chars Py.is_digit s = true -> Py.all_chars Py.is_digit t = true ->
  String.compare s t = Lt -> (digits_value a s < digits_value a t)%N.
Proof.
  induction s as [|c s IH]; intros [|d t] a Hlen Hs Ht Hcmp; simpl in Hlen;
    try discriminate.
  simpl in *. apply andb_true_iff in Hs as [Hc Hs], Ht as [Hd Ht].
  destruct (Ascii.compare c d) eqn:Ecd; try discriminate.
  - apply Ascii.compare_eq_iff in Ecd. subst d. apply IH; auto.
  - unfold Ascii.compare in Ecd. rewrite N.compare_lt_iff in Ecd.
    apply is_digit_range in Hc, Hd.
    apply digits_value_lt_acc; auto; lia.
Qed.

(** Two accepted names under one prefix: the order of the paths is the
    order of the timestamps. *)
Lemma path_order_is_timestamp_order pre f g :
  Py.re_match_migration f = true -> Py.re_match_migration g = true ->
  String.le (pre ++ f) (pre ++ g) ->
  Py.str_take 14 f <> Py.str_take 14 g ->
  (digits_value 0 (Py.str_take 14 f) < digits_value 0 (Py.str_take 14 g))%N.
Proof.
  intros Hf Hg Hle Hne.
  destruct (re_match_migration_inv f Hf) as (s & r & Ef & Hls & Hds & Hts).
  destruct (re_match_migration_inv g Hg) as (t & r' & Eg & Hlt & Hdt & Htt).
  rewrite Hts, Htt in *.
  apply digits_value_lt; auto; [congruence |].
  unfold String.le, String.leb in Hle. rewrite compare_app_prefix in Hle.
  rewrite Ef, Eg in Hle.
  rewrite compare_app_same_length in Hle by congruence.
  destruct (String.compare s t) eqn:Est; auto.
  - apply String.compare_eq_iff in Est. contradiction.
  - simpl in Hle. contradiction.
Qed.

Lemma basename_path_join_any a b : Py.basename (Py.path_join a b) = Py.basename b.
Proof.
  unfold Py.path_join. destruct (Py.startswith "/" b); [reflexivity |].
  destruct (String.eqb a "") eqn:Ea; simpl.
  - apply String.eqb_eq in Ea. subst. reflexivity.
  - destruct (Py.endswith "/" a) eqn:Ee.
    + destruct (endswith_inv _ _ Ee) as [a' ->].
      rewrite string_app_assoc. apply basename_app_sep.
    + apply basename_app_sep.
Qed.

Lemma timestamp_value_path_join a b :
  timestamp_value (Py.path_join a b) = timestamp_value b.
Proof. unfold timestamp_value. rewrite basename_path_join_any. reflexivity. Qed.

(** *** The loop of [migrate] *)

Lemma StronglySorted_sublist {A} (R : relation A) (l1 l2 : list A) :
  l1 `sublist_of` l2 -> StronglySorted R l2 -> StronglySorted R l1.
Proof.
  induction 1 as [| x l1 l2 Hsub IH | x l1 l2 Hsub IH]; intros Hs.
  - constructor.
  - apply StronglySorted_inv in Hs as [Hs Hall]. constructor; [auto |].
    clear -Hsub Hall. induction Hsub; [constructor | |].
    + inversion Hall; subst. constructor; auto.
    + inversion Hall; subst. auto.
  - apply StronglySorted_inv in Hs as [Hs _]. auto.
Qed.

Lemma chronological_path_join d l :
  chronological l -> chronological (List.map (Py.path_join d) l).
Proof.
  unfold chronological. induction 1 as [| x l Hs IH Hall]; simpl; constructor; auto.
  rewrite List.Forall_forall in *. intros q Hq.
  apply in_map_iff in Hq as (y & <- & Hy).
  rewrite !timestamp_value_path_join. apply Hall, Hy.
Qed.

(** Accepted names under one prefix, with distinct leading stamps: a list of
    them sorted as strings is sorted by timestamp. *)
Lemma sorted_paths_chronological pre (l : list string) :
  StronglySorted String.le l ->
  NoDup (List.map leading_stamp l) ->
  Forall (fun p => exists f, p = pre ++ f /\ Py.re_match_migration f = true
                             /\ Py.basename p = f) l ->
  chronological l.
Proof.
  unfold chronological.
  induction 1 as [| x l Hs IH Hle]; intros Hnd Hall; [constructor |].
  simpl in Hnd. apply NoDup_cons in Hnd as [Hx Hnd].
  inversion Hall as [| ? ? (f & Ef & Hf & Hbf) Hall']; subst.
  constructor; [auto |].
  rewrite List.Forall_forall in *. intros y Hy.
  destruct (Hall' y Hy) as (g & Eg & Hg & Hbg).
  unfold timestamp_value. rewrite Hbf, Hbg.
  apply (path_order_is_timestamp_order pre); auto.
  - rewrite <- Eg. apply Hle, Hy.
  - intros Heq. apply Hx. apply list_elem_of_In, in_map_iff.
    exists y. split; [| exact Hy].
    unfold leading_stamp. rewrite Hbf, Hbg. congruence.
Qed.

Lemma sorted_strongly l : StronglySorted String.le (Py.sorted l).
Proof. apply StronglySorted_merge_sort; apply _. Qed.

Lemma sorted_permutation l : Permutation (Py.sorted l) l.
Proof. apply merge_sort_Permutation. Qed.

(** The files of one directory, once they passed the uniqueness loop, are
    in timestamp order after [sorted]. *)
Lemma sorted_directory_chronological d names (st : St) u st' :
  listing_wf fs -> listdir fs d = Some names ->
  check_unique ∅ ∅ (List.map (Py.path_join d) (List.filter _is_migration_file names)) st
  = Ok u st' ->
  chronological
    (Py.sorted (List.map (Py.path_join d) (List.filter _is_migration_file names))).
Proof.
  intros Hwf Hl Hchk.
  set (files := List.map (Py.path_join d) (List.filter _is_migration_file names)) in *.
  assert (Hshape : Forall (fun p => exists f, p = join_prefix d ++ f
                                      /\ Py.re_match_migration f = true
                                      /\ Py.basename p = f) files).
  { apply List.Forall_forall. intros p Hp.
    apply in_map_iff in Hp as (f & <- & Hf). apply filter_In in Hf as [Hin Hre].
    specialize (Hwf d names Hl). rewrite List.Forall_forall in Hwf.
    exists f. repeat split; auto.
    - apply path_join_name. auto.
    - apply basename_path_join. auto. }
  assert (Hstamps : NoDup (List.map leading_stamp files)).
  { apply check_unique_ok in Hchk as (_ & Hnd & _ & _).
    erewrite map_ext_in; [exact Hnd |].
    intros p Hp. rewrite List.Forall_forall in Hshape.
    destruct (Hshape p Hp) as (f & Ef & Hre & Hb).
    unfold leading_stamp. symmetry. apply discovered_timestamp.
    apply in_map_iff in Hp as (f' & <- & Hf'). apply filter_In in Hf' as [Hin' Hre'].
    exists d, f'. repeat split; auto.
    specialize (Hwf d names Hl). rewrite List.Forall_forall in Hwf. auto. }
  apply (sorted_paths_chronological (join_prefix d)).
  - apply sorted_strongly.
  - assert (Hperm : Permutation (List.map leading_stamp (Py.sorted files))
                                (List.map leading_stamp files))
      by apply Permutation_map, sorted_permutation.
    rewrite Hperm. exact Hstamps.
  - eapply Permutation_Forall; [| exact Hshape].
    symmetry. apply sorted_permutation.
Qed.

Lemma _load_script_inv p (st : St) s st' :
  _load_script fs p st = Ok s st' ->
  st' = st /\ script_file s = p /\ exec_module fs p = Some (script_module s).
Proof.
  unfold _load_script, bind, get, ret, raise.
  destruct (path_exists fs p); simpl; [| discriminate].
  destruct (exec_module fs p); [| discriminate].
  intros H. inversion H; subst. auto.
Qed.

Lemma up_without_dependencies fuel (s : Script World) (st : St) :
  (mod_dependencies (script_module s) = None
   \/ mod_dependencies (script_module s) = Some []) ->
  ends_with (up fs (S fuel) s st) (at_most_up (script_file s) st).
Proof.
  intros Hdeps. simpl. unfold up_body, bind. rewrite has_run_eq.
  destruct (has_run_in (storage_engine st) (filename s)).
  - split; [reflexivity |]. exists []. split; [symmetry; apply app_nil_r | auto].
  - assert (Hret : match mod_dependencies (script_module s) with
                   | Some dependencies => up_dependencies fs (up fs fuel) s dependencies
                   | None => ret false
                   end st = Ok false st).
    { destruct Hdeps as [-> | ->]; reflexivity. }
    rewrite Hret. unfold run_up, bind, get. simpl.
    destruct (dry_run st); simpl.
    + split; [reflexivity |]. exists []. split; [symmetry; apply app_nil_r | auto].
    + unfold call_body, bind, get. simpl.
      destruct (mod_up (script_module s) (world st)) as [[] w]; simpl.
      * split; [reflexivity |].
        exists [EvUp (script_file s); EvStore (dependency_path s)].
        split; [rewrite <- app_assoc; reflexivity | right; reflexivity].
      * split; [reflexivity |].
        exists [EvUp (script_file s)]. split; [reflexivity | right; reflexivity].
Qed.


(** *** Which bodies the loop of [migrate] calls *)

Lemma migrate_loop_sublist fuel dir : forall files (st : St),
  directory st = dir ->
  Forall (fun p => forall m,
              exec_module fs (Py.path_join dir p) = Some m ->
              mod_dependencies m = None \/ mod_dependencies m = Some []) files ->
  ends_with (migrate_loop fs (S fuel) files st)
    (fun st' =>
       exists evs, trace st' = (trace st ++ evs)%list
                   /\ up_paths evs `sublist_of` List.map (Py.path_join dir) files).
Proof.
  induction files as [| p files IH]; intros st Hdir Hnd.
  - exists []. split; [symmetry; apply app_nil_r | constructor].
  - apply Forall_cons in Hnd as [Hp_nd Hnd].
    cbn [migrate_loop]. unfold bind at 1. unfold _migrate_up, bind, get.
    rewrite Hdir.
    pose proof (_load_script_reads_only (Py.path_join dir p) st) as Hro.
    destruct (_load_script fs (Py.path_join dir p) st)
      as [s st0 | e st0 |] eqn:El; [| | contradiction]; subst st0.
    + apply _load_script_inv in El as (_ & Hfile & Hmod).
      pose proof (up_without_dependencies fuel s st (Hp_nd _ Hmod)) as Hstep.
      rewrite Hfile in Hstep.
      destruct (up fs (S fuel) s st) as [[] st1 | e st1 |];
        [| | contradiction]; destruct Hstep as (Hd & evs & Ht & Hup).
      * specialize (IH st1 (eq_trans Hd Hdir) Hnd).
        destruct (migrate_loop fs (S fuel) files st1) as [[] st2 | e st2 |];
          [| | contradiction];
          destruct IH as (evs' & Ht' & Hup');
          exists (evs ++ evs')%list;
          (split; [rewrite Ht', Ht; symmetry; apply app_assoc |]);
          unfold up_paths in *; rewrite omap_app; cbn [List.map];
          (destruct Hup as [-> | ->]; simpl;
           [apply sublist_cons; exact Hup' | apply sublist_skip; exact Hup']).
      * exists evs. split; [exact Ht |]. cbn [List.map].
        destruct Hup as [-> | ->]; simpl.
        -- apply sublist_nil_l.
        -- apply sublist_skip, sublist_nil_l.
    + exists []. split; [symmetry; apply app_nil_r | apply sublist_nil_l].
Qed.

Lemma migrate_loop_applies fuel (ref : St) (applied : string -> bool) :
  forall files scripts (st : St),
  directory st = directory ref -> dry_run st = false ->
  Forall2 (fun p s => _load_script fs (Py.path_join (directory ref) p) ref = Ok s ref)
          files scripts ->
  Forall (fun s => mod_dependencies (script_module s) = None
                   \/ mod_dependencies (script_module s) = Some []) scripts ->
  Forall (fun s => forall w, fst (mod_up (script_module s) w) = true) scripts ->
  StronglySorted (fun s s' => dependency_path s <> filename s') scripts ->
  Forall (fun s => has_run_in (storage_engine st) (filename s) = applied (filename s))
         scripts ->
  exists st',
    migrate_loop fs (S fuel) files st = Ok tt st'
    /\ up_paths (trace st')
       = (up_paths (trace st)
          ++ List.map script_file
               (List.filter (fun s => negb (applied (filename s))) scripts))%list.
Proof.
  induction files as [| p files IH];
    intros scripts st Hdir Hdry Hload Hnd Hbody Hsep Happ.
  - inversion Hload; subst. exists st. split; [reflexivity |].
    simpl. symmetry. apply app_nil_r.
  - inversion Hload as [| ? s ? scripts' Hs Hrest]; subst.
    apply Forall_cons in Hnd as [Hs_nd Hnd].
    apply Forall_cons in Hbody as [Hs_body Hbody].
    apply Forall_cons in Happ as [Hs_app Happ].
    apply StronglySorted_inv in Hsep as [Hsep Hs_sep].
    cbn [migrate_loop]. unfold bind at 1. unfold _migrate_up, bind, get.
    rewrite Hdir.
    rewrite (_load_script_directory _ ref st s (eq_sym Hdir) Hs).
    cbn [List.filter]. rewrite <- Hs_app.
    destruct (has_run_in (storage_engine st) (filename s)) eqn:Hrun.
    + rewrite (up_returns_at_once fuel s st Hrun). cbn [negb].
      apply IH; assumption.
    + destruct (mod_up (script_module s) (world st)) as [ok w'] eqn:Ebody.
      pose proof (Hs_body (world st)) as Hok. rewrite Ebody in Hok.
      simpl in Hok. subst ok.
      rewrite (up_applies_unit fuel s st w' Hrun Hs_nd Hdry Ebody).
      match goal with
      | |- exists st', migrate_loop _ _ _ ?st1 = _ /\ _ =>
          destruct (IH scripts' st1) as (st' & Hloop & Hpaths); auto
      end.
      * cbn [storage_engine].
        rewrite List.Forall_forall in *. intros s' Hin.
        rewrite has_run_in_store_other; [apply Happ, Hin |].
        intros Heq. apply (Hs_sep s' Hin). symmetry. exact Heq.
      * exists st'. split; [exact Hloop |].
        rewrite Hpaths. cbn [trace negb List.map].
        unfold up_paths. rewrite omap_app. simpl.
        rewrite <- app_assoc. reflexivity.
Qed.

Lemma os_listdir_reads_only d : reads_only (os_listdir fs d).
Proof. intros st. unfold os_listdir. destruct (listdir fs d); reflexivity. Qed.

Lemma migration_files_in_reads_only d : reads_only (migration_files_in fs d).
Proof.
  intros st. unfold migration_files_in, bind, os_listdir.
  destruct (listdir fs d); reflexivity.
Qed.

Lemma collect_modules_reads_only modules : reads_only (collect_modules fs modules).
Proof.
  induction modules as [| m modules IH]; intros st; [reflexivity |].
  cbn [collect_modules]. unfold bind at 1.
  pose proof (migration_files_in_reads_only (Py.path_join m "migrations") st) as H1.
  destruct (migration_files_in fs (Py.path_join m "migrations") st)
    as [found st1 | e st1 |]; [| exact H1 | exact H1]. subst st1.
  unfold bind. specialize (IH st).
  destruct (collect_modules fs modules st); auto.
Qed.

Lemma scan_migration_files_frame (st : St) :
  ends_with (scan_migration_files fs st) (same_but_directory st).
Proof.
  unfold scan_migration_files, bind, get.
  pose proof (migration_files_in_reads_only (directory st) st) as H1.
  destruct (migration_files_in fs (directory st) st) as [l st1 | e st1 |];
    [| subst; apply same_but_directory_refl | contradiction]. subst st1.
  destruct l as [| p l]; [| apply same_but_directory_refl].
  destruct (path_exists fs (Py.path_join (directory st) "migrations")).
  - unfold set_directory. cbn [directory].
    match goal with
    | |- ends_with (migration_files_in fs ?d ?s) _ =>
        pose proof (migration_files_in_reads_only d s) as H2;
        destruct (migration_files_in fs d s) as [l' st2 | e st2 |]
    end; [| | contradiction]; subst st2; repeat split.
  - unfold _find_modules_with_migrations, bind, get.
    pose proof (os_listdir_reads_only (directory st) st) as H2.
    destruct (os_listdir fs (directory st) st) as [items st2 | e st2 |];
      [| subst; apply same_but_directory_refl | contradiction]. subst st2.
    unfold ret at 1.
    match goal with
    | |- ends_with (collect_modules fs ?ms ?s) _ =>
        pose proof (collect_modules_reads_only ms s) as H3;
        destruct (collect_modules fs ms s) as [l' st3 | e st3 |]
    end; [| | contradiction]; subst st3; apply same_but_directory_refl.
Qed.

Lemma _find_all_migration_files_inv (st : St) files st1 :
  _find_all_migration_files fs st = Ok files st1 ->
  scan_migration_files fs st = Ok files st1
  /\ check_unique ∅ ∅ files st1 = Ok tt st1.
Proof.
  unfold _find_all_migration_files, bind.
  destruct (scan_migration_files fs st) as [l st0 | |]; try discriminate.
  destruct (check_unique_total ∅ ∅ l st0) as [Hok | [msg Hr]].
  - rewrite Hok. intros H; inversion H; subst. auto.
  - rewrite Hr. discriminate.
Qed.

Lemma _find_all_migration_files_frame (st : St) :
  ends_with (_find_all_migration_files fs st) (same_but_directory st).
Proof.
  unfold _find_all_migration_files, bind.
  pose proof (scan_migration_files_frame st) as H1.
  destruct (scan_migration_files fs st) as [l st0 | e st0 |]; [| exact H1 | exact H1].
  destruct (check_unique_total ∅ ∅ l st0) as [Hok | [msg Hr]].
  - rewrite Hok. exact H1.
  - rewrite Hr. exact H1.
Qed.

(** In the flat and the [migrations]-subfolder layouts the discovered files
    are the accepted entries of the directory the [Migrator] ends up with. *)
Lemma scan_single_directory (st : St) files st1 :
  scan_migration_files fs st = Ok files st1 ->
  single_directory_layout fs (directory st) ->
  exists names,
    listdir fs (directory st1) = Some names
    /\ files = List.map (Py.path_join (directory st1))
                 (List.filter _is_migration_file names).
Proof.
  unfold scan_migration_files, bind, get. intros H Hlay.
  destruct (migration_files_in fs (directory st) st) as [l st0 | |] eqn:E;
    try discriminate.
  apply migration_files_in_inv in E as (-> & names & Hl & El).
  destruct l as [| p l].
  - destruct (path_exists fs (Py.path_join (directory st) "migrations")) eqn:Ex.
    + unfold set_directory in H. cbn [directory] in H.
      match type of H with
      | migration_files_in fs ?d ?s = _ =>
          destruct (migration_files_in_inv d s _ _ H) as (-> & names' & Hl' & ->)
      end.
      exists names'. cbn [directory]. auto.
    + destruct Hlay as [(names0 & Hl0 & Hne) | Hex]; [| congruence].
      exfalso. rewrite Hl in Hl0. inversion Hl0; subst names0.
      destruct (List.filter _is_migration_file names); [contradiction | discriminate].
  - inversion H; subst. exists names. auto.
Qed.


(** *** The rollback bound *)

Lemma slice_from_last_n_length {A} (n : Z) (l : list A) :
  (1 <= n)%Z -> (Z.of_nat (List.length (Py.slice_from (- n) l)) <= n)%Z.
Proof.
  intros Hn. unfold Py.slice_from.
  destruct (- n <? 0)%Z eqn:E; [| apply Z.ltb_ge in E; lia].
  rewrite length_drop. lia.
Qed.

Lemma down_events (script : Script World) (st : St) :
  ends_with (down script st)
    (fun st' => exists evs, trace st' = (trace st ++ evs)%list
                            /\ (List.length (down_paths evs) <= 1)%nat).
Proof.
  unfold down, bind, get. rewrite has_run_eq.
  destruct (has_run_in (storage_engine st) (filename script)); simpl.
  - destruct (dry_run st); simpl.
    + exists []. split; [symmetry; apply app_nil_r | simpl; lia].
    + unfold call_body, bind, get. simpl.
      destruct (mod_down (script_module script) (world st)) as [[] w]; simpl.
      * unfold delete, bind, emit, get. simpl.
        destruct (storage_engine st) as [items | data]; simpl.
        -- exists [EvDown (script_file script); EvDelete (dependency_path script)].
           split; [rewrite <- app_assoc; reflexivity | simpl; lia].
        -- destruct (MemoryStorageEngine.delete data (dependency_path script)); simpl;
             exists [EvDown (script_file script); EvDelete (dependency_path script)];
             (split; [rewrite <- app_assoc; reflexivity | simpl; lia]).
      * exists [EvDown (script_file script)]. split; [reflexivity | simpl; lia].
  - exists []. split; [symmetry; apply app_nil_r | simpl; lia].
Qed.

Lemma rollback_loop_events migrations_map n files : forall count (st : St),
  ends_with (rollback_loop fs migrations_map n count files st)
    (fun st' => exists evs, trace st' = (trace st ++ evs)%list
                            /\ (List.length (down_paths evs) <= List.length files)%nat).
Proof.
  induction files as [| file files IH]; intros count st.
  - exists []. split; [symmetry; apply app_nil_r | simpl; lia].
  - cbn [rollback_loop].
    destruct (migrations_map !! Py.replace ".py" "" (Py.basename file)) as [path |].
    + unfold bind at 1.
      pose proof (_load_script_reads_only path st) as Hro.
      destruct (_load_script fs path st) as [s st1 | e st1 |];
        [| | contradiction]; subst st1.
      * unfold bind at 1. pose proof (down_events s st) as Hd.
        destruct (down s st) as [[] st1 | e st1 |]; [| | contradiction];
          destruct Hd as (evs & Ht & Hlen).
        -- destruct (count + 1 =? n)%Z.
           ++ exists evs. split; [exact Ht | simpl; lia].
           ++ specialize (IH (count + 1)%Z st1).
              destruct (rollback_loop fs migrations_map n (count + 1) files st1)
                as [[] st2 | e st2 |]; [| | contradiction];
                destruct IH as (evs' & Ht' & Hlen');
                exists (evs ++ evs')%list;
                (split; [rewrite Ht', Ht; symmetry; apply app_assoc |]);
                unfold down_paths in *; rewrite omap_app, length_app; simpl; lia.
        -- exists evs. split; [exact Ht | simpl; lia].
      * exists []. split; [symmetry; apply app_nil_r | simpl; lia].
    + exists []. split; [symmetry; apply app_nil_r | simpl; lia].
Qed.

(** X24. For [n >= 1], [rollback(n)] returns or raises after calling at most [n]
    [down] bodies. *)
Lemma rollback_reverses_at_most_n (n : Z) (st : St) :
  (1 <= n)%Z ->
  ends_with (rollback fs n st)
    (fun st' => exists evs, trace st' = (trace st ++ evs)%list
                            /\ (Z.of_nat (List.length (down_paths evs)) <= n)%Z).
Proof.
  intros Hn. unfold rollback, bind.
  pose proof (_find_all_migration_files_frame st) as Hframe.
  destruct (_find_all_migration_files fs st) as [files st1 | e st1 |];
    [| | contradiction]; destruct Hframe as (_ & _ & _ & _ & Htr).
  - unfold get_last_n, bind, get.
    destruct (storage_engine st1) as [items | data]; simpl.
    + pose proof (rollback_loop_events (migrations_map_of files) n
                    (DynamoDBStorageEngine.get_last_n (scan_page fs items) n)
                    0%Z st1) as Hloop.
      pose proof (slice_from_last_n_length n
                    (Py.sorted_reverse (elements (scan_page fs items))) Hn) as Hlen.
      fold (DynamoDBStorageEngine.get_last_n (scan_page fs items) n) in Hlen.
      destruct (rollback_loop fs (migrations_map_of files) n 0
                  (DynamoDBStorageEngine.get_last_n (scan_page fs items) n) st1)
        as [[] st2 | e st2 |]; [| | contradiction];
        destruct Hloop as (evs & Ht & Hl); exists evs;
        (split; [congruence | lia]).
    + exists []. split; [rewrite Htr; symmetry; apply app_nil_r | simpl; lia].
  - exists []. split; [rewrite Htr; symmetry; apply app_nil_r | simpl; lia].
Qed.

(** *** Dependencies before dependents, when the two identifiers agree *)

Lemma replay_store_monotone e ev id :
  has_run_in e id = true -> has_run_in (replay_store e ev) id = true.
Proof.
  intros H. destruct ev; simpl; auto.
  destruct e as [items | data]; simpl in *;
    apply bool_decide_eq_true in H; apply bool_decide_eq_true.
  - unfold DynamoDBStorageEngine.store. apply elem_of_union. right. exact H.
  - unfold MemoryStorageEngine.store.
    destruct (decide (id0 = id)) as [-> | Hne].
    + rewrite lookup_insert_eq. eauto.
    + rewrite lookup_insert_ne by assumption. exact H.
Qed.

Lemma replay_monotone evs : forall e id,
  has_run_in e id = true -> has_run_in (replay evs e) id = true.
Proof.
  induction evs as [| ev evs IH]; intros e id H; [exact H |].
  simpl. apply IH, replay_store_monotone, H.
Qed.

Lemma _resolve_dependency_path_total d (st : St) :
  exists q, _resolve_dependency_path d st = Ok q st.
Proof.
  unfold _resolve_dependency_path, bind, get, ret.
  destruct (Py.split Py.sep d) as [|a [|b [|c [|? ?]]]]; eauto.
  destruct (String.eqb b "migrations"); eauto.
Qed.

Lemma _resolve_dependency_path_directory d (st1 st2 : St) q :
  directory st1 = directory st2 ->
  _resolve_dependency_path d st1 = Ok q st1 ->
  _resolve_dependency_path d st2 = Ok q st2.
Proof.
  unfold _resolve_dependency_path, bind, get, ret. intros Hd.
  rewrite Hd.
  destruct (Py.split Py.sep d) as [|a [|b [|c [|? ?]]]];
    try (intros H; inversion H; reflexivity).
  destruct (String.eqb b "migrations"); intros H; inversion H; reflexivity.
Qed.

Lemma load_dependency_directory d (st1 st2 : St) s :
  directory st1 = directory st2 ->
  load_dependency fs d st1 = Ok s st1 -> load_dependency fs d st2 = Ok s st2.
Proof.
  intros Hd H. apply load_dependency_inv in H as (_ & q & Hr & Hl).
  unfold load_dependency, bind.
  rewrite (_resolve_dependency_path_directory d st1 st2 q Hd Hr).
  apply (_load_script_directory q st1 st2 s Hd Hl).
Qed.

Lemma dependencies_first_app dir e evs1 evs2 :
  dependencies_first fs dir e evs1 ->
  dependencies_first fs dir (replay evs1 e) evs2 ->
  dependencies_first fs dir e (evs1 ++ evs2).
Proof.
  intros H1 H2 k p m Hk Hm.
  destruct (decide (k < List.length evs1)%nat) as [Hlt | Hge].
  - rewrite lookup_app_l in Hk by assumption.
    rewrite take_app_le by lia. eapply H1; eauto.
  - rewrite lookup_app_r in Hk by lia.
    rewrite take_app_ge by lia. rewrite replay_app. eapply H2; eauto.
Qed.

Lemma same_migrator_refl (st : St) : same_migrator st st.
Proof. repeat split. Qed.

Lemma same_migrator_trans (st1 st2 st3 : St) :
  same_migrator st1 st2 -> same_migrator st2 st3 -> same_migrator st1 st3.
Proof. intros (? & ? & ?) (? & ? & ?). repeat split; congruence. Qed.

Lemma ordered_run_refl (st : St) : ordered_run fs st st.
Proof.
  split; [apply same_migrator_refl |].
  exists []. split; [apply stored_by_nil |].
  intros k p m Hk. rewrite lookup_nil in Hk. discriminate.
Qed.

Lemma ordered_run_trans (st1 st2 st3 : St) :
  ordered_run fs st1 st2 -> ordered_run fs st2 st3 -> ordered_run fs st1 st3.
Proof.
  intros [Hs (evs & Hst & Hdf)] [Hs' (evs' & Hst' & Hdf')].
  split; [eapply same_migrator_trans; eauto |].
  exists (evs ++ evs')%list. split; [eapply stored_by_app; eauto |].
  apply dependencies_first_app; [exact Hdf |].
  destruct Hs as (Hd & _). destruct Hst as [_ He].
  rewrite <- He, <- Hd. exact Hdf'.
Qed.

Lemma ordered_run_monotone (st st' : St) id :
  ordered_run fs st st' ->
  has_run_in (storage_engine st) id = true ->
  has_run_in (storage_engine st') id = true.
Proof.
  intros [_ (evs & [_ He] & _)] H. rewrite He. apply replay_monotone, H.
Qed.

(** The tail of [up] (lines 272-277) on a unit whose dependencies are in the
    store. *)
Lemma run_up_ordered (script : Script World) (st : St) :
  dry_run st = false ->
  exec_module fs (script_file script) = Some (script_module script) ->
  dependencies_applied fs (directory st) (storage_engine st) (script_module script) ->
  match run_up script st with
  | Ok _ st' =>
      ordered_run fs st st'
      /\ has_run_in (storage_engine st') (dependency_path script) = true
  | Raise _ st' => ordered_run fs st st'
  | Diverge => False
  end.
Proof.
  intros Hdry Hmod Happ.
  assert (Hhead : forall tail,
    (forall k p, tail !! k = Some (EvUp p) -> False) ->
    dependencies_first fs (directory st) (storage_engine st)
      (EvUp (script_file script) :: tail)).
  { intros tail Hnone k p m Hk Hm. destruct k as [| k].
    - simpl in Hk. inversion Hk; subst p.
      rewrite Hmod in Hm. inversion Hm; subst m. exact Happ.
    - simpl in Hk. exfalso. eapply Hnone; eauto. }
  unfold run_up, bind, get. simpl. rewrite Hdry. simpl.
  unfold call_body, bind, get. simpl.
  destruct (mod_up (script_module script) (world st)) as [[] w]; simpl.
  - split.
    + split; [repeat split |].
      exists [EvUp (script_file script); EvStore (dependency_path script)].
      split.
      * split; simpl; [rewrite <- app_assoc; reflexivity |].
        destruct (storage_engine st); reflexivity.
      * apply Hhead. intros [| [| k]] p Hk; simpl in Hk; discriminate.
    + destruct (storage_engine st) as [items | data]; simpl;
        apply bool_decide_eq_true.
      * unfold DynamoDBStorageEngine.store.
        apply elem_of_union. left. apply elem_of_singleton. reflexivity.
      * unfold MemoryStorageEngine.store. rewrite lookup_insert_eq. eauto.
  - split; [repeat split |].
    exists [EvUp (script_file script)]. split.
    + split; reflexivity.
    + apply Hhead. intros [| k] p Hk; simpl in Hk; discriminate.
Qed.

Section DependencyOrder.

Variable dir : string.
Variable units : string -> Prop.
Variable rank : string -> nat.
Hypothesis Hkeys : keys_agree fs dir units.
Hypothesis Hacyclic : acyclic fs dir units rank.

Lemma up_dependencies_ordered fuel (script : Script World) deps :
  up_ordered fs dir units rank fuel ->
  forall (st : St),
    directory st = dir -> migrate_dependencies st = true -> dry_run st = false ->
    (forall (stx : St) d q, directory stx = dir -> In d deps ->
        _resolve_dependency_path d stx = Ok q stx ->
        units q /\ (rank q < fuel)%nat) ->
    match up_dependencies fs (up fs fuel) script deps st with
    | Ok returned st' =>
        returned = false
        /\ ordered_run fs st st'
        /\ forall (stx : St) d s, directory stx = dir -> In d deps ->
             load_dependency fs d stx = Ok s stx ->
             has_run_in (storage_engine st') (dependency_path s) = true
    | Raise _ st' => ordered_run fs st st'
    | Diverge => False
    end.
Proof.
  intros Hrec. induction deps as [| d deps IH]; intros st Hdir Hmig Hdry Hrank.
  - simpl. split; [reflexivity |]. split; [apply ordered_run_refl |].
    intros stx d s _ [].
  - cbn [up_dependencies]. unfold bind at 1.
    destruct (_resolve_dependency_path_total d st) as [q Hq]. rewrite Hq.
    unfold bind at 1.
    pose proof (_load_script_reads_only q st) as Hro.
    destruct (_load_script fs q st) as [s st0 | e st0 |] eqn:Hload;
      [| subst; apply ordered_run_refl | contradiction]. subst st0.
    assert (Hdep : load_dependency fs d st = Ok s st).
    { unfold load_dependency, bind. rewrite Hq. exact Hload. }
    assert (Hsame : forall (stx : St) s', directory stx = dir ->
              load_dependency fs d stx = Ok s' stx -> s' = s).
    { intros stx s' Hx Hl.
      apply (load_dependency_directory d stx st s') in Hl; [| congruence].
      rewrite Hdep in Hl. inversion Hl. reflexivity. }
    assert (Hrank' : forall (stx : St) d' q', directory stx = dir -> In d' deps ->
              _resolve_dependency_path d' stx = Ok q' stx ->
              units q' /\ (rank q' < fuel)%nat).
    { intros stx d' q' Hx Hin. apply Hrank; [assumption | right; assumption]. }
    unfold bind at 1. rewrite has_run_eq.
    destruct (has_run_in (storage_engine st) (dependency_path s)) eqn:Happlied;
      cbn [negb].
    + specialize (IH st Hdir Hmig Hdry Hrank').
      destruct (up_dependencies fs (up fs fuel) script deps st)
        as [returned st' | e st' |]; [| exact IH | contradiction].
      destruct IH as (Hret & Hrun & Hall).
      split; [exact Hret |]. split; [exact Hrun |].
      intros stx d' s' Hx [<- | Hin] Hl.
      * rewrite (Hsame stx s' Hx Hl).
        eapply ordered_run_monotone; eauto.
      * eapply Hall; eauto.
    + unfold bind at 1, get at 1. rewrite Hmig. cbn [negb].
      unfold bind at 1. rewrite Hload.
      assert (Hfile : script_file s = q)
        by (apply _load_script_inv in Hload as (_ & ? & _); assumption).
      assert (Hup : match up fs fuel s st with
                    | Ok _ st' =>
                        ordered_run fs st st'
                        /\ has_run_in (storage_engine st') (dependency_path s) = true
                    | Raise _ st' => ordered_run fs st st'
                    | Diverge => False
                    end).
      { destruct (Hrank st d q Hdir (or_introl eq_refl) Hq) as [Hunit Hlt].
        apply Hrec; auto.
        - rewrite Hfile. exact Hunit.
        - rewrite Hfile. exact Hload.
        - rewrite Hfile. exact Hlt. }
      unfold bind at 1.
      destruct (up fs fuel s st) as [[] st1 | e st1 |]; [| exact Hup | contradiction].
      destruct Hup as [Hrun1 Happ1].
      assert (Hm1 := proj1 Hrun1). destruct Hm1 as (Hd1 & Hdr1 & Hmg1).
      specialize (IH st1 ltac:(congruence) ltac:(congruence) ltac:(congruence) Hrank').
      destruct (up_dependencies fs (up fs fuel) script deps st1)
        as [returned st' | e st' |]; [| | contradiction].
      * destruct IH as (Hret & Hrun & Hall).
        split; [exact Hret |].
        split; [eapply ordered_run_trans; eauto |].
        intros stx d' s' Hx [<- | Hin] Hl.
        -- rewrite (Hsame stx s' Hx Hl).
           eapply ordered_run_monotone; eauto.
        -- eapply Hall; eauto.
      * eapply ordered_run_trans; eauto.
Qed.

Lemma up_ordered_all fuel : up_ordered fs dir units rank fuel.
Proof.
  induction fuel as [| fuel IH]; intros script st Hdir Hmig Hdry Hunit Hload Hrank;
    [lia |].
  assert (Hinv := _load_script_inv _ _ _ _ Hload).
  destruct Hinv as (_ & _ & Hmod).
  cbn [up]. unfold up_body, bind. rewrite has_run_eq.
  destruct (has_run_in (storage_engine st) (filename script)) eqn:Hdone.
  - split; [apply ordered_run_refl |].
    rewrite <- (Hkeys st (script_file script) script Hdir Hunit Hload). exact Hdone.
  - destruct (mod_dependencies (script_module script)) as [deps |] eqn:Hdeps.
    + assert (Hr : forall (stx : St) d q, directory stx = dir -> In d deps ->
                _resolve_dependency_path d stx = Ok q stx ->
                units q /\ (rank q < fuel)%nat).
      { intros stx d q Hx Hin Hq.
        destruct (Hacyclic stx (script_file script) (script_module script)
                    deps d q Hx Hunit Hmod Hdeps Hin Hq) as [Hu Hlt].
        split; [exact Hu | lia]. }
      pose proof (up_dependencies_ordered fuel script deps IH st Hdir Hmig Hdry Hr)
        as Hloop.
      destruct (up_dependencies fs (up fs fuel) script deps st)
        as [returned st1 | e st1 |]; [| exact Hloop | contradiction].
      destruct Hloop as (-> & Hrun1 & Hall).
      assert (Hm1 := proj1 Hrun1). destruct Hm1 as (Hd1 & Hdr1 & Hmg1).
      assert (Hstep : match run_up script st1 with
                      | Ok _ st' =>
                          ordered_run fs st1 st'
                          /\ has_run_in (storage_engine st') (dependency_path script) = true
                      | Raise _ st' => ordered_run fs st1 st'
                      | Diverge => False
                      end).
      { apply run_up_ordered; [congruence | exact Hmod |].
        intros stx deps' d s Hx Hd' Hin Hl.
        rewrite Hdeps in Hd'. inversion Hd'; subst deps'.
        apply (Hall stx d s); [congruence | assumption | assumption]. }
      destruct (run_up script st1) as [[] st2 | e st2 |]; [| | contradiction].
      * destruct Hstep as [Hrun2 Happ]. split; [| exact Happ].
        eapply ordered_run_trans; eauto.
      * eapply ordered_run_trans; eauto.
    + unfold ret at 1.
      apply run_up_ordered; [exact Hdry | exact Hmod |].
      intros stx deps' d s _ Hd'. rewrite Hdeps in Hd'. discriminate.
Qed.

End DependencyOrder.


End Properties.

(** ** The theorems at concrete inputs *)

Lemma dry_run_purity_witness :
  let st := Migrator "/app" (Memory ∅) true true tt in
  dry_run st = true
  /\ wp (up blocked_fs 3 unit_b) st
        (fun _ st' => only_logged st st') (fun _ st' => only_logged st st')
  /\ wp (down unit_b) st
        (fun _ st' => only_logged st st') (fun _ st' => only_logged st st').
Proof.
  split; [reflexivity |].
  apply (dry_run_purity blocked_fs 3 unit_b); reflexivity.
Defined.

Lemma body_failure_witness :
  let st := Migrator "/app" (Memory {[ "20240410094004_a" := true ]}) false true tt in
  _load_script failing_dep_fs "/app/20240410094006_b.py" st = Ok failing_dep_b st
  /\ has_run_in (storage_engine st) "20240410094006_b" = false
  /\ exists st',
      up failing_dep_fs 1 failing_dep_b st
      = Raise (BodyException "/app/20240410094006_b.py") st'
      /\ trace st' = [EvUp "/app/20240410094006_b.py"]
      /\ storage_engine st' = storage_engine st.
Proof.
  split; [vm_compute; reflexivity |].
  split; [vm_compute; reflexivity |].
  apply (proj1 (proj2 (body_failure_keeps_store failing_dep_fs))
           0%nat failing_dep_b
           (Migrator "/app" (Memory {[ "20240410094004_a" := true ]}) false true tt)
           (Migrator "/app" (Memory {[ "20240410094004_a" := true ]}) false true tt)
           tt).
  - vm_compute; reflexivity.
  - vm_compute; reflexivity.
  - reflexivity.
  - reflexivity.
Defined.



Lemma memory_delete_witness :
  MemoryStorageEngine.has_run {[ "20240410094004_a" := true ]} "20240410094004_a" = true
  /\ exists data',
      MemoryStorageEngine.delete {[ "20240410094004_a" := true ]} "20240410094004_a"
      = Some data'
      /\ MemoryStorageEngine.has_run data' "20240410094004_a" = false
      /\ forall other, other <> "20240410094004_a" ->
           MemoryStorageEngine.has_run data' other
           = MemoryStorageEngine.has_run {[ "20240410094004_a" := true ]} other.
Proof.
  split; [vm_compute; reflexivity |].
  apply (proj1 (proj2 (memory_delete_raises_iff_not_run (World := unit)
                         {[ "20240410094004_a" := true ]} "20240410094004_a"))).
  vm_compute; reflexivity.
Defined.

Lemma lookup_path_In {A} p (l : list (string * A)) x :
  lookup_path p l = Some x -> In (p, x) l.
Proof.
  unfold lookup_path. destruct (List.find _ l) as [[q y] |] eqn:E; [| discriminate].
  simpl. intros H. inversion H; subst.
  apply find_some in E as [Hin Heq]. simpl in Heq.
  apply String.eqb_eq in Heq. subst. exact Hin.
Qed.

Lemma fs_of_listing_wf dirs files cwd :
  Forall (fun e => Forall (fun f => no_slash f = true) (snd e)) dirs ->
  listing_wf (fs_of dirs files cwd).
Proof.
  intros Hall d names Hl. simpl in Hl. apply lookup_path_In in Hl.
  rewrite List.Forall_forall in Hall. apply (Hall _ Hl).
Qed.

Lemma fs_of_no_dependencies dirs files cwd :
  Forall (fun e => mod_dependencies (snd e) = None
                   \/ mod_dependencies (snd e) = Some []) files ->
  no_dependencies (fs_of dirs files cwd).
Proof.
  intros Hall p m Hl. simpl in Hl. apply lookup_path_In in Hl.
  rewrite List.Forall_forall in Hall. apply (Hall _ Hl).
Qed.

Lemma plain_fs_listing_wf : listing_wf plain_fs.
Proof. apply fs_of_listing_wf. repeat constructor. Qed.

Lemma plain_fs_single_directory : single_directory_layout plain_fs "/app".
Proof. left. eexists. split; [reflexivity |]. vm_compute. discriminate. Qed.

Lemma modules_fs_listing_wf : listing_wf modules_fs.
Proof. apply fs_of_listing_wf. repeat constructor. Qed.

Lemma modules_fs_no_dependencies : no_dependencies modules_fs.
Proof. apply fs_of_no_dependencies. repeat constructor; right; reflexivity. Qed.

Lemma duplicate_fs_listing_wf : listing_wf duplicate_fs.
Proof. apply fs_of_listing_wf. repeat constructor. Qed.



Lemma duplicate_files_witness :
  let st := Migrator "/root" (Memory ∅) false true tt in
  let f := "/root/a/migrations/20240101000001_x.py" in
  let g := "/root/b/migrations/20240101000001_y.py" in
  listing_wf duplicate_fs
  /\ scan_migration_files duplicate_fs st = Ok [f; g] st
  /\ Py.str_take 14 (Py.basename f) = Py.str_take 14 (Py.basename g)
  /\ exists msg,
      _find_all_migration_files duplicate_fs st = Raise (ValueError msg) st
      /\ (forall fuel, migrate duplicate_fs fuel st = Raise (ValueError msg) st)
      /\ (forall n, rollback duplicate_fs n st = Raise (ValueError msg) st)
      /\ trace st = trace st
      /\ world st = world st
      /\ storage_engine st = storage_engine st.
Proof.
  split; [apply duplicate_fs_listing_wf |].
  split; [vm_compute; reflexivity |].
  split; [reflexivity |].
  apply (duplicate_files_fail_discovery duplicate_fs
           (Migrator "/root" (Memory ∅) false true tt)
           (Migrator "/root" (Memory ∅) false true tt)
           ["/root/a/migrations/20240101000001_x.py";
            "/root/b/migrations/20240101000001_y.py"]).
  - apply duplicate_fs_listing_wf.
  - vm_compute; reflexivity.
  - exists 0%nat, 1%nat, "/root/a/migrations/20240101000001_x.py",
      "/root/b/migrations/20240101000001_y.py".
    split; [lia |]. split; [reflexivity |]. split; [reflexivity |].
    right. reflexivity.
Defined.

(** The hypotheses of [dependencies_first_when_keys_agree] hold of the
    chain of three units in [/app]. *)
Lemma flat3_keys_agree :
  keys_agree flat3_fs "/app" (fun p => In p flat3_files).
Proof.
  intros st p s Hdir _ Hload.
  pose proof (_load_script_inv flat3_fs p st s st Hload) as (_ & _ & Hmod).
  simpl in Hmod. apply lookup_path_In in Hmod.
  unfold _load_script, bind, get, ret, raise in Hload. rewrite Hdir in Hload.
  destruct Hmod as [E | [E | [E | []]]]; inversion E; subst p;
    vm_compute in Hload; inversion Hload; reflexivity.
Qed.

Lemma flat3_acyclic :
  acyclic flat3_fs "/app" (fun p => In p flat3_files) flat3_rank.
Proof.
  intros st p m deps d q Hdir _ Hmod Hdeps Hin Hq.
  simpl in Hmod. apply lookup_path_In in Hmod.
  unfold _resolve_dependency_path, bind, get, ret in Hq. rewrite Hdir in Hq.
  destruct Hmod as [E | [E | [E | []]]]; inversion E; subst p m;
    simpl in Hdeps; inversion Hdeps; subst deps;
    simpl in Hin; try contradiction;
    destruct Hin as [<- | []];
    vm_compute in Hq; inversion Hq; subst q;
    (split; [simpl; tauto | vm_compute; lia]).
Qed.


(** ** The storage engines on their own *)

Lemma flip_le_transitive : Transitive (flip String.le).
Proof. intros x y z Hxy Hyz. unfold flip in *. etrans; eauto. Qed.

Lemma flip_le_total : Total (flip String.le).
Proof. intros x y. unfold flip. destruct (total String.le x y); auto. Qed.

Lemma sorted_reverse_strongly l : StronglySorted (flip String.le) (Py.sorted_reverse l).
Proof.
  apply StronglySorted_merge_sort;
    [apply flip_le_transitive | apply flip_le_total].
Qed.

Lemma sorted_reverse_permutation l : Permutation (Py.sorted_reverse l) l.
Proof. apply merge_sort_Permutation. Qed.

Lemma StronglySorted_strict {A} (R : relation A) (l : list A) :
  StronglySorted R l -> NoDup l ->
  StronglySorted (fun a b => R a b /\ a <> b) l.
Proof.
  induction 1 as [| x l Hs IH Hall]; intros Hnd; [constructor |].
  apply NoDup_cons in Hnd as [Hx Hnd]. constructor; [auto |].
  rewrite List.Forall_forall in *. intros y Hy. split; [auto |].
  intros ->. apply Hx, list_elem_of_In, Hy.
Qed.

Lemma table_listing (items : gset string) :
  let l := Py.sorted_reverse (elements items) in
  NoDup l /\ List.length l = size items /\ (forall id, id ∈ l <-> id ∈ items).
Proof.
  pose proof (sorted_reverse_permutation (elements items)) as Hp.
  simpl. split; [| split].
  - rewrite Hp. apply NoDup_elements.
  - rewrite Hp. reflexivity.
  - intros id. rewrite Hp. apply elem_of_elements.
Qed.

Lemma get_last_n_page_smallest (items : gset string) (n : Z) :
  (1 <= n)%Z ->
  Z.of_nat (List.length (DynamoDBStorageEngine.get_last_n items n))
  = Z.min n (Z.of_nat (size items))
  /\ StronglySorted (fun a b => String.le b a /\ a <> b)
       (DynamoDBStorageEngine.get_last_n items n)
  /\ (forall id, id ∈ DynamoDBStorageEngine.get_last_n items n -> id ∈ items)
  /\ (forall x y,
        x ∈ items -> x ∉ DynamoDBStorageEngine.get_last_n items n ->
        y ∈ DynamoDBStorageEngine.get_last_n items n ->
        String.le y x /\ y <> x).
Proof.
  intros Hn.
  destruct (table_listing items) as (Hnd & Hlen & Hin).
  pose proof (sorted_reverse_strongly (elements items)) as Hs.
  unfold DynamoDBStorageEngine.get_last_n, Py.slice_from.
  set (l := Py.sorted_reverse (elements items)) in *.
  assert (E : (- n <? 0)%Z = true) by (apply Z.ltb_lt; lia). rewrite E.
  set (k := Z.to_nat (Z.max (Z.of_nat (List.length l) + - n) 0)).
  split; [| split; [| split]].
  - rewrite length_drop. lia.
  - apply (StronglySorted_strict (flip String.le)).
    + eapply StronglySorted_sublist; [apply sublist_drop | exact Hs].
    + eapply sublist_NoDup; [exact Hnd | apply sublist_drop].
  - intros id Hid. apply Hin.
    eapply elem_of_sublist; [exact Hid | apply sublist_drop].
  - intros x y Hx Hnx Hy.
    assert (Hxl : x ∈ take k l).
    { apply Hin in Hx. rewrite <- (take_drop k l) in Hx.
      apply elem_of_app in Hx as [? | ?]; [assumption | contradiction]. }
    split.
    + rewrite <- (take_drop k l) in Hs.
      apply (StronglySorted_app_1_elem_of _ _ _ x y Hs Hxl Hy).
    + intros ->. contradiction.
Qed.

Lemma get_last_n_page_nonpositive (items : gset string) (n : Z) :
  (n <= 0)%Z ->
  Z.of_nat (List.length (DynamoDBStorageEngine.get_last_n items n))
  = Z.max (Z.of_nat (size items) + n) 0
  /\ (forall id, id ∈ DynamoDBStorageEngine.get_last_n items n -> id ∈ items)
  /\ (n = 0%Z ->
      forall id, id ∈ items -> id ∈ DynamoDBStorageEngine.get_last_n items n).
Proof.
  intros Hn.
  destruct (table_listing items) as (Hnd & Hlen & Hin).
  unfold DynamoDBStorageEngine.get_last_n, Py.slice_from.
  set (l := Py.sorted_reverse (elements items)) in *.
  assert (E : (- n <? 0)%Z = false) by (apply Z.ltb_ge; lia). rewrite E.
  split; [| split].
  - rewrite length_drop. lia.
  - intros id Hid. apply Hin.
    eapply elem_of_sublist; [exact Hid | apply sublist_drop].
  - intros -> id Hid.
    replace (Z.to_nat (Z.min (- 0) (Z.of_nat (List.length l)))) with 0%nat by lia.
    apply Hin, Hid.
Qed.

(** X1. On the DynamoDB engine and for [n >= 1], [get_last_n(n)] returns
    [min(n, size)] identifiers of the page that [table.scan()] returned, in
    strictly descending order, and they are the smallest of the page: every
    identifier of the page that is left out is greater than every
    identifier returned. What is in the table and not in the page is never
    returned. *)
Theorem get_last_n_smallest {World} (fs : FileSystem World) (st : State World)
    (items : gset string) (n : Z) :
  storage_engine st = DynamoDB items -> (1 <= n)%Z ->
  exists ids,
    get_last_n fs n st = Ok ids st
    /\ Z.of_nat (List.length ids) = Z.min n (Z.of_nat (size (scan_page fs items)))
    /\ StronglySorted (fun a b => String.le b a /\ a <> b) ids
    /\ (forall id, id ∈ ids -> id ∈ scan_page fs items)
    /\ (forall x y, x ∈ scan_page fs items -> x ∉ ids -> y ∈ ids ->
                    String.le y x /\ y <> x).
Proof.
  intros Heng Hn. exists (DynamoDBStorageEngine.get_last_n (scan_page fs items) n).
  split; [unfold get_last_n, bind, get; rewrite Heng; reflexivity |].
  apply get_last_n_page_smallest, Hn.
Qed.


(** X4. The dict of the in-memory engine: after [store] the identifier has
    run and the others are as before; storing twice is storing once;
    [delete] undoes a [store] of a new identifier; and a second [delete] of
    the same identifier raises. *)
Theorem memory_store_delete_round_trip (data : gmap string bool) (id other : string) :
  MemoryStorageEngine.has_run (MemoryStorageEngine.store data id) id = true
  /\ (other <> id ->
      MemoryStorageEngine.has_run (MemoryStorageEngine.store data id) other
      = MemoryStorageEngine.has_run data other)
  /\ MemoryStorageEngine.store (MemoryStorageEngine.store data id) id
     = MemoryStorageEngine.store data id
  /\ (MemoryStorageEngine.has_run data id = false ->
      MemoryStorageEngine.delete (MemoryStorageEngine.store data id) id = Some data)
  /\ (forall data', MemoryStorageEngine.delete data id = Some data' ->
      MemoryStorageEngine.delete data' id = None).
Proof.
  unfold MemoryStorageEngine.has_run, MemoryStorageEngine.store,
    MemoryStorageEngine.delete.
  split; [apply bool_decide_eq_true; rewrite lookup_insert_eq; eauto |].
  split; [intros Hne; rewrite lookup_insert_ne by congruence; reflexivity |].
  split; [apply insert_insert_eq |].
  split.
  - intros H. apply bool_decide_eq_false in H.
    rewrite lookup_insert_eq. f_equal.
    rewrite delete_insert_eq. apply delete_id.
    destruct (data !! id) eqn:E; [| reflexivity]. exfalso. apply H. eauto.
  - intros data' H. destruct (data !! id); [| discriminate].
    inversion H; subst. rewrite lookup_delete_eq. reflexivity.
Qed.

Lemma memory_store_delete_witness :
  MemoryStorageEngine.has_run ∅ "20240410094004_a" = false
  /\ MemoryStorageEngine.delete
       (MemoryStorageEngine.store ∅ "20240410094004_a") "20240410094004_a" = Some ∅.
Proof.
  split; [reflexivity |].
  apply (proj1 (proj2 (proj2 (proj2
           (memory_store_delete_round_trip ∅ "20240410094004_a" "20240410094004_a"))))).
  reflexivity.
Defined.

Lemma get_last_n_smallest_witness :
  let st := Migrator "/app" (DynamoDB flat3_all_applied) false true tt in
  (1 <= 2)%Z
  /\ get_last_n flat3_fs 2 st = Ok ["20240410094005_b"; "20240410094004_a"] st
  /\ get_last_n paged_fs 2 st = Ok ["20240410094006_c"; "20240410094005_b"] st
  /\ exists ids,
       get_last_n paged_fs 2 st = Ok ids st
       /\ forall id, id ∈ ids -> id ∈ scan_page paged_fs flat3_all_applied.
Proof.
  split; [lia |]. split; [vm_compute; reflexivity |].
  split; [vm_compute; reflexivity |].
  destruct (get_last_n_smallest paged_fs
              (Migrator "/app" (DynamoDB flat3_all_applied) false true tt)
              flat3_all_applied 2 eq_refl ltac:(lia))
    as (ids & Hrun & _ & _ & Hin & _).
  exists ids. split; [exact Hrun | exact Hin].
Defined.


(** ** More properties of the helpers *)

Section Coverage.

Context {World : Type}.
Variable fs : FileSystem World.

Local Open Scope mig_scope.
Local Arguments String.append : simpl nomatch.

Abbreviation St := (State World).

(** *** The file-name pattern *)

Lemma str_length_app a b :
  String.length (a ++ b) = (String.length a + String.length b)%nat.
Proof. induction a as [| c a IH]; simpl; congruence. Qed.

Lemma str_drop_app_length a b : Py.str_drop (String.length a) (a ++ b) = b.
Proof. induction a as [| c a IH]; simpl; [destruct b; reflexivity | exact IH]. Qed.

Lemma all_chars_app p a b :
  Py.all_chars p (a ++ b) = Py.all_chars p a && Py.all_chars p b.
Proof.
  induction a as [| c a IH]; simpl; [reflexivity |].
  rewrite IH. apply andb_assoc.
Qed.

Lemma endswith_app p a : Py.endswith p (a ++ p) = true.
Proof.
  induction a as [| c a IH].
  - simpl. destruct p; cbn [Py.endswith]; rewrite String.eqb_refl; reflexivity.
  - simpl. cbn [Py.endswith]. rewrite IH. apply orb_true_r.
Qed.

Lemma app_last_inj a : forall b c d,
  a ++ String c "" = b ++ String d "" -> a = b /\ c = d.
Proof.
  induction a as [| x a IH]; intros [| y b] c d H; simpl in H.
  - inversion H. auto.
  - inversion H as [[Hc Hb]]. destruct b; discriminate.
  - inversion H as [[Hc Ha]]. destruct a; discriminate.
  - inversion H as [[Hx Hab]]. destruct (IH _ _ _ Hab) as [-> ->]. auto.
Qed.

Lemma endswith_char_false a c d :
  c <> d -> Py.endswith (String d "") (a ++ String c "") = false.
Proof.
  intros Hne. destruct (Py.endswith (String d "") (a ++ String c "")) eqn:E;
    [| reflexivity].
  apply endswith_inv in E as [b Hb]. apply app_last_inj in Hb as [_ ?].
  contradiction.
Qed.

Lemma matches_any_dot_py_accepts body :
  no_newline body = true ->
  Py.matches_any_dot_py (body ++ ".py") = true
  /\ Py.matches_any_dot_py ((body ++ ".py") ++ nl) = true.
Proof.
  intros Hnl.
  assert (Hbody : Py.all_chars (fun c => negb (Ascii.eqb c Py.newline)) (body ++ ".py")
                  = true).
  { rewrite all_chars_app. unfold no_newline in Hnl. rewrite Hnl. reflexivity. }
  unfold Py.matches_any_dot_py. split.
  - assert (E : Py.endswith (String Py.newline "") (body ++ ".py") = false).
    { replace (body ++ ".py") with ((body ++ ".p") ++ "y")
        by (rewrite string_app_assoc; reflexivity).
      apply endswith_char_false. intros H; vm_compute in H; discriminate. }
    rewrite E, endswith_app, Hbody. reflexivity.
  - unfold nl. rewrite endswith_app.
    rewrite str_length_app. cbn [String.length].
    replace (String.length (body ++ ".py") + 1 - 1)%nat
      with (String.length (body ++ ".py")) by lia.
    rewrite str_take_app_length, endswith_app, Hbody. reflexivity.
Qed.

Lemma re_match_migration_stamp stamp rest :
  String.length stamp = 14%nat -> Py.all_chars Py.is_digit stamp = true ->
  Py.matches_any_dot_py rest = true ->
  Py.re_match_migration (stamp ++ String "_" rest) = true.
Proof.
  intros Hlen Hdig Hrest. unfold Py.re_match_migration. rewrite <- Hlen.
  rewrite str_take_app_length, str_drop_app_length, Hlen, Hdig, Hrest.
  reflexivity.
Qed.

(** The two shapes of an accepted name give [true]. *)
Lemma re_match_migration_accepts stamp body :
  String.length stamp = 14%nat -> Py.all_chars Py.is_digit stamp = true ->
  no_newline body = true ->
  Py.re_match_migration (stamp ++ "_" ++ body ++ ".py") = true
  /\ Py.re_match_migration (stamp ++ "_" ++ body ++ ".py" ++ nl) = true.
Proof.
  intros Hlen Hdig Hnl.
  destruct (matches_any_dot_py_accepts body Hnl) as [H1 H2].
  split.
  - change (stamp ++ "_" ++ body ++ ".py")
      with (stamp ++ String "_" (body ++ ".py")).
    apply re_match_migration_stamp; assumption.
  - change (stamp ++ "_" ++ body ++ ".py" ++ nl)
      with (stamp ++ String "_" (body ++ ".py" ++ nl)).
    apply re_match_migration_stamp; try assumption.
    rewrite <- string_app_assoc. exact H2.
Qed.

(** X5. [_is_migration_file] accepts exactly the names made of 14 decimal
    digits, an underscore, any text without a newline, and [.py], optionally
    followed by one final newline: nothing shorter than 18 characters, and
    nothing that only contains [.py] before another extension. *)
Theorem _is_migration_file_shape (f : string) :
  _is_migration_file f = true <->
  exists stamp body,
    String.length stamp = 14%nat
    /\ Py.all_chars Py.is_digit stamp = true
    /\ no_newline body = true
    /\ (f = stamp ++ "_" ++ body ++ ".py"
        \/ f = stamp ++ "_" ++ body ++ ".py" ++ nl).
Proof.
  unfold _is_migration_file. split.
  - intros H.
    destruct (re_match_migration_inv f H) as (stamp & rest & Hf & Hlen & Hdig & Htake).
    unfold Py.re_match_migration in H.
    apply andb_true_iff in H as [_ H].
    assert (Hdrop : Py.str_drop 14 f = String "_" rest).
    { rewrite Hf, <- Hlen. apply str_drop_app_length. }
    rewrite Hdrop in H. apply andb_true_iff in H as [_ H].
    unfold Py.matches_any_dot_py in H.
    destruct (Py.endswith (String Py.newline "") rest) eqn:Enl.
    + apply endswith_inv in Enl as [r Hr].
      rewrite Hr in H. rewrite str_length_app in H. cbn [String.length] in H.
      replace (String.length r + 1 - 1)%nat with (String.length r) in H by lia.
      rewrite str_take_app_length in H.
      apply andb_true_iff in H as [Hpy Hnl].
      apply endswith_inv in Hpy as [body Hbody]. subst r.
      rewrite all_chars_app in Hnl. apply andb_true_iff in Hnl as [Hnl _].
      exists stamp, body. repeat split; auto. right.
      rewrite Hf, Hr. unfold nl. rewrite !string_app_assoc. reflexivity.
    + apply andb_true_iff in H as [Hpy Hnl].
      apply endswith_inv in Hpy as [body Hbody]. subst rest.
      rewrite all_chars_app in Hnl. apply andb_true_iff in Hnl as [Hnl _].
      exists stamp, body. repeat split; auto.
  - intros (stamp & body & Hlen & Hdig & Hnl & [-> | ->]);
      apply re_match_migration_accepts; assumption.
Qed.

(** X6. For a directory entry accepted by [_is_migration_file], the
    timestamp the uniqueness check uses ([name.split('_')[0]]) is the 14
    leading digits of the entry, whatever the directory it was joined with,
    and the name it uses is the entry without its [.py]. *)
Theorem accepted_entry_timestamp d f :
  no_slash f = true -> _is_migration_file f = true ->
  migration_timestamp (Py.path_join d f) = Py.str_take 14 f
  /\ String.length (migration_timestamp (Py.path_join d f)) = 14%nat
  /\ Py.all_chars Py.is_digit (migration_timestamp (Py.path_join d f)) = true
  /\ migration_name (Py.path_join d f) = Py.replace ".py" "" f.
Proof.
  intros Hns Hre.
  rewrite (migration_timestamp_leading d f Hns Hre).
  destruct (re_match_migration_inv f Hre) as (stamp & rest & _ & Hlen & Hdig & ->).
  repeat split; auto.
  unfold migration_name. rewrite basename_path_join by assumption. reflexivity.
Qed.

(** *** Dependency references *)

Lemma join_with_cons c w ws :
  ws <> [] -> Py.join_with c (w :: ws) = w ++ String c (Py.join_with c ws).
Proof.
  intros Hne. unfold Py.join_with. destruct ws as [| w' ws]; [contradiction |].
  reflexivity.
Qed.

Lemma split_join c s : Py.join_with c (Py.split c s) = s.
Proof.
  induction s as [| a s IH]; [reflexivity |].
  cbn [Py.split]. pose proof (split_not_nil c s) as Hne.
  destruct (Ascii.eqb a c) eqn:E.
  - apply Ascii.eqb_eq in E. subst a.
    rewrite join_with_cons by assumption. rewrite IH. reflexivity.
  - destruct (Py.split c s) as [| w ws]; [contradiction |].
    destruct ws as [| w' ws].
    + unfold Py.join_with in *. simpl in *. congruence.
    + rewrite join_with_cons in * by discriminate.
      change (String a w ++ String c (Py.join_with c (w' :: ws)))
        with (String a (w ++ String c (Py.join_with c (w' :: ws)))).
      congruence.
Qed.

Lemma split_components c s :
  Forall (fun w => Py.all_chars (fun x => negb (Ascii.eqb x c)) w = true) (Py.split c s).
Proof.
  induction s as [| a s IH]; [repeat constructor |].
  cbn [Py.split]. destruct (Ascii.eqb a c) eqn:E.
  - constructor; [reflexivity | exact IH].
  - destruct (Py.split c s) as [| w ws]; [repeat constructor; simpl; rewrite E; reflexivity |].
    inversion IH; subst. constructor; [| assumption].
    simpl. rewrite E. assumption.
Qed.

Lemma no_slash_app a b : no_slash (a ++ b) = no_slash a && no_slash b.
Proof. apply all_chars_app. Qed.

Lemma path_join_relative d b :
  Py.startswith "/" b = false -> Py.path_join d b = join_prefix d ++ b.
Proof.
  intros H. unfold Py.path_join, join_prefix. rewrite H.
  destruct (String.eqb d "" || Py.endswith "/" d); [reflexivity |].
  rewrite string_app_assoc. reflexivity.
Qed.

Lemma startswith_slash_app m b :
  m <> "" -> Py.startswith "/" (m ++ b) = Py.startswith "/" m.
Proof.
  destruct m as [| c m]; [contradiction |]. intros _.
  unfold Py.startswith. simpl String.append. rewrite !prefix_cons.
  destruct (ascii_dec "/" c); [| reflexivity].
  destruct (m ++ b), m; reflexivity.
Qed.

Lemma endswith_slash_plain a m :
  m <> "" -> no_slash m = true -> Py.endswith "/" (a ++ m) = false.
Proof.
  intros Hne Hns.
  destruct (Py.endswith "/" (a ++ m)) eqn:E; [| reflexivity].
  apply endswith_inv in E as [b Hb]. exfalso.
  assert (Hlast : exists m' c, m = m' ++ String c "").
  { clear -Hne. induction m as [| x m IH]; [contradiction |].
    destruct m as [| y m].
    - exists "", x. reflexivity.
    - destruct IH as (m' & c & Hm); [discriminate |].
      exists (String x m'), c. simpl. rewrite <- Hm. reflexivity. }
  destruct Hlast as (m' & c & ->).
  rewrite <- string_app_assoc in Hb. apply app_last_inj in Hb as [_ ->].
  unfold no_slash in Hns. rewrite all_chars_app in Hns.
  apply andb_true_iff in Hns as [_ Hc]. vm_compute in Hc. discriminate.
Qed.

Lemma join_prefix_plain a m :
  m <> "" -> no_slash m = true -> join_prefix (a ++ m) = (a ++ m) ++ "/".
Proof.
  intros Hne Hns. unfold join_prefix.
  rewrite (endswith_slash_plain a m Hne Hns).
  destruct (String.eqb (a ++ m) "") eqn:E; [| reflexivity].
  apply String.eqb_eq in E. destruct a, m; try discriminate. contradiction.
Qed.

Lemma _resolve_dependency_path_relative d (st : St) :
  Py.startswith "/" d = false ->
  _resolve_dependency_path d st
  = Ok (Py.path_join (directory st) (d ++ ".py")) st.
Proof.
  intros Hrel. unfold _resolve_dependency_path, bind, get, ret.
  pose proof (split_join Py.sep d) as Hjoin.
  pose proof (split_components Py.sep d) as Hcomp.
  destruct (Py.split Py.sep d) as [| m [| g [| n [| ? ?]]]]; try reflexivity.
  destruct (String.eqb g "migrations") eqn:Eg; [| reflexivity].
  apply String.eqb_eq in Eg. subst g. f_equal.
  apply Forall_cons in Hcomp as [Hm Hrest].
  apply Forall_cons in Hrest as [_ Hrest].
  apply Forall_cons in Hrest as [Hn _].
  change (Py.join_with Py.sep [m; "migrations"; n])
    with (m ++ String "/" ("migrations" ++ String "/" n)) in Hjoin.
  assert (Hm_ne : m <> "").
  { intros ->. rewrite <- Hjoin in Hrel. vm_compute in Hrel. discriminate. }
  assert (Hm_rel : Py.startswith "/" m = false) by (apply no_slash_not_abs, Hm).
  rewrite (path_join_relative (directory st) m Hm_rel).
  rewrite (path_join_relative _ "migrations" eq_refl).
  rewrite (join_prefix_plain (join_prefix (directory st)) m Hm_ne Hm).
  assert (Hn_rel : Py.startswith "/" (n ++ ".py") = false).
  { apply no_slash_not_abs. fold (no_slash n) in Hn.
    rewrite no_slash_app, Hn. reflexivity. }
  rewrite (path_join_relative _ (n ++ ".py") Hn_rel).
  rewrite (join_prefix_plain _ "migrations" ltac:(discriminate) eq_refl).
  assert (Hd_rel : Py.startswith "/" (d ++ ".py") = false).
  { rewrite startswith_slash_app; [exact Hrel |].
    rewrite <- Hjoin. destruct m; [contradiction | discriminate]. }
  rewrite (path_join_relative _ (d ++ ".py") Hd_rel).
  rewrite <- Hjoin. rewrite !string_app_assoc. reflexivity.
Qed.

(** X7. A dependency reference that does not start with a slash resolves to
    [<directory>/<reference>.py], whether it has the module form
    [<module>/migrations/<name>] or not: the two branches of
    [_resolve_dependency_path] give the same path. *)
Theorem _resolve_dependency_path_uniform d (st : St) :
  Py.startswith "/" d = false ->
  _resolve_dependency_path d st
  = Ok (Py.path_join (directory st) (d ++ ".py")) st.
Proof. apply _resolve_dependency_path_relative. Qed.

(** *** The identity fields set by the loader *)

Lemma join_with_app c (l1 l2 : list string) :
  l1 <> [] -> l2 <> [] ->
  Py.join_with c (l1 ++ l2) = Py.join_with c l1 ++ String c (Py.join_with c l2).
Proof.
  intros H1 H2. induction l1 as [| w l1 IH]; [contradiction |].
  destruct l1 as [| w' l1].
  - simpl app. rewrite join_with_cons by assumption. reflexivity.
  - change ((w :: w' :: l1) ++ l2)%list with (w :: ((w' :: l1) ++ l2))%list.
    rewrite join_with_cons by discriminate.
    rewrite IH by discriminate.
    rewrite (join_with_cons c w (w' :: l1)) by discriminate.
    rewrite !string_app_assoc. reflexivity.
Qed.

Lemma plain_component_inv c :
  plain_component c = true ->
  c <> "" /\ no_slash c = true /\ c <> "." /\ c <> "..".
Proof.
  unfold plain_component. intros H.
  apply andb_true_iff in H as [H H4]. apply andb_true_iff in H as [H H3].
  apply andb_true_iff in H as [H1 H2].
  apply negb_true_iff in H1, H3, H4.
  apply String.eqb_neq in H1, H3, H4. auto.
Qed.

Lemma split_join_plain (cs : list string) :
  Forall (fun c => plain_component c = true) cs -> cs <> [] ->
  Py.split Py.sep (Py.join_with Py.sep cs) = cs.
Proof.
  induction 1 as [| w ws Hw Hall IH]; intros Hne; [contradiction |].
  apply plain_component_inv in Hw as (_ & Hns & _).
  destruct ws as [| w' ws].
  - unfold Py.join_with. simpl. apply split_no_sep, Hns.
  - rewrite join_with_cons by discriminate.
    rewrite split_app_sep, IH by discriminate.
    rewrite (split_no_sep Py.sep w Hns). reflexivity.
Qed.

Lemma norm_comps_plain i (cs : list string) : forall acc,
  Forall (fun c => plain_component c = true) cs ->
  Py.norm_comps i acc cs = (List.rev acc ++ cs)%list.
Proof.
  induction cs as [| c cs IH]; intros acc Hall.
  - simpl. symmetry. apply app_nil_r.
  - apply Forall_cons in Hall as [Hc Hall].
    apply plain_component_inv in Hc as (H1 & _ & H3 & H4).
    apply String.eqb_neq in H1, H3, H4.
    cbn [Py.norm_comps]. rewrite H1, H3, H4. cbn [orb negb].
    rewrite IH by assumption. simpl. rewrite <- app_assoc. reflexivity.
Qed.

Lemma join_with_relative (cs : list string) :
  Forall (fun c => plain_component c = true) cs -> cs <> [] ->
  Py.startswith "/" (Py.join_with Py.sep cs) = false
  /\ Py.join_with Py.sep cs <> "".
Proof.
  intros Hall Hne. destruct cs as [| w ws]; [contradiction |].
  apply Forall_cons in Hall as [Hw _].
  apply plain_component_inv in Hw as (H1 & Hns & _).
  destruct ws as [| w' ws].
  - unfold Py.join_with. simpl. split; [apply no_slash_not_abs, Hns | exact H1].
  - rewrite join_with_cons by discriminate. split.
    + rewrite startswith_slash_app by assumption. apply no_slash_not_abs, Hns.
    + destruct w; [contradiction | discriminate].
Qed.

Lemma join_with_last (cs : list string) :
  Forall (fun c => plain_component c = true) cs -> cs <> [] ->
  exists a m, Py.join_with Py.sep cs = a ++ m /\ m <> "" /\ no_slash m = true.
Proof.
  induction 1 as [| w ws Hw Hall IH]; intros Hne; [contradiction |].
  destruct ws as [| w' ws].
  - apply plain_component_inv in Hw as (H1 & Hns & _).
    exists "", w. auto.
  - destruct IH as (a & m & Hj & Hm); [discriminate |].
    exists (w ++ String Py.sep a), m.
    rewrite join_with_cons by discriminate. rewrite Hj.
    rewrite string_app_assoc. auto.
Qed.

Lemma lstrip_relative s : Py.startswith "/" s = false -> Py.lstrip Py.sep s = s.
Proof.
  destruct s as [| c s]; [reflexivity |].
  unfold Py.startswith. rewrite prefix_cons. cbn [Py.lstrip].
  destruct (ascii_dec "/" c) as [<- | Hne].
  - destruct s; discriminate.
  - intros _. destruct (Ascii.eqb c Py.sep) eqn:E; [| reflexivity].
    apply Ascii.eqb_eq in E. subst c. contradiction.
Qed.

Lemma rstrip_no_trailing s : Py.endswith "/" s = false -> Py.rstrip Py.sep s = s.
Proof.
  induction s as [| a s IH]; [reflexivity |].
  cbn [Py.endswith Py.rstrip]. intros H.
  apply orb_false_iff in H as [H1 H2].
  rewrite (IH H2). destruct s as [| b s]; [| reflexivity].
  destruct (Ascii.eqb a Py.sep) eqn:E; [| reflexivity].
  apply Ascii.eqb_eq in E. subst a. discriminate.
Qed.

Lemma normpath_plain (cs : list string) :
  Forall (fun c => plain_component c = true) cs -> cs <> [] ->
  Py.normpath ("/" ++ Py.join_with Py.sep cs) = "/" ++ Py.join_with Py.sep cs.
Proof.
  intros Hall Hne.
  destruct (join_with_relative cs Hall Hne) as [Hrel Hnonempty].
  assert (H1 : Py.startswith "/" (String "/" (Py.join_with Py.sep cs)) = true).
  { unfold Py.startswith. rewrite prefix_cons.
    destruct (ascii_dec "/" "/") as [_ | Hc]; [| contradiction].
    destruct (Py.join_with Py.sep cs); reflexivity. }
  assert (H2 : Py.startswith "//" (String "/" (Py.join_with Py.sep cs)) = false).
  { unfold Py.startswith. rewrite prefix_cons.
    destruct (ascii_dec "/" "/") as [_ | Hc]; [| contradiction]. exact Hrel. }
  unfold Py.normpath.
  change ("/" ++ Py.join_with Py.sep cs) with (String "/" (Py.join_with Py.sep cs)).
  cbn [String.eqb]. rewrite !H1, !H2. cbn [andb].
  cbn [Py.split]. change (Ascii.eqb "/" Py.sep) with true. cbn iota.
  rewrite (split_join_plain cs Hall Hne).
  cbn [Py.norm_comps String.eqb orb].
  rewrite (norm_comps_plain 1 cs [] Hall). simpl List.rev. simpl app.
  reflexivity.
Qed.

Lemma common_prefix_length_app (l r : list string) :
  Py.common_prefix_length l (l ++ r) = List.length l.
Proof.
  induction l as [| a l IH]; [destruct r; reflexivity |].
  simpl. rewrite String.eqb_refl, IH. reflexivity.
Qed.

Lemma relpath_plain cwd (comps rel_comps : list string) :
  Forall (fun c => plain_component c = true) comps -> comps <> [] ->
  Forall (fun c => plain_component c = true) rel_comps -> rel_comps <> [] ->
  Py.relpath cwd ("/" ++ Py.join_with Py.sep (comps ++ rel_comps))
    ("/" ++ Py.join_with Py.sep comps)
  = Py.join_with Py.sep rel_comps.
Proof.
  intros Hc Hcne Hr Hrne.
  assert (Hall : Forall (fun c => plain_component c = true) (comps ++ rel_comps))
    by (apply Forall_app; auto).
  assert (Hne : (comps ++ rel_comps)%list <> [])
    by (destruct comps; [contradiction | discriminate]).
  destruct (join_with_relative comps Hc Hcne) as [Hrel1 Hne1].
  destruct (join_with_relative _ Hall Hne) as [Hrel2 Hne2].
  unfold Py.relpath, Py.abspath, Py.isabs.
  replace (Py.startswith "/" ("/" ++ Py.join_with Py.sep comps)) with true
    by (unfold Py.startswith; destruct (Py.join_with Py.sep comps); reflexivity).
  replace (Py.startswith "/" ("/" ++ Py.join_with Py.sep (comps ++ rel_comps))) with true
    by (unfold Py.startswith;
        destruct (Py.join_with Py.sep (comps ++ rel_comps)); reflexivity).
  rewrite !normpath_plain by assumption.
  change ("/" ++ Py.join_with Py.sep comps)
    with (String "/" (Py.join_with Py.sep comps)).
  change ("/" ++ Py.join_with Py.sep (comps ++ rel_comps))
    with (String "/" (Py.join_with Py.sep (comps ++ rel_comps))).
  cbn [Py.lstrip]. change (Ascii.eqb "/" Py.sep) with true. cbn iota.
  rewrite !lstrip_relative by assumption.
  apply String.eqb_neq in Hne1, Hne2. rewrite Hne1, Hne2.
  rewrite !split_join_plain by assumption.
  rewrite common_prefix_length_app, Nat.sub_diag. simpl repeat.
  rewrite drop_app_length. simpl app.
  destruct rel_comps; [contradiction | reflexivity].
Qed.

Lemma prefix_app p s : String.prefix p (p ++ s) = true.
Proof.
  induction p as [| c p IH]; [destruct s; reflexivity |].
  simpl String.append. rewrite prefix_cons.
  destruct (ascii_dec c c); [exact IH | contradiction].
Qed.

Lemma replace_from_skip old new a s :
  Py.replace_from old new (String.length a) (a ++ s) = Py.replace_from old new 0 s.
Proof.
  induction a as [| c a IH]; [destruct s; reflexivity |].
  simpl. exact IH.
Qed.

Lemma replace_removes_prefix old s :
  old <> "" -> Py.replace old "" (old ++ s) = Py.replace old "" s.
Proof.
  destruct old as [| c old]; [contradiction |]. intros _.
  unfold Py.replace.
  change (String c old ++ s) with (String c (old ++ s)).
  cbn [Py.replace_from].
  change (String c (old ++ s)) with (String c old ++ s).
  rewrite prefix_app. cbn [String.length].
  replace (S (String.length old) - 1)%nat with (String.length old) by lia.
  rewrite replace_from_skip. reflexivity.
Qed.

Lemma replace_without_occurrence old new s :
  old <> "" -> occurs old s = false -> Py.replace old new s = s.
Proof.
  intros Hne. destruct old as [| c old]; [contradiction |].
  unfold Py.replace. induction s as [| a s IH]; [reflexivity |].
  cbn [occurs Py.replace_from]. intros H.
  apply orb_false_iff in H as [H1 H2].
  rewrite H1, (IH H2). reflexivity.
Qed.

(** X8. When the [Migrator]'s directory is an absolute, normalised path
    without a dot, and a file lies under it at a relative path made of
    plain components, [_load_script] gives the unit one identifier: its
    [filename] and its [dependency_path] are both the relative path without
    [.py] - provided that this text does not start or end with a slash and
    that the directory does not occur in it again. *)
Theorem _load_script_one_identifier (st : St) (comps rel_comps : list string) m :
  Forall (fun c => plain_component c = true) comps -> comps <> [] ->
  Forall (fun c => plain_component c = true) rel_comps -> rel_comps <> [] ->
  directory st = "/" ++ Py.join_with Py.sep comps ->
  no_dot (directory st) = true ->
  occurs (directory st)
    ("/" ++ Py.replace ".py" "" (Py.join_with Py.sep rel_comps)) = false ->
  Py.startswith "/" (Py.replace ".py" "" (Py.join_with Py.sep rel_comps)) = false ->
  Py.endswith "/" (Py.replace ".py" "" (Py.join_with Py.sep rel_comps)) = false ->
  path_exists fs (Py.path_join (directory st) (Py.join_with Py.sep rel_comps)) = true ->
  exec_module fs (Py.path_join (directory st) (Py.join_with Py.sep rel_comps)) = Some m ->
  exists s,
    _load_script fs (Py.path_join (directory st) (Py.join_with Py.sep rel_comps)) st
    = Ok s st
    /\ filename s = Py.replace ".py" "" (Py.join_with Py.sep rel_comps)
    /\ dependency_path s = Py.replace ".py" "" (Py.join_with Py.sep rel_comps)
    /\ script_module s = m.
Proof.
  intros Hc Hcne Hr Hrne Hdir Hdot Hocc Hstart Hend Hex Hmod.
  set (rel := Py.join_with Py.sep rel_comps) in *.
  set (key := Py.replace ".py" "" rel) in *.
  destruct (join_with_relative rel_comps Hr Hrne) as [Hrel _].
  fold rel in Hrel.
  assert (Hpath : Py.path_join (directory st) rel = (directory st ++ "/") ++ rel).
  { rewrite (path_join_relative _ _ Hrel). f_equal.
    destruct (join_with_last comps Hc Hcne) as (a & l & Hj & Hl & Hns).
    rewrite Hdir, Hj.
    replace ("/" ++ a ++ l) with (("/" ++ a) ++ l)
      by (rewrite string_app_assoc; reflexivity).
    apply join_prefix_plain; assumption. }
  assert (Hpath' : Py.path_join (directory st) rel
                   = "/" ++ Py.join_with Py.sep (comps ++ rel_comps)).
  { rewrite Hpath, Hdir, join_with_app by assumption.
    rewrite !string_app_assoc. reflexivity. }
  unfold _load_script, bind, get, ret. rewrite Hex, Hmod. cbn [negb].
  eexists. split; [reflexivity |]. cbn [filename dependency_path script_module].
  split; [| split; [| reflexivity]].
  - rewrite Hpath.
    assert (Hnd : Py.all_chars (fun c => negb (Ascii.eqb c ".")) (directory st ++ "/")
                  = true).
    { rewrite all_chars_app. unfold no_dot in Hdot. rewrite Hdot. reflexivity. }
    rewrite (replace_dot_py_prefix _ rel Hnd). fold key.
    rewrite string_app_assoc.
    assert (Hdne : directory st <> "") by (rewrite Hdir; discriminate).
    rewrite (replace_removes_prefix _ _ Hdne).
    rewrite (replace_without_occurrence _ _ _ Hdne Hocc).
    unfold Py.strip.
    change ("/" ++ key) with (String "/" key). cbn [Py.lstrip].
    change (Ascii.eqb "/" Py.sep) with true. cbn iota.
    rewrite (lstrip_relative key Hstart). apply rstrip_no_trailing, Hend.
  - rewrite Hpath' at 1. rewrite Hdir at 1.
    rewrite (relpath_plain _ comps rel_comps) by assumption. reflexivity.
Qed.

(** *** Discovery *)

(** X9. What [_find_all_migration_files] returns has passed the checks:
    the names are pairwise distinct, the leading 14 characters are pairwise
    distinct, every file's basename is accepted by [_is_migration_file], and
    nothing but the [Migrator]'s directory may have changed. *)
Theorem discovery_returns_unique_files (st st1 : St) files :
  listing_wf fs ->
  _find_all_migration_files fs st = Ok files st1 ->
  NoDup (List.map migration_name files)
  /\ NoDup (List.map leading_stamp files)
  /\ Forall (fun p => _is_migration_file (Py.basename p) = true) files
  /\ same_but_directory st st1.
Proof.
  intros Hwf Hfind.
  apply _find_all_migration_files_inv in Hfind as [Hscan Hchk].
  destruct (scan_migration_files_discovered fs st files st1 Hwf Hscan)
    as [Hdisc Hsame].
  apply check_unique_ok in Hchk as (Hn & Ht & _ & _).
  split; [exact Hn |]. split; [| split; [| exact Hsame]].
  - erewrite map_ext_in; [exact Ht |].
    intros p Hp. rewrite List.Forall_forall in Hdisc.
    unfold leading_stamp. symmetry. apply discovered_timestamp, Hdisc, Hp.
  - eapply Forall_impl; [exact Hdisc |].
    intros p (d & f & -> & Hns & Hre).
    rewrite basename_path_join by assumption. exact Hre.
Qed.

Lemma migration_files_in_any d (s1 s1' s2 : St) l :
  migration_files_in fs d s1 = Ok l s1' -> migration_files_in fs d s2 = Ok l s2.
Proof.
  intros H. apply migration_files_in_inv in H as (_ & names & Hl & ->).
  unfold migration_files_in, bind, os_listdir. rewrite Hl. reflexivity.
Qed.

Lemma check_unique_any names stamps files (s1 s1' s2 : St) u :
  check_unique names stamps files s1 = Ok u s1' ->
  check_unique names stamps files s2 = Ok tt s2.
Proof.
  revert names stamps. induction files as [| f files IH]; intros names stamps H.
  - reflexivity.
  - simpl in *.
    destruct (bool_decide (is_Some (names !! migration_name f))); [discriminate |].
    destruct (bool_decide (is_Some (stamps !! migration_timestamp f)));
      [discriminate |].
    eapply IH; eauto.
Qed.

(** X10. Discovery is stable: when [_find_all_migration_files] has returned
    a non-empty list, possibly after rebinding the directory to the
    [migrations] subfolder, calling it again on the same [Migrator] returns
    the same list and changes nothing. *)
Theorem discovery_is_stable (st st1 : St) files :
  _find_all_migration_files fs st = Ok files st1 ->
  files <> [] ->
  _find_all_migration_files fs st1 = Ok files st1.
Proof.
  intros Hfind Hne.
  apply _find_all_migration_files_inv in Hfind as [Hscan Hchk].
  assert (Hscan1 : scan_migration_files fs st1 = Ok files st1).
  { unfold scan_migration_files, bind, get in Hscan |- *.
    destruct (migration_files_in fs (directory st) st) as [l st0 | |] eqn:E;
      try discriminate.
    pose proof (migration_files_in_inv fs _ _ _ _ E) as (-> & _).
    destruct l as [| p l].
    - destruct (path_exists fs (Py.path_join (directory st) "migrations")) eqn:Ex.
      + unfold set_directory in Hscan. cbn [directory] in Hscan.
        match type of Hscan with
        | migration_files_in fs ?d ?s = _ =>
            pose proof (migration_files_in_inv fs d s _ _ Hscan) as (-> & _)
        end.
        cbn [directory].
        rewrite (migration_files_in_any _ _ _ _ _ Hscan).
        destruct files; [contradiction | reflexivity].
      + unfold _find_modules_with_migrations, bind, get in Hscan.
        destruct (os_listdir fs (directory st) st) as [items st2 | |] eqn:E';
          try discriminate.
        pose proof (os_listdir_inv fs _ _ _ _ E') as [-> _].
        unfold ret at 1 in Hscan.
        match type of Hscan with
        | collect_modules fs ?ms ?s = _ =>
            pose proof (collect_modules_reads_only fs ms s) as Hro
        end.
        rewrite Hscan in Hro. subst st1.
        rewrite E, Ex. unfold _find_modules_with_migrations, bind, get.
        rewrite E'. unfold ret at 1. exact Hscan.
    - inversion Hscan; subst. rewrite E. reflexivity. }
  unfold _find_all_migration_files, bind. rewrite Hscan1.
  rewrite (check_unique_any _ _ _ _ _ st1 _ Hchk). reflexivity.
Qed.

(** *** The name-to-file map of [rollback] *)

Lemma migrations_map_fold_other (files : list string) : forall (m : gmap string string) k,
  k ∉ List.map migration_name files ->
  List.fold_left (fun m f => <[ migration_name f := f ]> m) files m !! k = m !! k.
Proof.
  induction files as [| f files IH]; intros m k Hk; [reflexivity |].
  simpl. rewrite IH.
  - apply lookup_insert_ne. intros E. apply Hk. rewrite <- E. left.
  - intros Hin. apply Hk. right. exact Hin.
Qed.

Lemma migrations_map_fold_inv (files : list string) : forall (m : gmap string string) k p,
  List.fold_left (fun m f => <[ migration_name f := f ]> m) files m !! k = Some p ->
  (In p files /\ migration_name p = k) \/ m !! k = Some p.
Proof.
  induction files as [| f files IH]; intros m k p H; [right; exact H |].
  simpl in H. apply IH in H as [[Hin Hk] | H].
  - left. split; [right; exact Hin | exact Hk].
  - destruct (decide (migration_name f = k)) as [E | E].
    + rewrite E, lookup_insert_eq in H. inversion H; subst p.
      left. split; [left; reflexivity | exact E].
    + rewrite lookup_insert_ne in H by assumption. right. exact H.
Qed.

(** X11. The dict that [rollback] builds from the discovered files maps a
    name only to a discovered file of that name, and, the names being
    distinct, maps the name of every discovered file to that file; a name
    that no discovered file has is a missing key. *)
Theorem migrations_map_round_trip (files : list string) :
  NoDup (List.map migration_name files) ->
  (forall f, In f files -> migrations_map_of files !! migration_name f = Some f)
  /\ (forall k p, migrations_map_of files !! k = Some p ->
                  In p files /\ migration_name p = k)
  /\ (forall k, (forall f, In f files -> migration_name f <> k) ->
                migrations_map_of files !! k = None).
Proof.
  intros Hnd. unfold migrations_map_of. split; [| split].
  - assert (Hgen : forall (m : gmap string string) f, In f files ->
              List.fold_left (fun m f => <[ migration_name f := f ]> m) files m
              !! migration_name f = Some f); [| intros f; apply Hgen].
    induction files as [| g files IH]; intros m f Hin; [destruct Hin |].
    simpl in Hnd. apply NoDup_cons in Hnd as [Hg Hnd].
    simpl. destruct Hin as [-> | Hin].
    + rewrite migrations_map_fold_other by assumption. apply lookup_insert_eq.
    + apply IH; assumption.
  - intros k p H. apply migrations_map_fold_inv in H as [H | H]; [exact H |].
    rewrite lookup_empty in H. discriminate.
  - intros k Hk.
    destruct (List.fold_left (fun m f => <[ migration_name f := f ]> m) files ∅ !! k)
      as [p |] eqn:E; [| reflexivity].
    apply migrations_map_fold_inv in E as [[Hin Hp] | E].
    + exfalso. eapply Hk; eauto.
    + rewrite lookup_empty in E. discriminate.
Qed.

(** *** [up] and [down] *)

Lemma only_applied_refl (st : St) : only_applied st st.
Proof.
  split; [auto |]. exists []. split; [symmetry; apply app_nil_r | constructor].
Qed.

Lemma only_applied_trans (st1 st2 st3 : St) :
  only_applied st1 st2 -> only_applied st2 st3 -> only_applied st1 st3.
Proof.
  intros [Hm (evs & Ht & Hf)] [Hm' (evs' & Ht' & Hf')]. split; [auto |].
  exists (evs ++ evs')%list. split.
  - rewrite Ht', Ht. symmetry. apply app_assoc.
  - apply Forall_app; auto.
Qed.

Lemma run_up_only_applied (script : Script World) (st : St) :
  wp (run_up script) st
     (fun _ st' => only_applied st st') (fun _ st' => only_applied st st').
Proof.
  unfold wp, run_up, bind, get. simpl.
  destruct (dry_run st); simpl; [apply only_applied_refl |].
  unfold call_body, bind, get. simpl.
  destruct (mod_up (script_module script) (world st)) as [[] w]; simpl.
  - split.
    + intros id H. simpl.
      change (has_run_in (replay_store (storage_engine st)
                            (EvStore (dependency_path script))) id = true).
      apply replay_store_monotone, H.
    + exists [EvUp (script_file script); EvStore (dependency_path script)].
      split; [simpl; rewrite <- app_assoc; reflexivity |].
      repeat constructor; simpl; tauto.
  - split; [auto |]. exists [EvUp (script_file script)].
    split; [reflexivity |]. repeat constructor; simpl; tauto.
Qed.

Lemma up_only_applied fuel (script : Script World) (st : St) :
  wp (up fs fuel script) st
     (fun _ st' => only_applied st st') (fun _ st' => only_applied st st').
Proof.
  apply (up_wp fs (fun _ : St => True)
               (fun s s' : St => only_applied s s')
               (fun (s : St) _ (s' : St) => only_applied s s')); auto.
  - apply only_applied_refl.
  - apply only_applied_trans.
  - intros. eapply only_applied_trans; eauto.
  - intros. apply only_applied_refl.
  - intros s msg. split; [auto |]. exists [EvLogError msg].
    split; [reflexivity |]. repeat constructor; simpl; tauto.
  - intros sc s _. apply run_up_only_applied.
Qed.

Lemma down_only_reversed (script : Script World) (st : St) :
  ends_with (down script st) (only_reversed st).
Proof.
  assert (Hrefl : only_reversed st st).
  { split; [auto |]. exists []. split; [symmetry; apply app_nil_r | constructor]. }
  unfold down, bind, get. rewrite has_run_eq.
  destruct (has_run_in (storage_engine st) (filename script)); simpl;
    [| exact Hrefl].
  destruct (dry_run st); simpl; [exact Hrefl |].
  unfold call_body, bind, get. simpl.
  destruct (mod_down (script_module script) (world st)) as [[] w]; simpl.
  - unfold delete, bind, emit, get. simpl.
    assert (Hevs : Forall (fun e => ~ is_apply_event e)
                     [EvDown (script_file script); EvDelete (dependency_path script)])
      by (repeat constructor; simpl; tauto).
    destruct (storage_engine st) as [items | data] eqn:Eng; simpl.
    + split.
      * intros id H. simpl in *. rewrite Eng. simpl.
        apply bool_decide_eq_true in H.
        apply bool_decide_eq_true. unfold DynamoDBStorageEngine.delete in H.
        apply elem_of_difference in H as [H _]. exact H.
      * eexists. split; [rewrite <- app_assoc; reflexivity | exact Hevs].
    + unfold MemoryStorageEngine.delete.
      destruct (data !! dependency_path script) eqn:El; simpl.
      * split.
        -- intros id H. simpl in *. rewrite Eng. simpl.
           apply bool_decide_eq_true in H. apply bool_decide_eq_true.
           destruct (decide (dependency_path script = id)) as [<- | Hne].
           ++ rewrite lookup_delete_eq in H. destruct H; discriminate.
           ++ rewrite lookup_delete_ne in H by assumption. exact H.
        -- eexists. split; [rewrite <- app_assoc; reflexivity | exact Hevs].
      * split.
        -- intros id H. simpl in *. rewrite Eng in *. exact H.
        -- eexists. split; [rewrite <- app_assoc; reflexivity | exact Hevs].
  - split; [auto |]. exists [EvDown (script_file script)].
    split; [reflexivity |]. repeat constructor; simpl; tauto.
Qed.

(** X12. [up] only applies and [down] only reverses: however [up] ends, what
    had run before still has run and the trace gained no [down] call and no
    [delete]; however [down] ends, nothing has run that had not run before
    and the trace gained no [up] call and no [store]. *)
Theorem up_applies_down_reverses fuel (script : Script World) (st : St) :
  wp (up fs fuel script) st
     (fun _ st' => only_applied st st') (fun _ st' => only_applied st st')
  /\ ends_with (down script st) (only_reversed st).
Proof. split; [apply up_only_applied | apply down_only_reversed]. Qed.

Lemma up_same_migrator fuel (script : Script World) (st : St) :
  wp (up fs fuel script) st
     (fun _ st' => same_migrator st st') (fun _ st' => same_migrator st st').
Proof.
  apply (up_wp fs (fun _ : St => True)
               (fun s s' : St => same_migrator s s')
               (fun (s : St) _ (s' : St) => same_migrator s s')); auto.
  - apply same_migrator_refl.
  - apply same_migrator_trans.
  - intros. eapply same_migrator_trans; eauto.
  - intros. apply same_migrator_refl.
  - intros s msg. repeat split.
  - intros sc s _. unfold wp, run_up, bind, get. simpl.
    destruct (dry_run s) eqn:Ed; simpl; [apply same_migrator_refl |].
    unfold call_body, bind, get. simpl.
    destruct (mod_up (script_module sc) (world s)) as [[] w]; simpl.
    + unfold store, bind, emit, get, set_engine. simpl.
      destruct (storage_engine s); repeat split; simpl; auto.
    + repeat split; simpl; auto.
Qed.

(** With [migrate_dependencies] on, the loop over the dependencies is never
    left through the [return] of line 267. *)
Lemma up_dependencies_passes fuel (script : Script World) deps : forall (st : St),
  migrate_dependencies st = true ->
  wp (up_dependencies fs (up fs fuel) script deps) st
     (fun returned st' => returned = false /\ same_migrator st st')
     (fun _ _ => True).
Proof.
  induction deps as [| d deps IH]; intros st Hmig; simpl.
  - apply wp_ret. split; [reflexivity | apply same_migrator_refl].
  - apply wp_bind, _resolve_dependency_path_wp. intros p _.
    apply wp_bind, _load_script_wp; [| auto]. intros s _.
    apply wp_bind, has_run_wp.
    destruct (has_run_in (storage_engine st) (dependency_path s)); simpl.
    + apply IH, Hmig.
    + apply wp_bind, wp_get. rewrite Hmig. simpl.
      apply wp_bind, _load_script_wp; [| auto]. intros s' _.
      apply wp_bind.
      eapply wp_mono; [apply up_same_migrator | | auto].
      intros ? st1 H1. cbv beta in *.
      assert (Hmig1 : migrate_dependencies st1 = true)
        by (destruct H1 as (_ & _ & H1); congruence).
      eapply wp_mono; [apply IH, Hmig1 | | auto].
      cbv beta. intros returned st2 [Hr H2].
      split; [exact Hr | eapply same_migrator_trans; eauto].
Qed.

(** X13. [up] is idempotent for a unit that the loader gave one identifier
    ([filename] equal to [dependency_path]): after [up] has returned normally
    for it, with [migrate_dependencies] on and no dry run, [up] on the same
    unit returns at once and changes nothing. *)
Theorem up_twice_is_up_once fuel fuel' (script : Script World) (st st' : St) :
  filename script = dependency_path script ->
  migrate_dependencies st = true -> dry_run st = false ->
  up fs fuel script st = Ok tt st' ->
  up fs (S fuel') script st' = Ok tt st'.
Proof.
  intros Hkey Hmig Hdry Hup. apply up_returns_at_once.
  destruct fuel as [| fuel]; [discriminate |].
  simpl in Hup. unfold up_body, bind in Hup. rewrite has_run_eq in Hup.
  destruct (has_run_in (storage_engine st) (filename script)) eqn:Hrun.
  - inversion Hup; subst. exact Hrun.
  - assert (Hloop : wp (match mod_dependencies (script_module script) with
                        | Some dependencies =>
                            up_dependencies fs (up fs fuel) script dependencies
                        | None => ret false
                        end) st
                       (fun returned st1 => returned = false /\ same_migrator st st1)
                       (fun _ _ => True)).
    { destruct (mod_dependencies (script_module script)) as [deps |].
      - apply up_dependencies_passes, Hmig.
      - apply wp_ret. split; [reflexivity | apply same_migrator_refl]. }
    unfold wp in Hloop.
    destruct (match mod_dependencies (script_module script) with
              | Some dependencies =>
                  up_dependencies fs (up fs fuel) script dependencies
              | None => ret false
              end st) as [returned st1 | e st1 |]; try discriminate.
    destruct Hloop as [-> (_ & Hdry1 & _)].
    unfold run_up, bind, get in Hup. simpl in Hup.
    rewrite Hdry1, Hdry in Hup. simpl in Hup.
    unfold call_body, bind, get in Hup. simpl in Hup.
    destruct (mod_up (script_module script) (world st1)) as [[] w]; simpl in Hup;
      [| discriminate].
    unfold store, bind, emit, get, set_engine in Hup. simpl in Hup.
    inversion Hup; subst st'. simpl. rewrite Hkey.
    destruct (storage_engine st1) as [items | data]; simpl;
      apply bool_decide_eq_true.
    + unfold DynamoDBStorageEngine.store.
      apply elem_of_union. left. apply elem_of_singleton. reflexivity.
    + unfold MemoryStorageEngine.store. rewrite lookup_insert_eq. eauto.
Qed.

(** X14. [down] undoes [up]: for a unit without dependencies that has not
    run, whose two identifiers agree and whose bodies return, [up] stores
    it, [down] then deletes it, and the store is the one before the two
    calls. *)
Theorem up_then_down_restores fuel (script : Script World) (st : St) w1 w2 :
  has_run_in (storage_engine st) (filename script) = false ->
  filename script = dependency_path script ->
  (mod_dependencies (script_module script) = None
   \/ mod_dependencies (script_module script) = Some []) ->
  dry_run st = false ->
  mod_up (script_module script) (world st) = (true, w1) ->
  mod_down (script_module script) w1 = (true, w2) ->
  exists st1 st2,
    up fs (S fuel) script st = Ok tt st1
    /\ has_run_in (storage_engine st1) (filename script) = true
    /\ down script st1 = Ok tt st2
    /\ storage_engine st2 = storage_engine st
    /\ world st2 = w2
    /\ trace st2 = (trace st ++ [EvUp (script_file script);
                                 EvStore (dependency_path script);
                                 EvDown (script_file script);
                                 EvDelete (dependency_path script)])%list.
Proof.
  intros Hnot Hkey Hdeps Hdry Hup Hdown.
  assert (Hret : match mod_dependencies (script_module script) with
                 | Some dependencies => up_dependencies fs (up fs fuel) script dependencies
                 | None => ret false
                 end st = Ok false st).
  { destruct Hdeps as [-> | ->]; reflexivity. }
  assert (Hupeq : up fs (S fuel) script st
          = Ok tt (mkState (directory st)
                     (replay_store (storage_engine st) (EvStore (dependency_path script)))
                     false (migrate_dependencies st) w1
                     ((trace st ++ [EvUp (script_file script)])
                      ++ [EvStore (dependency_path script)])%list)).
  { simpl. unfold up_body, bind. rewrite has_run_eq, Hnot, Hret.
    unfold run_up, bind, get. simpl. rewrite Hdry. simpl.
    unfold call_body, bind, get. simpl. rewrite Hup. simpl.
    unfold store, bind, emit, get, set_engine. simpl. rewrite ?Hdry.
    reflexivity. }
  rewrite Hkey in *.
  assert (Hstored : has_run_in
            (replay_store (storage_engine st) (EvStore (dependency_path script)))
            (dependency_path script) = true).
  { destruct (storage_engine st); simpl; apply bool_decide_eq_true.
    - unfold DynamoDBStorageEngine.store. set_solver.
    - unfold MemoryStorageEngine.store. rewrite lookup_insert_eq. eauto. }
  destruct (storage_engine st) as [items | data] eqn:Eng;
    simpl in Hnot; apply bool_decide_eq_false in Hnot;
    eexists; eexists; (split; [exact Hupeq |]);
    (split; [exact Hstored |]);
    unfold down, bind, get; rewrite has_run_eq; cbn [filename storage_engine];
    rewrite Hkey, Hstored; simpl;
    unfold call_body, bind, get; simpl; rewrite Hdown; simpl;
    unfold delete, bind, emit, get, set_engine; simpl.
  - split; [reflexivity |]. simpl.
    split; [| split; [reflexivity |]].
    + f_equal. unfold DynamoDBStorageEngine.delete, DynamoDBStorageEngine.store.
      set_solver.
    + rewrite <- !app_assoc. reflexivity.
  - unfold MemoryStorageEngine.delete, MemoryStorageEngine.store.
    rewrite lookup_insert_eq.
    split; [reflexivity |]. simpl.
    split; [| split; [reflexivity |]].
    + f_equal. rewrite delete_insert_eq. apply delete_id.
      destruct (data !! dependency_path script) eqn:E; [| reflexivity].
      exfalso. apply Hnot. eauto.
    + rewrite <- !app_assoc. reflexivity.
Qed.

(** *** Whole runs: [migrate], [rollback], [status] *)

Lemma up_only_logged fuel (script : Script World) (st : St) :
  dry_run st = true ->
  wp (up fs fuel script) st
     (fun _ st' => only_logged st st') (fun _ st' => only_logged st st').
Proof.
  intros Hdry.
  apply (up_wp fs (fun s : St => dry_run s = true)
               (fun s s' : St => only_logged s s')
               (fun (s : St) _ (s' : St) => only_logged s s')); auto.
  - apply only_logged_refl.
  - apply only_logged_trans.
  - intros. eapply only_logged_trans; eauto.
  - intros s s' Hs (_ & _ & Hr & _). congruence.
  - intros. apply only_logged_refl.
  - intros. apply only_logged_emit.
  - intros sc s Hs. unfold wp. rewrite run_up_dry by assumption.
    apply only_logged_refl.
Qed.

Lemma down_only_logged (script : Script World) (st : St) :
  dry_run st = true -> ends_with (down script st) (only_logged st).
Proof.
  intros Hdry. unfold down, bind, get. rewrite has_run_eq.
  destruct (has_run_in (storage_engine st) (filename script)); simpl.
  - rewrite Hdry. simpl. apply only_logged_refl.
  - apply only_logged_refl.
Qed.

Lemma only_logged_dry (st st' : St) :
  only_logged st st' -> dry_run st = true -> dry_run st' = true.
Proof. intros (_ & _ & Hr & _) H. congruence. Qed.

Lemma migrate_loop_only_logged fuel files : forall (st : St),
  dry_run st = true ->
  wp (migrate_loop fs fuel files) st
     (fun _ st' => only_logged st st') (fun _ st' => only_logged st st').
Proof.
  induction files as [| p files IH]; intros st Hdry.
  - apply wp_ret, only_logged_refl.
  - cbn [migrate_loop]. apply wp_bind.
    unfold _migrate_up. apply wp_bind, wp_get.
    apply wp_bind, _load_script_wp; [| intros; apply only_logged_refl].
    intros s _.
    eapply wp_mono; [apply up_only_logged, Hdry | | auto].
    intros ? st1 H1. cbv beta in *.
    eapply wp_mono; [apply IH; eapply only_logged_dry; eauto | |];
      cbv beta; intros; eapply only_logged_trans; eauto.
Qed.

Lemma rollback_loop_only_logged migrations_map n files : forall count (st : St),
  dry_run st = true ->
  ends_with (rollback_loop fs migrations_map n count files st) (only_logged st).
Proof.
  induction files as [| file files IH]; intros count st Hdry.
  - apply only_logged_refl.
  - cbn [rollback_loop].
    destruct (migrations_map !! Py.replace ".py" "" (Py.basename file)) as [path |];
      [| apply only_logged_refl].
    unfold bind at 1.
    pose proof (_load_script_reads_only fs path st) as Hro.
    destruct (_load_script fs path st) as [s st1 | e st1 |];
      [| subst; apply only_logged_refl | contradiction]. subst st1.
    unfold bind at 1. pose proof (down_only_logged s st Hdry) as Hd.
    destruct (down s st) as [[] st1 | e st1 |]; [| exact Hd | contradiction].
    destruct (count + 1 =? n)%Z; [exact Hd |].
    specialize (IH (count + 1)%Z st1 (only_logged_dry _ _ Hd Hdry)).
    destruct (rollback_loop fs migrations_map n (count + 1) files st1)
      as [[] st2 | e st2 |]; [| | contradiction];
      eapply only_logged_trans; eauto.
Qed.

Lemma observed_after_discovery (st st1 st' : St) :
  same_but_directory st st1 -> only_logged st1 st' -> observed_only st st'.
Proof.
  intros (He & Hr & _ & Hw & Ht) (_ & He' & Hr' & _ & Hw' & evs & Ht' & Hl).
  repeat split; try congruence. exists evs. split; [congruence | exact Hl].
Qed.

Lemma dry_run_runs fuel n (st : St) :
  dry_run st = true ->
  wp (migrate fs fuel) st
     (fun _ st' => observed_only st st') (fun _ st' => observed_only st st')
  /\ ends_with (rollback fs n st) (observed_only st).
Proof.
  intros Hdry.
  pose proof (_find_all_migration_files_frame fs st) as Hframe.
  split.
  - unfold wp, migrate, bind.
    destruct (_find_all_migration_files fs st) as [files st1 | e st1 |];
      [| | contradiction].
    + assert (Hdry1 : dry_run st1 = true)
        by (destruct Hframe as (_ & Hr & _); congruence).
      pose proof (migrate_loop_only_logged fuel (Py.sorted files) st1 Hdry1) as Hl.
      unfold wp in Hl.
      destruct (migrate_loop fs fuel (Py.sorted files) st1); auto;
        eapply observed_after_discovery; eauto.
    + eapply observed_after_discovery; [exact Hframe | apply only_logged_refl].
  - unfold rollback, bind.
    destruct (_find_all_migration_files fs st) as [files st1 | e st1 |];
      [| | contradiction].
    + assert (Hdry1 : dry_run st1 = true)
        by (destruct Hframe as (_ & Hr & _); congruence).
      unfold get_last_n, bind, get.
      destruct (storage_engine st1) as [items | data]; simpl.
      * pose proof (rollback_loop_only_logged (migrations_map_of files) n
                      (DynamoDBStorageEngine.get_last_n (scan_page fs items) n)
                      0%Z st1 Hdry1) as Hl.
        destruct (rollback_loop fs (migrations_map_of files) n 0
                    (DynamoDBStorageEngine.get_last_n (scan_page fs items) n) st1);
          [| | contradiction]; eapply observed_after_discovery; eauto.
      * eapply observed_after_discovery; [exact Hframe | apply only_logged_refl].
    + eapply observed_after_discovery; [exact Hframe | apply only_logged_refl].
Qed.

Lemma log_events_touch_nothing evs :
  Forall is_log_event evs ->
  Forall (fun e => ~ is_apply_event e /\ ~ is_reverse_event e) evs.
Proof.
  intros H. eapply Forall_impl; [exact H |].
  intros [] He; simpl in *; tauto.
Qed.

Lemma observed_store_untouched (st st' : St) :
  observed_only st st' -> store_untouched st st'.
Proof.
  intros (He & _ & _ & evs & Ht & Hl). split; [exact He |].
  exists evs. split; [exact Ht | apply log_events_touch_nothing, Hl].
Qed.

Lemma only_logged_store_untouched (st st' : St) :
  only_logged st st' -> store_untouched st st'.
Proof.
  intros (_ & He & _ & _ & _ & evs & Ht & Hl). split; [exact He |].
  exists evs. split; [exact Ht | apply log_events_touch_nothing, Hl].
Qed.

(** X15. Dry run at the level of whole runs: with [dry_run] set, [migrate]
    (when it ends within the fuel) and [rollback] (which always ends),
    whatever they discover and whether they return or raise, leave the
    store as it was, call no [up] or [down] body and issue no [store] and
    no [delete]. *)
Theorem dry_run_migrate_rollback fuel n (st : St) :
  dry_run st = true ->
  wp (migrate fs fuel) st
     (fun _ st' => store_untouched st st') (fun _ st' => store_untouched st st')
  /\ ends_with (rollback fs n st) (store_untouched st).
Proof.
  intros Hdry. destruct (dry_run_runs fuel n st Hdry) as [Hmig Hroll]. split.
  - eapply wp_mono; [exact Hmig | |]; cbv beta;
      intros; apply observed_store_untouched; assumption.
  - destruct (rollback fs n st); [| | contradiction];
      apply observed_store_untouched, Hroll.
Qed.

Lemma rollback_memory_raises (st : St) data n :
  storage_engine st = Memory data ->
  match rollback fs n st with
  | Ok _ _ => False
  | Raise e st' =>
      same_but_directory st st'
      /\ forall files st1,
           _find_all_migration_files fs st = Ok files st1 ->
           e = AttributeError "get_last_n" /\ st' = st1
  | Diverge => False
  end.
Proof.
  intros Heng. unfold rollback, bind.
  pose proof (_find_all_migration_files_frame fs st) as Hframe.
  destruct (_find_all_migration_files fs st) as [files st1 | e st1 |];
    [| | contradiction].
  - unfold get_last_n, bind, get.
    assert (He : storage_engine st1 = Memory data)
      by (destruct Hframe as (He & _); congruence).
    rewrite He. simpl. split; [exact Hframe |].
    intros files' st1' H. inversion H; subst. auto.
  - split; [exact Hframe |]. intros files st1' H. discriminate.
Qed.

(** X16. [rollback] cannot work on the in-memory engine, which has no
    [get_last_n]: whatever [n], it never returns; it raises in a state where
    the store, the world and the trace are untouched, and when discovery
    itself succeeds the exception is the [AttributeError]. *)
Theorem rollback_needs_get_last_n (st : St) data n :
  storage_engine st = Memory data ->
  match rollback fs n st with
  | Ok _ _ => False
  | Raise e st' =>
      same_but_directory st st'
      /\ forall files st1,
           _find_all_migration_files fs st = Ok files st1 ->
           e = AttributeError "get_last_n" /\ st' = st1
  | Diverge => False
  end.
Proof. apply rollback_memory_raises. Qed.

(** X17. A missing key in [rollback]: when the first identifier that
    [get_last_n] returns has a name that no discovered file has, [rollback]
    raises the [KeyError] for that name before any [down] body is called,
    in the state discovery left. *)
Theorem rollback_unknown_identifier (st st1 : St) items files n id others :
  storage_engine st = DynamoDB items ->
  _find_all_migration_files fs st = Ok files st1 ->
  DynamoDBStorageEngine.get_last_n (scan_page fs items) n = id :: others ->
  (forall f, In f files -> migration_name f <> migration_name id) ->
  rollback fs n st = Raise (KeyError (migration_name id)) st1
  /\ trace st1 = trace st
  /\ storage_engine st1 = storage_engine st.
Proof.
  intros Heng Hfind Hlast Hnone.
  pose proof (_find_all_migration_files_frame fs st) as Hframe.
  rewrite Hfind in Hframe. destruct Hframe as (He & _ & _ & _ & Ht).
  split; [| auto].
  unfold rollback, bind. rewrite Hfind.
  unfold get_last_n, bind, get. rewrite He, Heng. simpl. rewrite Hlast.
  cbn [rollback_loop]. fold (migration_name id).
  assert (Hmiss : migrations_map_of files !! migration_name id = None).
  { unfold migrations_map_of.
    destruct (List.fold_left (fun m f => <[ migration_name f := f ]> m) files ∅
              !! migration_name id) as [p |] eqn:E; [| reflexivity].
    apply migrations_map_fold_inv in E as [[Hin Hp] | E].
    - exfalso. eapply Hnone; eauto.
    - rewrite lookup_empty in E. discriminate. }
  rewrite Hmiss. reflexivity.
Qed.

Lemma status_loop_only_logged files : forall (st : St),
  ends_with (status_loop fs files st) (only_logged st).
Proof.
  induction files as [| file files IH]; intros st; [apply only_logged_refl |].
  cbn [status_loop]. unfold bind at 1.
  assert (Hstep : ends_with
            ((if Py.endswith ".py" file
              then st0 <- get ;;
                   script <- _load_script fs (Py.path_join (directory st0) file) ;;
                   applied <- has_run (filename script) ;;
                   emit (EvPrint (filename script ++
                                  (if applied then " has been run"
                                   else " has not been run")))
              else ret tt) st) (only_logged st)).
  { destruct (Py.endswith ".py" file); [| apply only_logged_refl].
    unfold bind, get.
    pose proof (_load_script_reads_only fs (Py.path_join (directory st) file) st) as Hro.
    destruct (_load_script fs (Py.path_join (directory st) file) st)
      as [s st1 | e st1 |]; [| subst; apply only_logged_refl | contradiction].
    subst st1. rewrite has_run_eq. unfold emit.
    repeat split. eexists. split; [reflexivity |]. repeat constructor. }
  match goal with
  | H : ends_with (?m st) _ |- ends_with (match ?m' st with _ => _ end) _ =>
      change m' with m; destruct (m st) as [[] st1 | e st1 |];
      [| exact H | contradiction]
  end.
  specialize (IH st1).
  destruct (status_loop fs files st1) as [[] st2 | e st2 |]; [| | contradiction];
    eapply only_logged_trans; eauto.
Qed.

Lemma status_only_reads_state (st : St) :
  ends_with (status fs st) (only_logged st).
Proof.
  unfold status, bind, get.
  pose proof (os_listdir_reads_only fs (directory st) st) as Hro.
  destruct (os_listdir fs (directory st) st) as [files st1 | e st1 |];
    [| subst; apply only_logged_refl | contradiction].
  subst st1. apply status_loop_only_logged.
Qed.

(** X18. [status] changes nothing of the store: it always ends, returning
    or raising, with the store as it was, having called no [up] or [down]
    body and issued no [store] and no [delete]. *)
Theorem status_only_reads (st : St) :
  ends_with (status fs st) (store_untouched st).
Proof.
  pose proof (status_only_reads_state st) as H.
  destruct (status fs st); [| | contradiction];
    apply only_logged_store_untouched, H.
Qed.

(** *** [status], line by line *)

Lemma status_loop_lines (st : St) : forall files scripts (st1 : St),
  directory st1 = directory st -> storage_engine st1 = storage_engine st ->
  Forall2 (fun f s => _load_script fs (Py.path_join (directory st) f) st = Ok s st)
          (List.filter (Py.endswith ".py") files) scripts ->
  exists st',
    status_loop fs files st1 = Ok tt st'
    /\ directory st' = directory st
    /\ storage_engine st' = storage_engine st
    /\ trace st'
       = (trace st1
          ++ List.map (fun s => EvPrint (status_line (storage_engine st) s))
                      scripts)%list.
Proof.
  induction files as [| f files IH]; intros scripts st1 Hd He Hall.
  - simpl in Hall. inversion Hall; subst. exists st1.
    repeat split; auto. simpl. symmetry. apply app_nil_r.
  - cbn [status_loop List.filter] in *.
    destruct (Py.endswith ".py" f).
    + inversion Hall as [| f' s fs' scripts' Hload Hrest]; subst.
      unfold bind at 1. unfold bind at 1. unfold get at 1. rewrite Hd.
      unfold bind at 1.
      rewrite (_load_script_directory fs _ st st1 s (eq_sym Hd) Hload).
      unfold bind at 1. rewrite has_run_eq. unfold emit.
      match goal with
      | |- context [status_loop fs files ?st2] =>
          destruct (IH scripts' st2) as (st' & Hrun & Hd' & He' & Ht');
            [exact Hd | exact He | exact Hrest |]
      end.
      exists st'. rewrite Hrun. repeat split; auto.
      rewrite Ht'. cbn [trace List.map]. rewrite He.
      rewrite <- app_assoc. reflexivity.
    + unfold bind at 1, ret at 1. apply IH; assumption.
Qed.

(** X19. [status] reports every entry of the directory whose name ends in
    [.py], in sorted order, one line each, saying whether the unit's
    [filename] is in the store: when each of these entries loads, [status]
    returns, and the lines it printed itself are exactly these, in this
    order. *)
Theorem status_reports_every_py_entry (st : St) files scripts :
  listdir fs (directory st) = Some files ->
  Forall2 (fun f s => _load_script fs (Py.path_join (directory st) f) st = Ok s st)
          (List.filter (Py.endswith ".py") (Py.sorted files)) scripts ->
  exists st',
    status fs st = Ok tt st'
    /\ storage_engine st' = storage_engine st
    /\ trace st'
       = (trace st
          ++ List.map (fun s => EvPrint (status_line (storage_engine st) s))
                      scripts)%list.
Proof.
  intros Hls Hall. unfold status, bind, get, os_listdir. rewrite Hls. unfold ret.
  destruct (status_loop_lines st (Py.sorted files) scripts st eq_refl eq_refl Hall)
    as (st' & Hrun & _ & He & Ht).
  exists st'. auto.
Qed.

(** *** [make_empty] *)

Lemma replace_py_stem stem :
  no_dot stem = true -> Py.replace ".py" "" (stem ++ ".py") = stem.
Proof.
  unfold Py.replace. induction stem as [| c stem IH]; intros Hnd.
  - reflexivity.
  - unfold no_dot in Hnd. cbn [Py.all_chars] in Hnd.
    apply andb_true_iff in Hnd as [Hc Hnd]. apply negb_true_iff in Hc.
    change (String c stem ++ ".py") with (String c (stem ++ ".py")).
    cbn [Py.replace_from]. rewrite prefix_cons.
    destruct (ascii_dec "." c) as [<- | _]; [discriminate |].
    f_equal. apply IH, Hnd.
Qed.

Lemma sorted_reverse_head l f rest :
  Py.sorted_reverse l = f :: rest ->
  In f l /\ forall g, In g l -> String.le g f.
Proof.
  intros Hs. pose proof (sorted_reverse_strongly l) as Hsorted.
  pose proof (sorted_reverse_permutation l) as Hperm.
  rewrite Hs in Hsorted, Hperm.
  split.
  - eapply Permutation_in; [exact Hperm | left; reflexivity].
  - intros g Hg. apply Permutation_sym in Hperm.
    apply (Permutation_in _ Hperm) in Hg as [<- | Hg]; [reflexivity |].
    apply StronglySorted_inv in Hsorted as [_ Hall].
    rewrite List.Forall_forall in Hall. apply Hall, Hg.
Qed.

(** X20. [make_empty] names the new file by the clock and, in a directory
    that is not empty, makes it depend on the greatest entry of the
    directory (by string order, whatever that entry is) with [.py] removed;
    it changes nothing in the migrator. When that entry is [stem.py] with
    no dot and no leading slash in [stem], the dependency written resolves
    to that very file. *)
Theorem make_empty_depends_on_greatest_entry now (st : St) files :
  listdir fs (directory st) = Some files -> files <> [] ->
  exists f,
    In f files
    /\ (forall g, In g files -> String.le g f)
    /\ make_empty fs now st
       = Ok (Py.path_join (directory st) (now ++ "_migration.py"),
             make_empty_text ("'" ++ Py.replace ".py" "" f ++ "'")) st
    /\ forall stem,
         f = stem ++ ".py" -> no_dot stem = true ->
         Py.startswith "/" stem = false ->
         _resolve_dependency_path (Py.replace ".py" "" f) st
         = Ok (Py.path_join (directory st) f) st.
Proof.
  intros Hls Hne.
  destruct (Py.sorted_reverse files) as [| f rest] eqn:Hs.
  - pose proof (sorted_reverse_permutation files) as Hp. rewrite Hs in Hp.
    apply Permutation_nil in Hp. contradiction.
  - exists f. destruct (sorted_reverse_head files f rest Hs) as [Hin Hmax].
    split; [exact Hin |]. split; [exact Hmax |]. split.
    + unfold make_empty, bind, get, os_listdir. rewrite Hls. unfold ret.
      rewrite Hs. reflexivity.
    + intros stem -> Hnd Hrel. rewrite (replace_py_stem stem Hnd).
      apply _resolve_dependency_path_relative, Hrel.
Qed.

(** X21. The file [make_empty] creates is one that discovery accepts,
    whatever the directory holds: for a clock reading of 14 digits its name
    passes [_is_migration_file], the timestamp the uniqueness check computes
    for it is the clock reading and its name as a unit is
    [<clock>_migration]. In an empty directory the dependency list it
    writes is empty. *)
Theorem make_empty_creates_migration_file now (st : St) files :
  String.length now = 14%nat -> Py.all_chars Py.is_digit now = true ->
  listdir fs (directory st) = Some files ->
  exists text,
    make_empty fs now st
    = Ok (Py.path_join (directory st) (now ++ "_migration.py"), text) st
    /\ _is_migration_file (now ++ "_migration.py") = true
    /\ migration_timestamp (Py.path_join (directory st) (now ++ "_migration.py"))
       = now
    /\ migration_name (Py.path_join (directory st) (now ++ "_migration.py"))
       = now ++ "_migration"
    /\ (files = [] -> text = make_empty_text "").
Proof.
  intros Hlen Hdig Hls.
  assert (Hdot : no_dot (now ++ "_migration") = true).
  { unfold no_dot. rewrite all_chars_app. apply andb_true_iff. split; [| reflexivity].
    eapply all_chars_impl; [| exact Hdig].
    intros c Hc. apply is_digit_inv in Hc as (Hc & _).
    apply negb_true_iff, Ascii.eqb_neq, Hc. }
  assert (Hns : no_slash (now ++ "_migration.py") = true).
  { rewrite no_slash_app. apply andb_true_iff. split; [| reflexivity].
    eapply all_chars_impl; [| exact Hdig].
    intros c Hc. apply is_digit_inv in Hc as (_ & _ & Hc).
    apply negb_true_iff, Ascii.eqb_neq, Hc. }
  assert (Hacc : _is_migration_file (now ++ "_migration.py") = true).
  { apply (re_match_migration_accepts now "migration" Hlen Hdig eq_refl). }
  eexists. split; [| split; [exact Hacc | split; [| split]]].
  - unfold make_empty, bind, get, os_listdir. rewrite Hls. reflexivity.
  - rewrite (migration_timestamp_leading _ _ Hns Hacc).
    rewrite <- Hlen. apply str_take_app_length.
  - unfold migration_name. rewrite (basename_path_join _ _ Hns).
    change (now ++ "_migration.py") with (now ++ "_migration" ++ ".py").
    rewrite <- string_app_assoc. apply replace_py_stem, Hdot.
  - intros ->. reflexivity.
Qed.

(** *** [main] *)

Lemma main_engine fuel args table w r :
  main fs fuel args table w = Returned r ->
  (arg_engine args = "dynamodb" \/ arg_engine args = "memory")
  /\ let engine := if String.eqb (arg_engine args) "dynamodb"
                   then DynamoDB table else Memory ∅ in
     r = match arg_command args with
         | CmdUp =>
             match arg_file args with
             | Some file =>
                 if String.eqb file ""
                 then migrate fs fuel
                        (Migrator (arg_directory args) engine (arg_dry_run args)
                           (arg_migrate_dependencies args) w)
                 else (set_directory (Py.dirname file) ;;;
                       raise (AttributeError "migrate_script"))
                        (Migrator (arg_directory args) engine (arg_dry_run args)
                           (arg_migrate_dependencies args) w)
             | None =>
                 migrate fs fuel
                   (Migrator (arg_directory args) engine (arg_dry_run args)
                      (arg_migrate_dependencies args) w)
             end
         | CmdRollback | CmdDown =>
             rollback fs (arg_n args)
               (Migrator (arg_directory args) engine (arg_dry_run args)
                  (arg_migrate_dependencies args) w)
         | CmdStatus =>
             status fs
               (Migrator (arg_directory args) engine (arg_dry_run args)
                  (arg_migrate_dependencies args) w)
         | CmdMake =>
             emit EvMakeEmpty
               (Migrator (arg_directory args) engine (arg_dry_run args)
                  (arg_migrate_dependencies args) w)
         end.
Proof.
  unfold main. intros H.
  destruct (String.eqb (arg_engine args) "dynamodb") eqn:Ed.
  - apply String.eqb_eq in Ed. split; [left; exact Ed |].
    destruct (match arg_command args with CmdRollback => true | _ => false end
              && (arg_n args <? 1)%Z); [discriminate |].
    inversion H. reflexivity.
  - destruct (String.eqb (arg_engine args) "memory") eqn:Em; [| discriminate].
    apply String.eqb_eq in Em. split; [right; exact Em |].
    destruct (match arg_command args with CmdRollback => true | _ => false end
              && (arg_n args <? 1)%Z); [discriminate |].
    inversion H. reflexivity.
Qed.

(** X22. [--dry-run] on the command line: for every command but [make],
    whatever [main] runs returns or raises with the table as it was (the
    in-memory store still empty) and without the [Migrator] having called a
    body, stored or deleted anything; [up --file f] with a non-empty [f]
    raises the [AttributeError] for [migrate_script] before anything is
    traced. ([make] does not look at the flag.) *)
Theorem main_dry_run fuel args table w r :
  arg_dry_run args = true -> arg_command args <> CmdMake ->
  main fs fuel args table w = Returned r ->
  match r with
  | Ok _ st' | Raise _ st' =>
      storage_engine st'
      = (if String.eqb (arg_engine args) "dynamodb" then DynamoDB table else Memory ∅)
      /\ Forall (fun e => ~ is_apply_event e /\ ~ is_reverse_event e) (trace st')
  | Diverge => arg_command args = CmdUp
  end
  /\ (forall file,
        arg_command args = CmdUp -> arg_file args = Some file -> file <> "" ->
        exists st', r = Raise (AttributeError "migrate_script") st'
                    /\ trace st' = []).
Proof.
  intros Hdry Hcmd Hmain.
  apply main_engine in Hmain as [_ Hr]. cbv zeta in Hr.
  set (engine := if String.eqb (arg_engine args) "dynamodb"
                 then DynamoDB table else Memory ∅) in *.
  set (st := Migrator (arg_directory args) engine (arg_dry_run args)
               (arg_migrate_dependencies args) w) in *.
  assert (Hst : dry_run st = true) by exact Hdry.
  assert (Hobs : forall st', store_untouched st st' ->
            storage_engine st' = engine
            /\ Forall (fun e => ~ is_apply_event e /\ ~ is_reverse_event e)
                 (trace st')).
  { intros st' (He & evs & Ht & Hl). split; [exact He |].
    rewrite Ht. exact Hl. }
  destruct (dry_run_runs fuel (arg_n args) st Hst) as [Hmig Hroll].
  assert (Hmigrate : match migrate fs fuel st with
                     | Ok _ st' | Raise _ st' =>
                         storage_engine st' = engine
                         /\ Forall (fun e => ~ is_apply_event e /\ ~ is_reverse_event e)
                              (trace st')
                     | Diverge => True
                     end).
  { unfold wp in Hmig.
    destruct (migrate fs fuel st); auto;
      apply Hobs, observed_store_untouched, Hmig. }
  split.
  - destruct (arg_command args) eqn:Ec; try contradiction.
    + destruct (arg_file args) as [file |] eqn:Ef.
      * destruct (String.eqb file "").
        -- subst r. destruct (migrate fs fuel st); auto.
        -- subst r. simpl. split; [reflexivity | constructor].
      * subst r. destruct (migrate fs fuel st); auto.
    + subst r. destruct (rollback fs (arg_n args) st); [| | contradiction];
        apply Hobs, observed_store_untouched, Hroll.
    + subst r. destruct (rollback fs (arg_n args) st); [| | contradiction];
        apply Hobs, observed_store_untouched, Hroll.
    + subst r. pose proof (status_only_reads_state st) as Hs.
      destruct (status fs st); [| | contradiction];
        apply Hobs, only_logged_store_untouched, Hs.
  - intros file Ec Ef Hne. rewrite Ec, Ef in Hr.
    apply String.eqb_neq in Hne. rewrite Hne in Hr. subst r.
    eexists. split; reflexivity.
Qed.

(** X23. The commands [down] and [rollback] with [--engine memory] never
    succeed: [main] either exits on the count check or [rollback] raises,
    with nothing reversed and nothing traced; when discovery itself
    succeeds, what is raised is the [AttributeError] for [get_last_n]. *)
Theorem main_rollback_memory fuel args table w :
  arg_engine args = "memory" ->
  arg_command args = CmdDown \/ arg_command args = CmdRollback ->
  match main fs fuel args table w with
  | SysExit code printed =>
      code = 1%Z /\ arg_command args = CmdRollback /\ (arg_n args < 1)%Z
  | Returned (Raise e st') =>
      storage_engine st' = Memory ∅ /\ world st' = w /\ trace st' = []
      /\ forall files st1,
           _find_all_migration_files fs
             (Migrator (arg_directory args) (Memory ∅) (arg_dry_run args)
                (arg_migrate_dependencies args) w) = Ok files st1 ->
           e = AttributeError "get_last_n"
  | Returned _ => False
  end.
Proof.
  intros Heng Hcmd. unfold main. rewrite Heng.
  change (String.eqb "memory" "dynamodb") with false.
  change (String.eqb "memory" "memory") with true. cbv iota.
  set (st := Migrator (arg_directory args) (Memory ∅) (arg_dry_run args)
               (arg_migrate_dependencies args) w).
  pose proof (rollback_memory_raises st ∅ (arg_n args) eq_refl) as Hr.
  destruct Hcmd as [Hc | Hc]; rewrite Hc.
  - simpl andb. cbv iota.
    destruct (rollback fs (arg_n args) st) as [? ? | e st' |]; try contradiction.
    destruct Hr as [(He & _ & _ & Hw & Ht) Hexn].
    repeat split; auto. intros files st1 H. apply (Hexn files st1 H).
  - simpl andb. destruct (arg_n args <? 1)%Z eqn:En.
    + apply Z.ltb_lt in En. auto.
    + destruct (rollback fs (arg_n args) st) as [? ? | e st' |]; try contradiction.
      destruct Hr as [(He & _ & _ & Hw & Ht) Hexn].
      repeat split; auto. intros files st1 H. apply (Hexn files st1 H).
Qed.

(** *** [migrate] and the paths it loads *)

Lemma startswith_slash_inv a :
  Py.startswith "/" a = true -> exists a', a = String "/" a'.
Proof.
  destruct a as [| c a]; [discriminate |].
  unfold Py.startswith. rewrite prefix_cons.
  destruct (ascii_dec "/" c) as [<- | _]; [| discriminate].
  intros _. eexists. reflexivity.
Qed.

Lemma path_join_abs a b :
  Py.startswith "/" a = true -> Py.startswith "/" (Py.path_join a b) = true.
Proof.
  intros Ha. unfold Py.path_join.
  destruct (Py.startswith "/" b) eqn:Eb; [exact Eb |].
  apply startswith_slash_inv in Ha as [a' ->].
  destruct (String.eqb (String "/" a') "" || Py.endswith "/" (String "/" a'));
    simpl String.append; unfold Py.startswith; rewrite prefix_cons;
    destruct (ascii_dec "/" "/"); try contradiction;
    match goal with |- String.prefix "" ?s = true => destruct s; reflexivity end.
Qed.

Lemma path_join_abs_r a b :
  Py.startswith "/" b = true -> Py.path_join a b = b.
Proof. intros Hb. unfold Py.path_join. rewrite Hb. reflexivity. Qed.

Lemma migration_files_in_abs d (st : St) l st' :
  Py.startswith "/" d = true -> migration_files_in fs d st = Ok l st' ->
  Forall (fun p => Py.startswith "/" p = true) l.
Proof.
  intros Hd H. apply migration_files_in_inv in H as (_ & names & _ & ->).
  apply List.Forall_forall. intros p Hp.
  apply in_map_iff in Hp as (f & <- & _). apply path_join_abs, Hd.
Qed.

Lemma collect_modules_abs modules : forall (st : St) l st',
  Forall (fun m => Py.startswith "/" m = true) modules ->
  collect_modules fs modules st = Ok l st' ->
  Forall (fun p => Py.startswith "/" p = true) l.
Proof.
  induction modules as [| m modules IH]; intros st l st' Hall H; simpl in H.
  - inversion H; subst. constructor.
  - apply Forall_cons in Hall as [Hm Hall]. unfold bind in H.
    destruct (migration_files_in fs (Py.path_join m "migrations") st)
      as [found st1 | |] eqn:E1; try discriminate.
    pose proof (migration_files_in_inv fs _ _ _ _ E1) as (-> & _).
    apply migration_files_in_abs in E1; [| apply path_join_abs, Hm].
    destruct (collect_modules fs modules st) as [more st2 | |] eqn:E2;
      try discriminate.
    apply IH in E2; [| exact Hall].
    inversion H; subst. apply Forall_app; auto.
Qed.

Lemma scan_migration_files_abs (st : St) files st1 :
  Py.startswith "/" (directory st) = true ->
  scan_migration_files fs st = Ok files st1 ->
  Forall (fun p => Py.startswith "/" p = true) files.
Proof.
  intros Hd. unfold scan_migration_files, bind, get.
  destruct (migration_files_in fs (directory st) st) as [l st0 | |] eqn:E;
    try discriminate.
  pose proof (migration_files_in_inv fs _ _ _ _ E) as (-> & _).
  apply migration_files_in_abs in E; [| exact Hd].
  destruct l as [| p l].
  - destruct (path_exists fs (Py.path_join (directory st) "migrations")).
    + unfold set_directory. cbn [directory].
      match goal with
      | |- migration_files_in fs ?d ?s = _ -> _ =>
          intros H; apply (migration_files_in_abs d s files st1);
            [apply path_join_abs, Hd | exact H]
      end.
    + unfold _find_modules_with_migrations, bind, get.
      destruct (os_listdir fs (directory st) st) as [items st2 | |] eqn:E';
        try discriminate.
      unfold ret at 1. intros H.
      eapply collect_modules_abs; [| exact H].
      apply List.Forall_forall. intros m Hm.
      apply filter_In in Hm as [Hm _].
      apply in_map_iff in Hm as (item & <- & _). apply path_join_abs, Hd.
  - intros H; inversion H; subst. exact E.
Qed.

(** X26. [migrate] joins the directory to the discovered paths once more
    (line 107). With an absolute directory this changes nothing: every
    discovered path is absolute and is loaded as it is. In general the
    first path in sorted order is looked up at the directory joined with
    it - for a relative directory, under the directory again - and when
    nothing is there [migrate] raises the [FileNotFoundError] for that
    path before any unit is loaded. *)
Theorem migrate_joins_directory_again fuel (st st1 : St) files :
  _find_all_migration_files fs st = Ok files st1 ->
  (Py.startswith "/" (directory st) = true ->
   forall p, In p files ->
     Py.startswith "/" p = true
     /\ _migrate_up fs fuel p st1
        = (script <- _load_script fs p ;; up fs fuel script) st1)
  /\ (forall p rest,
        Py.sorted files = p :: rest ->
        path_exists fs (Py.path_join (directory st1) p) = false ->
        migrate fs fuel st
        = Raise (FileNotFoundError (Py.path_join (directory st1) p)) st1).
Proof.
  intros Hfind. split.
  - intros Habs p Hin.
    apply _find_all_migration_files_inv in Hfind as [Hscan _].
    pose proof (scan_migration_files_abs st files st1 Habs Hscan) as Hall.
    rewrite List.Forall_forall in Hall. specialize (Hall p Hin).
    split; [exact Hall |].
    unfold _migrate_up, bind, get. rewrite (path_join_abs_r _ p Hall).
    reflexivity.
  - intros p rest Hsorted Hmissing.
    unfold migrate, bind. rewrite Hfind. rewrite Hsorted.
    cbn [migrate_loop]. unfold bind, _migrate_up, bind, get, _load_script, bind, get.
    rewrite Hmissing. reflexivity.
Qed.

Lemma migrate_loop_skips fuel (st : St) : forall files,
  (forall p, In p files ->
     Py.startswith "/" p = true
     /\ exists s, _load_script fs p st = Ok s st
                  /\ has_run_in (storage_engine st) (filename s) = true) ->
  migrate_loop fs (S fuel) files st = Ok tt st.
Proof.
  induction files as [| p files IH]; intros Hall; [reflexivity |].
  destruct (Hall p (or_introl eq_refl)) as (Habs & s & Hload & Hrun).
  cbn [migrate_loop]. unfold bind at 1. unfold _migrate_up, bind, get.
  rewrite (path_join_abs_r _ p Habs), Hload.
  rewrite (up_returns_at_once fs fuel s st Hrun).
  apply IH. intros q Hq. apply Hall. right. exact Hq.
Qed.

(** X27. [migrate] has nothing to do when every discovered file loads to a
    unit whose [filename] is in the store: with an absolute directory it
    returns, with the store as it was, having called no body and issued no
    [store] and no [delete]. *)
Theorem migrate_skips_applied_units fuel (st st1 : St) files :
  Py.startswith "/" (directory st) = true ->
  _find_all_migration_files fs st = Ok files st1 ->
  (forall p, In p files ->
     exists s, _load_script fs p st1 = Ok s st1
               /\ has_run_in (storage_engine st) (filename s) = true) ->
  exists st',
    migrate fs (S fuel) st = Ok tt st'
    /\ store_untouched st st'.
Proof.
  intros Habs Hfind Hall.
  pose proof (_find_all_migration_files_frame fs st) as Hframe.
  rewrite Hfind in Hframe. destruct Hframe as (He & _ & _ & _ & Ht).
  exists st1. split.
  - unfold migrate, bind. rewrite Hfind.
    apply migrate_loop_skips. intros p Hp.
    assert (Hin : In p files).
    { eapply Permutation_in; [apply sorted_permutation | exact Hp]. }
    apply _find_all_migration_files_inv in Hfind as [Hscan _].
    pose proof (scan_migration_files_abs st files st1 Habs Hscan) as Hfiles.
    rewrite List.Forall_forall in Hfiles. split; [apply Hfiles, Hin |].
    destruct (Hall p Hin) as (s & Hload & Hrun).
    exists s. split; [exact Hload |]. rewrite He. exact Hrun.
  - split; [exact He |]. exists [].
    split; [rewrite Ht; symmetry; apply app_nil_r | constructor].
Qed.

End Coverage.

(** ** The properties above at concrete inputs *)

Lemma accepted_entry_timestamp_witness :
  no_slash "20240410094004_a.py" = true
  /\ _is_migration_file "20240410094004_a.py" = true
  /\ migration_timestamp (Py.path_join "/app" "20240410094004_a.py") = "20240410094004"
  /\ migration_name (Py.path_join "/app" "20240410094004_a.py") = "20240410094004_a".
Proof.
  split; [reflexivity |]. split; [reflexivity |].
  destruct (accepted_entry_timestamp "/app" "20240410094004_a.py" eq_refl eq_refl)
    as (H1 & _ & _ & H4).
  split; [exact H1 | exact H4].
Defined.

Lemma _resolve_dependency_path_uniform_witness :
  let st := Migrator "/root" (Memory ∅) false true tt in
  Py.startswith "/" "a/migrations/20240101000002_x" = false
  /\ _resolve_dependency_path "a/migrations/20240101000002_x" st
     = Ok "/root/a/migrations/20240101000002_x.py" st.
Proof.
  split; [reflexivity |].
  apply (_resolve_dependency_path_uniform "a/migrations/20240101000002_x"
           (Migrator "/root" (Memory ∅) false true tt)).
  reflexivity.
Defined.

Lemma _load_script_one_identifier_witness :
  let st := Migrator "/root" (Memory ∅) false true tt in
  exists s,
    _load_script modules_fs "/root/a/migrations/20240101000002_x.py" st = Ok s st
    /\ filename s = "a/migrations/20240101000002_x"
    /\ dependency_path s = "a/migrations/20240101000002_x"
    /\ script_module s = unit_with [].
Proof.
  apply (_load_script_one_identifier modules_fs
           (Migrator "/root" (Memory ∅) false true tt)
           ["root"] ["a"; "migrations"; "20240101000002_x.py"] (unit_with [])).
  - repeat constructor.
  - discriminate.
  - repeat constructor.
  - discriminate.
  - reflexivity.
  - reflexivity.
  - reflexivity.
  - reflexivity.
  - reflexivity.
  - reflexivity.
  - reflexivity.
Defined.

Lemma discovery_returns_unique_files_witness :
  let st := Migrator "/root" (Memory ∅) false true tt in
  listing_wf modules_fs
  /\ _find_all_migration_files modules_fs st = Ok modules_files st
  /\ NoDup (List.map migration_name modules_files)
  /\ NoDup (List.map leading_stamp modules_files).
Proof.
  split; [apply modules_fs_listing_wf |].
  split; [vm_compute; reflexivity |].
  destruct (discovery_returns_unique_files modules_fs
              (Migrator "/root" (Memory ∅) false true tt)
              (Migrator "/root" (Memory ∅) false true tt)
              modules_files modules_fs_listing_wf)
    as (H1 & H2 & _); [vm_compute; reflexivity |].
  split; [exact H1 | exact H2].
Defined.

Lemma discovery_is_stable_witness :
  let st := Migrator "/root" (Memory ∅) false true tt in
  _find_all_migration_files modules_fs st = Ok modules_files st
  /\ modules_files <> []
  /\ _find_all_migration_files modules_fs st = Ok modules_files st.
Proof.
  split; [vm_compute; reflexivity |].
  split; [discriminate |].
  apply (discovery_is_stable modules_fs
           (Migrator "/root" (Memory ∅) false true tt)
           (Migrator "/root" (Memory ∅) false true tt) modules_files).
  - vm_compute; reflexivity.
  - discriminate.
Defined.

Lemma flat3_names_distinct : NoDup (List.map migration_name flat3_files).
Proof.
  apply (bool_decide_unpack (NoDup (List.map migration_name flat3_files))).
  vm_compute. reflexivity.
Qed.

Lemma migrations_map_round_trip_witness :
  NoDup (List.map migration_name flat3_files)
  /\ migrations_map_of flat3_files !! "20240410094005_b"
     = Some "/app/20240410094005_b.py"
  /\ migrations_map_of flat3_files !! "20230101000000_gone" = None.
Proof.
  split; [apply flat3_names_distinct |].
  destruct (migrations_map_round_trip flat3_files flat3_names_distinct)
    as (Hin & _ & Hout).
  split.
  - apply (Hin "/app/20240410094005_b.py"). right. left. reflexivity.
  - apply Hout. intros f [<- | [<- | [<- | []]]]; vm_compute; discriminate.
Defined.

Lemma up_twice_is_up_once_witness :
  let st := Migrator "/app" (Memory ∅) false true tt in
  filename flat3_c = dependency_path flat3_c
  /\ exists st',
       up flat3_fs 3 flat3_c st = Ok tt st'
       /\ up_paths (trace st') = flat3_files
       /\ up flat3_fs 1 flat3_c st' = Ok tt st'.
Proof.
  split; [reflexivity |].
  eexists. split; [vm_compute; reflexivity |].
  split; [vm_compute; reflexivity |].
  apply (up_twice_is_up_once flat3_fs 3 0 flat3_c
           (Migrator "/app" (Memory ∅) false true tt)).
  - reflexivity.
  - reflexivity.
  - reflexivity.
  - vm_compute; reflexivity.
Defined.

Lemma up_then_down_restores_witness :
  let st := Migrator "/app" (DynamoDB ∅) false true tt in
  has_run_in (storage_engine st) (filename unit_a) = false
  /\ exists st1 st2,
       up blocked_fs 1 unit_a st = Ok tt st1
       /\ has_run_in (storage_engine st1) (filename unit_a) = true
       /\ down unit_a st1 = Ok tt st2
       /\ storage_engine st2 = DynamoDB ∅.
Proof.
  split; [reflexivity |].
  destruct (up_then_down_restores blocked_fs 0 unit_a
              (Migrator "/app" (DynamoDB ∅) false true tt) tt tt)
    as (st1 & st2 & H1 & H2 & H3 & H4 & _);
    [reflexivity | reflexivity | right; reflexivity | reflexivity
     | reflexivity | reflexivity |].
  exists st1, st2. auto.
Defined.

Lemma dry_run_migrate_rollback_witness :
  let st := Migrator "/app" (DynamoDB flat3_all_applied) true true tt in
  dry_run st = true
  /\ wp (migrate flat3_fs 3) st
        (fun _ st' => store_untouched st st') (fun _ st' => store_untouched st st')
  /\ ends_with (rollback flat3_fs 2 st) (store_untouched st).
Proof.
  split; [reflexivity |].
  apply (dry_run_migrate_rollback flat3_fs 3 2
           (Migrator "/app" (DynamoDB flat3_all_applied) true true tt)).
  reflexivity.
Defined.

Lemma rollback_needs_get_last_n_witness :
  let st := Migrator "/app" (Memory ∅) false true tt in
  storage_engine st = Memory ∅
  /\ _find_all_migration_files flat3_fs st = Ok flat3_files st
  /\ rollback flat3_fs 1 st = Raise (AttributeError "get_last_n") st.
Proof.
  split; [reflexivity |]. split; [vm_compute; reflexivity |].
  pose proof (rollback_needs_get_last_n flat3_fs
                (Migrator "/app" (Memory ∅) false true tt) ∅ 1 eq_refl) as H.
  destruct (rollback flat3_fs 1 (Migrator "/app" (Memory ∅) false true tt))
    as [? ? | e st' |]; [destruct H | | destruct H].
  destruct H as [_ H].
  destruct (H flat3_files (Migrator "/app" (Memory ∅) false true tt))
    as [-> ->]; [vm_compute; reflexivity | reflexivity].
Defined.

Lemma rollback_unknown_identifier_witness :
  let st := Migrator "/app" (DynamoDB {["20230101000000_gone"]}) false true tt in
  _find_all_migration_files flat3_fs st = Ok flat3_files st
  /\ DynamoDBStorageEngine.get_last_n {["20230101000000_gone"]} 1
     = ["20230101000000_gone"]
  /\ rollback flat3_fs 1 st = Raise (KeyError "20230101000000_gone") st.
Proof.
  split; [vm_compute; reflexivity |]. split; [vm_compute; reflexivity |].
  apply (rollback_unknown_identifier flat3_fs
           (Migrator "/app" (DynamoDB {["20230101000000_gone"]}) false true tt)
           (Migrator "/app" (DynamoDB {["20230101000000_gone"]}) false true tt)
           {["20230101000000_gone"]} flat3_files 1 "20230101000000_gone" []).
  - reflexivity.
  - vm_compute; reflexivity.
  - vm_compute; reflexivity.
  - intros f [<- | [<- | [<- | []]]]; vm_compute; discriminate.
Defined.

Lemma status_reports_every_py_entry_witness :
  let st := Migrator "/app" (DynamoDB {["20240410094004_a"]}) false true tt in
  exists st',
    status blocked_fs st = Ok tt st'
    /\ storage_engine st' = storage_engine st
    /\ trace st' = [EvPrint "20240410094004_a has been run";
                    EvPrint "20240410094006_b has not been run"].
Proof.
  destruct (status_reports_every_py_entry blocked_fs
              (Migrator "/app" (DynamoDB {["20240410094004_a"]}) false true tt)
              ["20240410094004_a.py"; "20240410094006_b.py"] [unit_a; unit_b])
    as (st' & Hs & He & Ht); [reflexivity | repeat constructor |].
  exists st'. split; [exact Hs |]. split; [exact He |].
  rewrite Ht. vm_compute. reflexivity.
Defined.

Lemma make_empty_depends_on_greatest_entry_witness :
  let st := Migrator "/app" (Memory ∅) false true tt in
  listdir flat3_fs (directory st)
  = Some ["20240410094004_a.py"; "20240410094005_b.py"; "20240410094006_c.py"]
  /\ exists f,
       (forall g, In g ["20240410094004_a.py"; "20240410094005_b.py";
                        "20240410094006_c.py"] -> String.le g f)
       /\ make_empty flat3_fs "20240501120000" st
          = Ok ("/app/20240501120000_migration.py",
                make_empty_text ("'" ++ Py.replace ".py" "" f ++ "'")) st.
Proof.
  split; [reflexivity |].
  destruct (make_empty_depends_on_greatest_entry flat3_fs "20240501120000"
              (Migrator "/app" (Memory ∅) false true tt)
              ["20240410094004_a.py"; "20240410094005_b.py"; "20240410094006_c.py"]
              eq_refl ltac:(discriminate))
    as (f & _ & Hmax & Hmake & _).
  exists f. split; [exact Hmax | exact Hmake].
Defined.

Lemma make_empty_creates_migration_file_witness :
  let st := Migrator "/app" (Memory ∅) false true tt in
  listdir flat3_fs (directory st)
  = Some ["20240410094004_a.py"; "20240410094005_b.py"; "20240410094006_c.py"]
  /\ exists text,
       make_empty flat3_fs "20240501120000" st
       = Ok ("/app/20240501120000_migration.py", text) st
       /\ _is_migration_file "20240501120000_migration.py" = true
       /\ migration_timestamp "/app/20240501120000_migration.py" = "20240501120000".
Proof.
  split; [reflexivity |].
  destruct (make_empty_creates_migration_file flat3_fs "20240501120000"
              (Migrator "/app" (Memory ∅) false true tt)
              ["20240410094004_a.py"; "20240410094005_b.py"; "20240410094006_c.py"]
              eq_refl eq_refl eq_refl)
    as (text & Hmake & Hacc & Hts & _).
  exists text. split; [exact Hmake |]. split; [exact Hacc | exact Hts].
Defined.

Lemma main_dry_run_witness :
  arg_dry_run dry_run_down = true
  /\ match main flat3_fs 1 dry_run_down flat3_all_applied tt with
     | Returned (Ok _ st') =>
         storage_engine st' = DynamoDB flat3_all_applied
         /\ Forall (fun e => ~ is_apply_event e /\ ~ is_reverse_event e) (trace st')
     | _ => False
     end.
Proof.
  split; [reflexivity |].
  pose proof (fun r => main_dry_run flat3_fs 1 dry_run_down flat3_all_applied tt r
                         eq_refl ltac:(discriminate)) as H.
  destruct (main flat3_fs 1 dry_run_down flat3_all_applied tt) as [c p | r] eqn:E.
  - vm_compute in E. discriminate.
  - specialize (H r eq_refl). destruct H as [H _].
    destruct r as [[] st' | e st' |].
    + exact H.
    + vm_compute in E. discriminate.
    + vm_compute in E. discriminate.
Defined.

Lemma main_rollback_memory_witness :
  arg_engine memory_rollback = "memory"
  /\ match main flat3_fs 1 memory_rollback ∅ tt with
     | Returned (Raise e st') =>
         storage_engine st' = Memory ∅ /\ trace st' = []
     | _ => False
     end.
Proof.
  split; [reflexivity |].
  pose proof (main_rollback_memory flat3_fs 1 memory_rollback ∅ tt eq_refl
                (or_intror eq_refl)) as H.
  destruct (main flat3_fs 1 memory_rollback ∅ tt) as [code printed | [? ? | e st' |]].
  - destruct H as (_ & _ & H). vm_compute in H. discriminate.
  - exact H.
  - destruct H as (He & _ & Ht & _). split; [exact He | exact Ht].
  - exact H.
Defined.

Lemma rollback_reverses_at_most_n_witness :
  let st := Migrator "/app" (DynamoDB flat3_all_applied) false false tt in
  (1 <= 2)%Z
  /\ down_paths (result_trace (rollback flat3_fs 2 st))
     = ["/app/20240410094005_b.py"; "/app/20240410094004_a.py"]
  /\ ends_with (rollback flat3_fs 2 st)
       (fun st' => exists evs, trace st' = (trace st ++ evs)%list
                               /\ (Z.of_nat (List.length (down_paths evs)) <= 2)%Z).
Proof.
  split; [lia |]. split; [vm_compute; reflexivity |].
  apply (rollback_reverses_at_most_n flat3_fs 2
           (Migrator "/app" (DynamoDB flat3_all_applied) false false tt)).
  lia.
Defined.

Lemma migrate_joins_directory_again_witness :
  let st := Migrator "app" (Memory ∅) false true tt in
  _find_all_migration_files relative_fs st = Ok ["app/20240410094004_a.py"] st
  /\ path_exists relative_fs "app/20240410094004_a.py" = true
  /\ migrate relative_fs 1 st
     = Raise (FileNotFoundError "app/app/20240410094004_a.py") st.
Proof.
  split; [vm_compute; reflexivity |]. split; [reflexivity |].
  apply (proj2 (migrate_joins_directory_again relative_fs 1
                  (Migrator "app" (Memory ∅) false true tt)
                  (Migrator "app" (Memory ∅) false true tt)
                  ["app/20240410094004_a.py"] ltac:(vm_compute; reflexivity))
           "app/20240410094004_a.py" []).
  - reflexivity.
  - reflexivity.
Defined.

Lemma migrate_skips_applied_units_witness :
  let st := Migrator "/app" (DynamoDB flat3_all_applied) false true tt in
  Py.startswith "/" (directory st) = true
  /\ _find_all_migration_files flat3_fs st = Ok flat3_files st
  /\ exists st', migrate flat3_fs 1 st = Ok tt st' /\ store_untouched st st'.
Proof.
  split; [reflexivity |]. split; [vm_compute; reflexivity |].
  apply (migrate_skips_applied_units flat3_fs 0
           (Migrator "/app" (DynamoDB flat3_all_applied) false true tt)
           (Migrator "/app" (DynamoDB flat3_all_applied) false true tt)
           flat3_files).
  - reflexivity.
  - vm_compute; reflexivity.
  - intros p [<- | [<- | [<- | []]]]; eexists;
      (split; [vm_compute; reflexivity | vm_compute; reflexivity]).
Defined.
